(** * uuart: a userspace poll-mode driver for the ASPEED virtual UART

    Shallow embedding of the two driver programs of the repository and the
    properties of their configuration sequence and poll loop.

    - [Uuart]      embeds [src/uuart.c] (no command-line flags);
    - [UuartFlags] embeds the flag-aware program ([struct uuart_config],
      [getopt_long], byte counters).

    Both programs are a single [main] working on a memory-mapped register
    block through [readb]/[writeb].  The hardware and the operating system are
    an abstract [Platform]: every volatile load, every store, every system call
    threads the platform state and leaves an event in a trace. *)

From Stdlib Require Import ZArith List String Ascii Bool Lia.
Import ListNotations.
Open Scope Z_scope.

(** ** C data model *)

(** Both ARM ABIs satisfy [#ifdef __ARM_ARCH]; they differ in the width of
    [unsigned long], which the programs use for [BIT(x)] and for the byte
    counters. [int] is 32 bits wide in both. *)
Inductive abi := ILP32 | LP64.

Definition ulong_bits (a : abi) : Z :=
  match a with ILP32 => 32 | LP64 => 64 end.

Definition ulong_modulus (a : abi) : Z := 2 ^ ulong_bits a.

(** Conversion to [unsigned long] and to [uint8_t]: reduction modulo the width. *)
Definition to_ulong (a : abi) (x : Z) : Z := x mod ulong_modulus a.
Definition to_u8 (x : Z) : Z := x mod 256.

(** [~x] on an [unsigned long]. *)
Definition ulong_not (a : abi) (x : Z) : Z := to_ulong a (Z.lnot x).

Definition INT_MAX : Z := 2147483647.

Definition EXIT_SUCCESS : Z := 0.
Definition EXIT_FAILURE : Z := 1.
Definition NULL : Z := 0.
(** [sys/mman.h]: [MAP_FAILED] is [(void * ) -1]. *)
Definition MAP_FAILED : Z := -1.

(** ** Register map *)

(** [#define BIT(x) (1UL << (unsigned long)(x))] *)
Definition BIT (x : Z) : Z := Z.shiftl 1 x.

Definition D_VUART1 : Z := 0x1e787000.
Definition D_VUART2 : Z := 0x1e788000.

Definition R_RBR : Z := 0x00.
Definition R_THR : Z := 0x00.
Definition R_DLL : Z := 0x00.
Definition R_IER : Z := 0x04.
Definition IER_ERBFI : Z := BIT 0.
Definition IER_ETBEI : Z := BIT 1.
Definition IER_ELSI : Z := BIT 2.
Definition IER_EDSSI : Z := BIT 3.
Definition R_DLM : Z := 0x04.
Definition R_IIR : Z := 0x08.
Definition R_FCR : Z := 0x08.
Definition R_LCR : Z := 0x0c.
Definition R_MCR : Z := 0x10.
Definition R_LSR : Z := 0x14.
Definition LSR_DR : Z := BIT 0.
Definition LSR_OE : Z := BIT 1.
Definition LSR_PE : Z := BIT 2.
Definition LSR_FE : Z := BIT 3.
Definition LSR_BI : Z := BIT 4.
Definition LSR_THRE : Z := BIT 5.
Definition LSR_TEMT : Z := BIT 6.
Definition LSR_RFE : Z := BIT 7.
Definition R_MSR : Z := 0x18.
Definition R_SCR : Z := 0x1c.
Definition R_GCRA : Z := 0x20.
Definition GCRA_H_RFT : Z := Z.lor (BIT 7) (BIT 6).
Definition GCRA_H_TX_CORK : Z := BIT 5.
Definition GCRA_H_LOOP : Z := BIT 4.
Definition GCRA_S_TIMEOUT : Z := Z.lor (BIT 3) (BIT 2).
Definition GCRA_SIRQ_POL : Z := BIT 1.
Definition GCRA_VUART_EN : Z := BIT 0.
Definition R_GCRB : Z := 0x24.
Definition R_VARL : Z := 0x28.
Definition R_VARH : Z := 0x2c.
Definition R_GCRE : Z := 0x30.
Definition R_GCRF : Z := 0x34.
Definition R_GCRG : Z := 0x38.
Definition R_GCRH : Z := 0x3c.

(** The filler byte ['y'] written to THR. *)
Definition FILLER : Z := 121.

(** ** Observable events *)

Record timespec := { tv_sec : Z; tv_nsec : Z }.

(** Lines printed on [stderr] with [fprintf]. *)
Inductive log_line :=
| LogStartup                              (* "Startup configuration" *)
| LogInitialised                          (* "Initialised configuration" *)
| LogTerminating                          (* "Terminating configuration" *)
| LogReg (name : string) (val : Z)        (* "\t<name>:\t0x%02x" *)
| LogRunning (iters : Z)                  (* "Running for %d iterations" *)
| LogResumed (sec usec i lsr : Z)         (* "[..] VUART resumed at %d, LSR: 0x%02x" *)
| LogStalled (sec usec i lsr : Z)         (* "[..] VUART stalled at %d, LSR: 0x%02x" *)
| LogTransmitted (n : Z)                  (* "Transmitted:\t%lu" *)
| LogReceived (n : Z).                    (* "Received:\t%lu" *)

Inductive event :=
| EvOpen (fd : Z)                         (* open("/dev/mem") returned fd *)
| EvMmap (fd ret : Z)                     (* mmap(.., fd, D_VUART2) returned ret *)
| EvRead (regs off val : Z)               (* readb: load of regs[off], then mb() *)
| EvWrite (regs off val : Z)              (* writeb: store to regs[off], then mb() *)
| EvClock (rc : Z)                        (* clock_gettime(CLOCK_BOOTTIME) returned rc *)
| EvLog (l : log_line)                    (* a line on stderr *)
| EvPutchar (c : Z)                       (* a byte on stdout *)
| EvErr (status : Z) (msg : string).      (* err()/errx(): message, then exit(status) *)

Definition trace := list event.

(** ** The platform: hardware and operating system *)

(** Everything the programs obtain from outside: the ABI they are compiled
    for, the two system calls that give access to the register block, the
    device behind the block, and the clock.  Loads and stores are total: an
    access through a pointer that is no mapping is undefined behaviour in C,
    and the platform is left to answer it, so that such an access shows in the
    trace like any other. *)
Class Platform (W : Type) := {
  plat_abi : abi;
  (** [open("/dev/mem", O_SYNC | O_RDWR)]: a descriptor, or -1. *)
  sys_open : W -> Z * W;
  (** [mmap(NULL, getpagesize(), PROT_READ | PROT_WRITE, MAP_SHARED, fd,
      D_VUART2)]: the address of the mapping, or [MAP_FAILED]. *)
  sys_mmap : Z -> W -> Z * W;
  (** Volatile byte load of [regs[off]]; the device may change state. *)
  mem_load : Z -> Z -> W -> Z * W;
  (** Volatile byte store to [regs[off]]. *)
  mem_store : Z -> Z -> Z -> W -> W;
  (** [clock_gettime(CLOCK_BOOTTIME, &ts)]: return code and time. *)
  sys_clock_gettime : W -> (Z * timespec) * W;
}.

(** ** A monad for [main]: platform state, trace, early exit *)

Inductive res (A : Type) :=
| Ret (a : A)            (* the computation returned a *)
| Exited (status : Z)    (* the process called exit(status) *)
| Running.               (* the poll loop is still running (fuel exhausted) *)

Arguments Ret {A} a.
Arguments Exited {A} status.
Arguments Running {A}.

Definition M (W A : Type) : Type := W -> trace * W * res A.

Definition ret {W A} (a : A) : M W A := fun w => ([], w, Ret a).

Definition bind {W A B} (m : M W A) (f : A -> M W B) : M W B :=
  fun w =>
    let '(t1, w1, r1) := m w in
    match r1 with
    | Ret a => let '(t2, w2, r2) := f a w1 in (t1 ++ t2, w2, r2)
    | Exited s => (t1, w1, Exited s)
    | Running => (t1, w1, Running)
    end.

Declare Scope drv_scope.
Delimit Scope drv_scope with drv.
Notation "x <- m ;; k" := (bind m (fun x => k))
  (at level 61, m at next level, right associativity) : drv_scope.
Notation "m ;; k" := (bind m (fun _ => k))
  (at level 61, right associativity) : drv_scope.
Open Scope drv_scope.

Definition emit {W} (e : event) : M W unit := fun w => ([e], w, Ret tt).

(** [fprintf(stderr, ...)] *)
Definition log {W} (l : log_line) : M W unit := emit (EvLog l).

(** [putchar(c)] *)
Definition putchar {W} (c : Z) : M W unit := emit (EvPutchar (to_u8 c)).

(** [exit(status)] *)
Definition exit {W A} (status : Z) : M W A := fun w => ([], w, Exited status).

(** [err(status, msg)] and [errx(status, msg)]: report, then exit. *)
Definition err {W A} (status : Z) (msg : string) : M W A :=
  fun w => ([EvErr status msg], w, Exited status).

(** What [printf]-style formatting makes of a format with one [%c]
    conversion: the conversion is replaced by the character. *)
Fixpoint format_c (fmt : string) (c : ascii) : string :=
  match fmt with
  | EmptyString => EmptyString
  | String a rest =>
      match rest with
      | String b rest' =>
          if Ascii.eqb a "%" && Ascii.eqb b "c" then String c rest'
          else String a (format_c rest c)
      | EmptyString => String a EmptyString
      end
  end.

(** [errx(status, fmt, c)], for a format [fmt] with one [%c] conversion:
    report the formatted message, then exit. *)
Definition errx_c {W A} (status : Z) (fmt : string) (c : ascii) : M W A :=
  err status (format_c fmt c).

(** The poll loop has not finished within the fuel given. *)
Definition running {W A} : M W A := fun w => ([], w, Running).

(** [if (c) stmt;] *)
Definition when {W} (c : bool) (m : M W unit) : M W unit :=
  if c then m else ret tt.

Definition run_trace {W A} (x : trace * W * res A) : trace := fst (fst x).
Definition run_world {W A} (x : trace * W * res A) : W := snd (fst x).
Definition run_res {W A} (x : trace * W * res A) : res A := snd x.

(** ** Code shared by the two programs *)

Module Common.
Section WithPlatform.
Context {W : Type} `{Platform W}.

Definition open_dev_mem : M W Z :=
  fun w => let '(fd, w') := sys_open w in ([EvOpen fd], w', Ret fd).

Definition mmap_vuart (fd : Z) : M W Z :=
  fun w => let '(p, w') := sys_mmap fd w in ([EvMmap fd p], w', Ret p).

Definition clock_gettime : M W (Z * timespec) :=
  fun w => let '(r, w') := sys_clock_gettime w in ([EvClock (fst r)], w', Ret r).

(** [static uint8_t readb(const volatile void *regs, unsigned long offset)] *)
Definition readb (regs offset : Z) : M W Z :=
  fun w =>
    let '(v, w') := mem_load regs offset w in
    let val := to_u8 v in
    ([EvRead regs offset val], w', Ret val).

(** [static void writeb(volatile void *regs, unsigned long offset, uint8_t val)] *)
Definition writeb (regs offset val : Z) : M W unit :=
  fun w =>
    let val := to_u8 val in
    ([EvWrite regs offset val], mem_store regs offset val w, Ret tt).

(** The registers [dump_regs] prints, in order. *)
Definition dump_table : list (string * Z) :=
  [ ("IER", R_IER); ("IIR", R_IIR); ("LCR", R_LCR); ("MCR", R_MCR);
    ("LSR", R_LSR); ("MSR", R_MSR); ("GCRA", R_GCRA); ("GCRB", R_GCRB);
    ("VARL", R_VARL); ("VARH", R_VARH); ("GCRE", R_GCRE); ("GCRF", R_GCRF);
    ("GCRG", R_GCRG); ("GCRH", R_GCRH) ]%string.

Fixpoint dump_list (regs : Z) (l : list (string * Z)) : M W unit :=
  match l with
  | [] => ret tt
  | (name, off) :: l' =>
      v <- readb regs off ;;
      log (LogReg name v) ;;
      dump_list regs l'
  end.

(** [static void dump_regs(const volatile void *regs)] *)
Definition dump_regs (regs : Z) : M W unit := dump_list regs dump_table.

(** [(lsr & LSR_DR) || (lsr & LSR_THRE)] *)
Definition lsr_dr (lsr : Z) : bool := negb (Z.land lsr LSR_DR =? 0).
Definition lsr_thre (lsr : Z) : bool := negb (Z.land lsr LSR_THRE =? 0).
Definition lsr_active (lsr : Z) : bool := lsr_dr lsr || lsr_thre lsr.

(** [rc = clock_gettime(CLOCK_BOOTTIME, &ts); if (rc) err(EXIT_FAILURE,
    "clock_gettime");] *)
Definition boottime : M W timespec :=
  r <- clock_gettime ;;
  (if negb (fst r =? 0) then err EXIT_FAILURE "clock_gettime" else ret tt) ;;
  ret (snd r).

(** The stall/resume block of the loop body (the [if]/[else] on the line
    status, identical in both programs); returns the new value of [stall]. *)
Definition stall_edge (stall : bool) (i lsr : Z) : M W bool :=
  if lsr_active lsr then
    when stall
      (ts <- boottime ;;
       log (LogResumed (tv_sec ts) (Z.quot (tv_nsec ts) 1000) i lsr)) ;;
    ret false
  else
    when (negb stall)
      (ts <- boottime ;;
       log (LogStalled (tv_sec ts) (Z.quot (tv_nsec ts) 1000) i lsr)) ;;
    ret true.

(** The start of [main] in both programs: obtain the register block, print
    "Startup configuration" and dump the registers; returns [regs]. *)
Definition startup : M W Z :=
  fd <- open_dev_mem ;;
  (if fd =? -1 then err EXIT_FAILURE "open" else ret tt) ;;
  regs <- mmap_vuart fd ;;
  (if regs =? NULL then err EXIT_FAILURE "mmap" else ret tt) ;;
  log LogStartup ;;
  dump_regs regs ;;
  ret regs.

End WithPlatform.
End Common.

(** ** Loops *)

(** Outcome of running a loop with a bounded number of iterations. *)
Inductive loop_end (S : Type) :=
| LoopDone (st : S)      (* the loop condition became false *)
| LoopFuel (st : S).     (* fuel exhausted with the loop condition still true *)

Arguments LoopDone {S} st.
Arguments LoopFuel {S} st.

Definition loop_state {S} (e : loop_end S) : S :=
  match e with LoopDone st => st | LoopFuel st => st end.

(** [for (...; cond; incr) body], on the variables [st] that live across
    iterations, with [incr] folded into [body]; at most [fuel] iterations. *)
Fixpoint for_loop {W S} (cond : S -> bool) (body : S -> M W S)
  (fuel : nat) (st : S) : M W (loop_end S) :=
  if cond st then
    match fuel with
    | O => ret (LoopFuel st)
    | Datatypes.S fuel' =>
        st' <- body st ;;
        for_loop cond body fuel' st'
    end
  else ret (LoopDone st).

(** The runs of a loop, iteration by iteration. *)
Inductive loop_run {W S} (cond : S -> bool) (body : S -> M W S)
  : S -> W -> trace * W * res (loop_end S) -> Prop :=
| run_done st w :
    cond st = false ->
    loop_run cond body st w ([], w, Ret (LoopDone st))
| run_fuel st w :
    cond st = true ->
    loop_run cond body st w ([], w, Ret (LoopFuel st))
| run_exit st w t w' s :
    cond st = true ->
    body st w = (t, w', Exited s) ->
    loop_run cond body st w (t, w', Exited s)
| run_stuck st w t w' :
    cond st = true ->
    body st w = (t, w', Running) ->
    loop_run cond body st w (t, w', Running)
| run_step st w t1 w1 st1 t2 w2 r :
    cond st = true ->
    body st w = (t1, w1, Ret st1) ->
    loop_run cond body st1 w1 (t2, w2, r) ->
    loop_run cond body st w (t1 ++ t2, w2, r).

(** ** [src/uuart.c] *)

Module Uuart.
Import Common.

(** The locals of [main] that live across loop iterations. *)
Record poll_state := { st_stall : bool; st_i : Z }.

Section WithPlatform.
Context {W : Type} `{Platform W}.

(** Lines 118-128: the four unconditional configuration writes. *)
Definition configure (regs : Z) : M W unit :=
  (* Enable the VUART *)
  writeb regs R_GCRA (Z.lor GCRA_VUART_EN GCRA_H_TX_CORK) ;;
  (* Clear IER *)
  writeb regs R_IER 0 ;;
  (* Reset and enable the FIFOs *)
  writeb regs R_FCR 0x07 ;;
  (* Indicate we're ready *)
  writeb regs R_MCR 0x0b.

(** Lines 135-171: the body of the [for] loop together with its [i++]. *)
Definition poll_iter (regs : Z) (st : poll_state) : M W poll_state :=
  lsr <- readb regs R_LSR ;;
  stall <- stall_edge (st_stall st) (st_i st) lsr ;;
  when (lsr_dr lsr)
    (c <- readb regs R_RBR ;; putchar c) ;;
  when (lsr_thre lsr)
    (writeb regs R_THR FILLER) ;;
  ret {| st_stall := stall; st_i := st_i st + 1 |}.

(** Line 134: [for (int i = 0, iters = atoi(argv[1]); i < iters; i++)]. *)
Definition loop_cond (iters i : Z) : bool := i <? iters.

Definition poll_loop (fuel : nat) (regs iters : Z) (st : poll_state)
  : M W (loop_end poll_state) :=
  for_loop (fun st => loop_cond iters (st_i st)) (poll_iter regs) fuel st.

Definition poll_init : poll_state := {| st_stall := false; st_i := 0 |}.

(** Lines 118-177: what [main] does once it has a count. *)
Definition session (fuel : nat) (regs iters : Z) : M W unit :=
  configure regs ;;
  log LogInitialised ;;
  dump_regs regs ;;
  e <- poll_loop fuel regs iters poll_init ;;
  match e with
  | LoopFuel _ => running
  | LoopDone _ =>
      log LogTerminating ;;
      dump_regs regs ;;
      exit EXIT_SUCCESS
  end.

(** [int main(int argc, const char *argv[])].  [args] holds [atoi] of each of
    [argv[1]], [argv[2]], ...; so [argc < 2] is [args = []]. *)
Definition main (fuel : nat) (args : list Z) : M W unit :=
  regs <- startup ;;
  match args with
  | [] => exit EXIT_SUCCESS
  | iters :: _ => session fuel regs iters
  end.

End WithPlatform.
End Uuart.

(** ** The flag-aware program *)

Module UuartFlags.
Import Common.

(** [struct uuart_config] *)
Record uuart_config := {
  assume_dtr : bool;
  assume_enabled : bool;
  assume_fifos : bool;
  ignore_rx : bool;
  ignore_tx : bool;
}.

(** [struct uuart_config cfg = {0};] *)
Definition cfg0 : uuart_config :=
  {| assume_dtr := false; assume_enabled := false; assume_fifos := false;
     ignore_rx := false; ignore_tx := false |}.

Definition help_text : string :=
  "%s: Userspace UART driver

-D, --assume-dtr
	Assume MCR[DTR] and MCR[RTS] are set appropriately

-E, --assume-enabled
	Assume the UART is enabled and configured to not drain the Rx FIFO

-F, --assume-fifos
	Assume the FIFOs are configured and do not need resetting

-h, --help
	Help!

-R, --ignore-rx
	Ignore LSR[DR] and do not read RBR

-T, --ignore-tx
	Ignore LSR[THRE] and do not write THR
".

(** The locals of [main] that live across loop iterations. *)
Record poll_state := {
  st_stall : bool;
  st_i : Z;
  st_txd : Z;
  st_rxd : Z;
}.

(** Lines 194-199: the value of [ier] after the masking and the collapse. *)
Definition ier_value (a : abi) (cfg : uuart_config) (ier : Z) : Z :=
  let ier := if negb (ignore_tx cfg)
             then to_u8 (Z.land ier (ulong_not a IER_ETBEI)) else ier in
  let ier := if negb (ignore_rx cfg)
             then to_u8 (Z.land ier (ulong_not a IER_ERBFI)) else ier in
  if Z.land ier (Z.lor IER_ETBEI IER_ERBFI) =? 0 then 0 else ier.

(** The guards of the transmit and receive actions of the loop body:
    [!cfg.ignore_tx && (lsr & LSR_THRE)] and [!cfg.ignore_rx && (lsr & LSR_DR)]. *)
Definition does_tx (cfg : uuart_config) (lsr : Z) : bool :=
  negb (ignore_tx cfg) && lsr_thre lsr.
Definition does_rx (cfg : uuart_config) (lsr : Z) : bool :=
  negb (ignore_rx cfg) && lsr_dr lsr.

Section WithPlatform.
Context {W : Type} `{Platform W}.

(** Lines 141-171: the [getopt_long] loop.  [opts] lists the values
    [getopt_long] returns before it returns -1. *)
Fixpoint parse_options (opts : list ascii) (cfg : uuart_config)
  : M W uuart_config :=
  match opts with
  | [] => ret cfg
  | o :: opts' =>
      if Ascii.eqb o "D" then
        parse_options opts'
          {| assume_dtr := true; assume_enabled := assume_enabled cfg;
             assume_fifos := assume_fifos cfg; ignore_rx := ignore_rx cfg;
             ignore_tx := ignore_tx cfg |}
      else if Ascii.eqb o "E" then
        parse_options opts'
          {| assume_dtr := assume_dtr cfg; assume_enabled := true;
             assume_fifos := assume_fifos cfg; ignore_rx := ignore_rx cfg;
             ignore_tx := ignore_tx cfg |}
      else if Ascii.eqb o "F" then
        parse_options opts'
          {| assume_dtr := assume_dtr cfg; assume_enabled := assume_enabled cfg;
             assume_fifos := true; ignore_rx := ignore_rx cfg;
             ignore_tx := ignore_tx cfg |}
      else if Ascii.eqb o "h" then
        err EXIT_SUCCESS help_text
      else if Ascii.eqb o "R" then
        parse_options opts'
          {| assume_dtr := assume_dtr cfg; assume_enabled := assume_enabled cfg;
             assume_fifos := assume_fifos cfg; ignore_rx := true;
             ignore_tx := ignore_tx cfg |}
      else if Ascii.eqb o "T" then
        parse_options opts'
          {| assume_dtr := assume_dtr cfg; assume_enabled := assume_enabled cfg;
             assume_fifos := assume_fifos cfg; ignore_rx := ignore_rx cfg;
             ignore_tx := true |}
      else
        errx_c EXIT_FAILURE "Unexpected option: %c" o
  end.

(** Lines 192-200: Configure IER. *)
Definition configure_ier (cfg : uuart_config) (regs : Z) : M W unit :=
  ier <- readb regs R_IER ;;
  writeb regs R_IER (ier_value plat_abi cfg ier).

(** Lines 188-208: the configuration sequence. *)
Definition configure (cfg : uuart_config) (regs : Z) : M W unit :=
  (* Enable the VUART *)
  when (negb (assume_enabled cfg))
    (writeb regs R_GCRA (Z.lor GCRA_VUART_EN GCRA_H_TX_CORK)) ;;
  (* Configure IER *)
  configure_ier cfg regs ;;
  (* Reset and enable the FIFOs *)
  when (negb (assume_fifos cfg))
    (writeb regs R_FCR 0x07) ;;
  (* Indicate we're ready *)
  when (negb (assume_dtr cfg))
    (writeb regs R_MCR 0x0b).

(** Lines 217-257 and the increment [i += (iters > 0)] of line 216. *)
Definition poll_iter (cfg : uuart_config) (regs iters : Z) (st : poll_state)
  : M W poll_state :=
  lsr <- readb regs R_LSR ;;
  stall <- stall_edge (st_stall st) (st_i st) lsr ;;
  txd <- (if does_tx cfg lsr then
            writeb regs R_THR FILLER ;;
            ret (to_ulong plat_abi (st_txd st + 1))
          else ret (st_txd st)) ;;
  rxd <- (if does_rx cfg lsr then
            c <- readb regs R_RBR ;;
            putchar c ;;
            ret (to_ulong plat_abi (st_rxd st + 1))
          else ret (st_rxd st)) ;;
  ret {| st_stall := stall;
         st_i := st_i st + (if iters >? 0 then 1 else 0);
         st_txd := txd; st_rxd := rxd |}.

(** Line 216: [for (int i = 0; iters < 0 || i < iters; i += (iters > 0))]. *)
Definition loop_cond (iters i : Z) : bool := (iters <? 0) || (i <? iters).

Definition poll_loop (fuel : nat) (cfg : uuart_config) (regs iters : Z)
  (st : poll_state) : M W (loop_end poll_state) :=
  for_loop (fun st => loop_cond iters (st_i st)) (poll_iter cfg regs iters)
    fuel st.

(** [unsigned long txd = 0, rxd = 0; stall = false; int i = 0]. *)
Definition poll_init : poll_state :=
  {| st_stall := false; st_i := 0; st_txd := 0; st_rxd := 0 |}.

(** Lines 260-269: what follows the loop. *)
Definition finish (cfg : uuart_config) (regs : Z) (st : poll_state) : M W unit :=
  log LogTerminating ;;
  dump_regs regs ;;
  when (negb (ignore_tx cfg)) (log (LogTransmitted (st_txd st))) ;;
  when (negb (ignore_rx cfg)) (log (LogReceived (st_rxd st))) ;;
  exit EXIT_SUCCESS.

(** Lines 188-269: what [main] does once it has a count. *)
Definition session (fuel : nat) (cfg : uuart_config) (regs iters : Z)
  : M W unit :=
  configure cfg regs ;;
  log LogInitialised ;;
  dump_regs regs ;;
  log (LogRunning iters) ;;
  e <- poll_loop fuel cfg regs iters poll_init ;;
  match e with
  | LoopFuel _ => running
  | LoopDone st => finish cfg regs st
  end.

(** [int main(int argc, char * const argv[])].  [opts] is what [getopt_long]
    yields; [args] holds [atoi] of each of [argv[optind]], [argv[optind+1]],
    ...; so [optind == argc] is [args = []], and [assert(optind <= argc)]
    holds by construction. *)
Definition main (fuel : nat) (opts : list ascii) (args : list Z) : M W unit :=
  cfg <- parse_options opts cfg0 ;;
  regs <- startup ;;
  match args with
  | [] => exit EXIT_SUCCESS
  | iters :: _ => session fuel cfg regs iters
  end.

End WithPlatform.

(** The interrupt-enable rule as section 4.2 step 2 of the specification words
    it: start from the current value; clear the transmit-empty interrupt bit
    (bit 1) unless transmit is ignored; clear the receive-data interrupt bit
    (bit 0) unless receive is ignored; if neither bit remains set, the whole
    value is zero. *)
Definition spec_ier_rule (ign_tx ign_rx : bool) (current : Z) : Z :=
  let v := if ign_tx then current else Z.clearbit current 1 in
  let v := if ign_rx then v else Z.clearbit v 0 in
  if Z.testbit v 1 || Z.testbit v 0 then v else 0.

End UuartFlags.

(** ** Two concrete platforms, used to run the programs on test inputs *)

Module Sim.

(** A scripted device: [open] and [mmap] return fixed values; a load of the
    line-status register takes the next sample of [sim_lsr] (once the script is
    used up, and for every other register, the load returns the register
    file's value); stores update the register file; [clock_gettime] takes its
    next return code from [sim_clock] (0 once the script is used up). *)
Record sim := {
  sim_fd : Z;
  sim_map : Z;
  sim_regs : Z -> Z;
  sim_lsr : list Z;
  sim_clock : list Z;
}.

Definition sim_time : timespec := {| tv_sec := 12; tv_nsec := 345678 |}.

Definition sim_load (regs off : Z) (s : sim) : Z * sim :=
  if off =? R_LSR then
    match sim_lsr s with
    | v :: l =>
        (v, {| sim_fd := sim_fd s; sim_map := sim_map s; sim_regs := sim_regs s;
               sim_lsr := l; sim_clock := sim_clock s |})
    | [] => (sim_regs s off, s)
    end
  else (sim_regs s off, s).

Definition sim_store (regs off val : Z) (s : sim) : sim :=
  {| sim_fd := sim_fd s; sim_map := sim_map s;
     sim_regs := fun o => if o =? off then val else sim_regs s o;
     sim_lsr := sim_lsr s; sim_clock := sim_clock s |}.

Definition sim_clock_gettime (s : sim) : (Z * timespec) * sim :=
  match sim_clock s with
  | rc :: l =>
      ((rc, sim_time),
       {| sim_fd := sim_fd s; sim_map := sim_map s; sim_regs := sim_regs s;
          sim_lsr := sim_lsr s; sim_clock := l |})
  | [] => ((0, sim_time), s)
  end.

#[global] Instance sim_platform : Platform sim := {|
  plat_abi := ILP32;
  sys_open := fun s => (sim_fd s, s);
  sys_mmap := fun _ s => (sim_map s, s);
  mem_load := sim_load;
  mem_store := sim_store;
  sys_clock_gettime := sim_clock_gettime;
|}.

(** A device whose registers all read as zero, mapped at [0x76f00000]. *)
Definition sim0 (lsr clock : list Z) : sim :=
  {| sim_fd := 3; sim_map := 0x76f00000; sim_regs := fun _ => 0;
     sim_lsr := lsr; sim_clock := clock |}.

(** The same device with only the line-status interrupt (bit 2) enabled in
    its interrupt-enable register. *)
Definition sim_elsi : sim :=
  {| sim_fd := 3; sim_map := 0x76f00000;
     sim_regs := fun o => if o =? R_IER then IER_ELSI else 0;
     sim_lsr := []; sim_clock := [] |}.

(** A platform on which [open] succeeds and [mmap] fails. *)
Definition sim_nomap : sim :=
  {| sim_fd := 3; sim_map := MAP_FAILED; sim_regs := fun _ => 0;
     sim_lsr := []; sim_clock := [] |}.

(** A platform on which [open] fails. *)
Definition sim_noopen : sim :=
  {| sim_fd := -1; sim_map := 0x76f00000; sim_regs := fun _ => 0;
     sim_lsr := []; sim_clock := [] |}.

(** A platform on which [mmap] returns a null pointer. *)
Definition sim_nullmap : sim :=
  {| sim_fd := 3; sim_map := NULL; sim_regs := fun _ => 0;
     sim_lsr := []; sim_clock := [] |}.

(** A stateless 32-bit platform whose line-status register always reads
    [LSR_THRE] (transmitter ready, no data) and whose clock never fails. *)
Inductive thre_only := ThreOnly.

#[global] Instance thre_platform : Platform thre_only := {|
  plat_abi := ILP32;
  sys_open := fun s => (3, s);
  sys_mmap := fun _ s => (0x76f00000, s);
  mem_load := fun _ off s => (if off =? R_LSR then LSR_THRE else 0, s);
  mem_store := fun _ _ _ s => s;
  sys_clock_gettime := fun s => ((0, sim_time), s);
|}.

End Sim.

(** ** Reading traces *)

Definition is_write (e : event) : bool :=
  match e with EvWrite _ _ _ => true | _ => false end.

Definition writes (t : trace) : trace := filter is_write t.

(** The line-status samples of a trace, oldest first. *)
Fixpoint lsr_samples (t : trace) : list Z :=
  match t with
  | [] => []
  | EvRead _ off v :: t' =>
      if off =? R_LSR then v :: lsr_samples t' else lsr_samples t'
  | _ :: t' => lsr_samples t'
  end.

Definition is_resumed (e : event) : bool :=
  match e with EvLog (LogResumed _ _ _ _) => true | _ => false end.

Definition is_stalled (e : event) : bool :=
  match e with EvLog (LogStalled _ _ _ _) => true | _ => false end.

(** The iteration index printed by a stall/resume line. *)
Definition edge_index (e : event) : option Z :=
  match e with
  | EvLog (LogResumed _ _ i _) => Some i
  | EvLog (LogStalled _ _ i _) => Some i
  | _ => None
  end.

Definition is_failed_clock (e : event) : bool :=
  match e with EvClock rc => negb (rc =? 0) | _ => false end.

Definition is_err (e : event) : bool :=
  match e with EvErr _ _ => true | _ => false end.

(** A property of bytes that holds on each of the 256 values holds on all. *)
Definition all_bytes (f : Z -> bool) : bool :=
  forallb f (map Z.of_nat (seq 0 256)).

(** Accesses to the interrupt-enable register. *)
Definition is_ier_access (e : event) : bool :=
  match e with
  | EvRead _ off _ => off =? R_IER
  | EvWrite _ off _ => off =? R_IER
  | _ => false
  end.

(** The platform state in which [configure] reads the interrupt-enable
    register: after the enable write, if that one is not skipped. *)
Definition after_enable {W : Type} `{Platform W}
  (cfg : UuartFlags.uuart_config) (regs : Z) (w : W) : W :=
  if UuartFlags.assume_enabled cfg then w
  else mem_store regs R_GCRA (to_u8 (Z.lor GCRA_VUART_EN GCRA_H_TX_CORK)) w.

(** The stall/resume lines of a trace, oldest first, each with the raw
    line-status value it prints. *)
Inductive edge :=
| EdgeResumed (lsr : Z)
| EdgeStalled (lsr : Z).

Fixpoint edges (t : trace) : list edge :=
  match t with
  | [] => []
  | EvLog (LogResumed _ _ _ lsr) :: t' => EdgeResumed lsr :: edges t'
  | EvLog (LogStalled _ _ _ lsr) :: t' => EdgeStalled lsr :: edges t'
  | _ :: t' => edges t'
  end.

(** The line the stall/resume block prints on an edge. *)
Definition edge_line (active : bool) (ts : timespec) (i lsr : Z) : log_line :=
  if active then LogResumed (tv_sec ts) (Z.quot (tv_nsec ts) 1000) i lsr
  else LogStalled (tv_sec ts) (Z.quot (tv_nsec ts) 1000) i lsr.

(** The poll state machine as section 4.3 of the specification words it:
    states Flowing and Stalled; a sample is active iff its data-ready bit
    (bit 0) or its transmit-holding-empty bit (bit 5) is set; an active sample
    in state Stalled gives a "resumed" line and state Flowing; an inactive
    sample in state Flowing gives a "stalled" line and state Stalled; nothing
    else is logged. *)
Inductive poll_phase := Flowing | Stalled.

Definition spec_active (lsr : Z) : bool := Z.testbit lsr 0 || Z.testbit lsr 5.

Fixpoint spec_edges (s : poll_phase) (samples : list Z) : list edge :=
  match samples with
  | [] => []
  | lsr :: rest =>
      match s, spec_active lsr with
      | Stalled, true => EdgeResumed lsr :: spec_edges Flowing rest
      | Flowing, false => EdgeStalled lsr :: spec_edges Stalled rest
      | _, _ => spec_edges s rest
      end
  end.

(** The [stall] flag of the code as a state of that machine. *)
Definition phase_of (stall : bool) : poll_phase :=
  if stall then Stalled else Flowing.

(** What one completed iteration logs about stall and resume, from the state
    before it and the sample it reads. *)
Definition iter_edges (stall : bool) (lsr : Z) : list edge :=
  if Common.lsr_active lsr && stall then [EdgeResumed lsr]
  else if negb (Common.lsr_active lsr) && negb stall then [EdgeStalled lsr]
  else [].

(** Edge-triggered logging of a run [x] of the poll loop entered with
    [stall]: unless the run is cut short by [exit], its stall/resume lines are
    those of the specification's state machine on the samples read; and when
    every sample read is active, nothing is logged from Flowing, at most one
    line from Stalled, and exactly one "resumed" line, for the first sample,
    if at least one sample was read and the run was not cut short. *)
Definition edge_triggered {W A} (stall : bool) (x : trace * W * res A) : Prop :=
  let t := run_trace x in
  let samples := lsr_samples t in
  ((forall s, run_res x <> Exited s) ->
   edges t = spec_edges (phase_of stall) samples)
  /\ (forallb Common.lsr_active samples = true ->
      (stall = false -> edges t = [])
      /\ (List.length (edges t) <= 1)%nat
      /\ (stall = true -> samples <> [] -> (forall s, run_res x <> Exited s) ->
          edges t = [EdgeResumed (hd 0 samples)])).

(** The number of iterations a run of the poll loop has started: each
    iteration starts with its one read of the line-status register. *)
Definition iterations (t : trace) : nat := List.length (lsr_samples t).

Definition is_terminating (e : event) : bool :=
  match e with EvLog LogTerminating => true | _ => false end.

(** Events other than a failed clock read, an error report and the
    "Terminating configuration" line. *)
Definition calm (e : event) : bool :=
  negb (is_failed_clock e) && negb (is_err e) && negb (is_terminating e).

(** Loop variables of the flag-aware program with [stall] set. *)
Definition st_stalled : UuartFlags.poll_state :=
  {| UuartFlags.st_stall := true; UuartFlags.st_i := 0;
     UuartFlags.st_txd := 0; UuartFlags.st_rxd := 0 |}.

(** The number of samples on which the transmit action, resp. the receive
    action, of the flag-aware loop fires: the samples with the
    transmit-holding-empty bit, resp. the data-ready bit, set, if the path is
    not ignored (none if it is). *)
Definition tx_count (cfg : UuartFlags.uuart_config) (samples : list Z) : Z :=
  Z.of_nat (List.length (filter (UuartFlags.does_tx cfg) samples)).
Definition rx_count (cfg : UuartFlags.uuart_config) (samples : list Z) : Z :=
  Z.of_nat (List.length (filter (UuartFlags.does_rx cfg) samples)).

(** Events that move a byte: any register write, a read of the
    receive-buffer register, a byte on the output stream. *)
Definition is_transfer (e : event) : bool :=
  match e with
  | EvWrite _ _ _ => true
  | EvRead _ off _ => off =? R_RBR
  | EvPutchar _ => true
  | _ => false
  end.

(** The transmit action immediately followed by the receive action at the
    end of a trace, with no byte moved before them; and the reverse order. *)
Definition tx_then_rx (regs : Z) (t : trace) : Prop :=
  exists pre c,
    t = pre ++ [EvWrite regs R_THR FILLER; EvRead regs R_RBR c; EvPutchar c]
    /\ forallb (fun e => negb (is_transfer e)) pre = true.

Definition rx_then_tx (regs : Z) (t : trace) : Prop :=
  exists pre c,
    t = pre ++ [EvRead regs R_RBR c; EvPutchar c; EvWrite regs R_THR FILLER]
    /\ forallb (fun e => negb (is_transfer e)) pre = true.

(** The events of a register dump: loads and "name: value" lines. *)
Definition is_dump_event (e : event) : bool :=
  match e with
  | EvRead _ _ _ => true
  | EvLog (LogReg _ _) => true
  | _ => false
  end.

(** The register offsets a trace loads from, oldest first. *)
Fixpoint read_offsets (t : trace) : list Z :=
  match t with
  | [] => []
  | EvRead _ off _ :: t' => off :: read_offsets t'
  | _ :: t' => read_offsets t'
  end.

(** Every flag of the flag-aware program set. *)
Definition cfg_all : UuartFlags.uuart_config :=
  {| UuartFlags.assume_dtr := true; UuartFlags.assume_enabled := true;
     UuartFlags.assume_fifos := true; UuartFlags.ignore_rx := true;
     UuartFlags.ignore_tx := true |}.

(** The option characters [main] accepts without exiting. *)
Definition flag_option (o : ascii) : bool :=
  Ascii.eqb o "D" || Ascii.eqb o "E" || Ascii.eqb o "F"
  || Ascii.eqb o "R" || Ascii.eqb o "T".

(** The configuration writes of the flag-aware program, step by step, for the
    value [ier] read from the interrupt-enable register. *)
Definition configure_writes (cfg : UuartFlags.uuart_config) (regs ier : Z)
  : trace :=
  (if UuartFlags.assume_enabled cfg then []
   else [EvWrite regs R_GCRA (Z.lor GCRA_VUART_EN GCRA_H_TX_CORK)])
  ++ [EvWrite regs R_IER
        (UuartFlags.spec_ier_rule (UuartFlags.ignore_tx cfg)
           (UuartFlags.ignore_rx cfg) ier)]
  ++ (if UuartFlags.assume_fifos cfg then [] else [EvWrite regs R_FCR 0x07])
  ++ (if UuartFlags.assume_dtr cfg then [] else [EvWrite regs R_MCR 0x0b]).

(** A trace without a failed clock read. *)
Definition no_failed_clock (t : trace) : bool :=
  forallb (fun e => negb (is_failed_clock e)) t.

(** A run that a failed clock read has ended: the process exited with
    [EXIT_FAILURE]; the last two events are the clock read, with a non-zero
    return code, and the error report; before them there is no failed clock
    read, no error report and no "Terminating configuration" line. *)
Definition aborted_on_clock {W A} (x : trace * W * res A) : Prop :=
  run_res x = Exited EXIT_FAILURE
  /\ exists pre rc,
       rc <> 0
       /\ run_trace x =
            pre ++ [EvClock rc; EvErr EXIT_FAILURE "clock_gettime"]
       /\ forallb calm pre = true.

(** Fail-fast runs: ended by a failed clock read, or free of error reports,
    failed clock reads and the terminating line. *)
Definition fail_fast {W A} (x : trace * W * res A) : Prop :=
  match run_res x with
  | Exited _ => aborted_on_clock x
  | _ => forallb calm (run_trace x) = true
  end.


(** What is left of a trace once register loads and register lines are
    dropped. *)
Definition without_dumps (t : trace) : trace :=
  filter (fun e => negb (is_dump_event e)) t.

(** ** Reading traces, continued *)

(** The events of a dump of the registers [l], given with the values read. *)
Definition dump_events (regs : Z) (l : list (string * Z * Z)) : trace :=
  flat_map (fun '(name, off, v) => [EvRead regs off v; EvLog (LogReg name v)]) l.

(** A dump performed in full: the fourteen registers are loaded in the order
    of [dump_regs], and each load is followed by the line with the register's
    name and the byte loaded; nothing else happens. *)
Definition full_dump (regs : Z) (t : trace) : Prop :=
  read_offsets t =
    [R_IER; R_IIR; R_LCR; R_MCR; R_LSR; R_MSR; R_GCRA; R_GCRB;
     R_VARL; R_VARH; R_GCRE; R_GCRF; R_GCRG; R_GCRH]
  /\ exists vals,
       List.length vals = 14%nat
       /\ Forall (fun v => 0 <= v < 256) vals
       /\ t = dump_events regs (combine Common.dump_table vals).

(** Events that neither touch the device nor write to the output stream. *)
Definition is_plain (e : event) : bool :=
  match e with
  | EvOpen _ | EvMmap _ _ | EvErr _ _ | EvLog _ | EvClock _ => true
  | _ => false
  end.

(** A register access through [regs], at an offset of the register map, with
    a byte value; any other event. *)
Definition access_ok (regs : Z) (e : event) : bool :=
  match e with
  | EvRead r off v | EvWrite r off v =>
      (r =? regs) && (0 <=? off) && (off <=? R_GCRH)
      && (0 <=? v) && (v <? 256)
  | _ => true
  end.

(** What the poll loop may do to the device: read the line-status register,
    read the receive buffer, write the filler byte to the transmit-holding
    register. *)
Definition loop_access (regs : Z) (e : event) : bool :=
  match e with
  | EvRead r off _ => (r =? regs) && ((off =? R_LSR) || (off =? R_RBR))
  | EvWrite r off v => (r =? regs) && (off =? R_THR) && (v =? FILLER)
  | _ => true
  end.

(** The bytes written to the transmit-holding register, the bytes read from
    the receive-buffer register, and the bytes put on the output stream. *)
Fixpoint thr_writes (t : trace) : list Z :=
  match t with
  | [] => []
  | EvWrite _ off v :: t' =>
      if off =? R_THR then v :: thr_writes t' else thr_writes t'
  | _ :: t' => thr_writes t'
  end.

Fixpoint rbr_reads (t : trace) : list Z :=
  match t with
  | [] => []
  | EvRead _ off v :: t' =>
      if off =? R_RBR then v :: rbr_reads t' else rbr_reads t'
  | _ :: t' => rbr_reads t'
  end.

Fixpoint putchars (t : trace) : list Z :=
  match t with
  | [] => []
  | EvPutchar c :: t' => c :: putchars t'
  | _ :: t' => putchars t'
  end.

(** The number of calls of [clock_gettime]. *)
Fixpoint clock_reads (t : trace) : nat :=
  match t with
  | [] => O
  | EvClock _ :: t' => S (clock_reads t')
  | _ :: t' => clock_reads t'
  end.

(** Every stall/resume line of [t] prints the number of the iteration it is
    logged in, iterations being numbered from [next] on: an iteration starts
    with its read of the line-status register. *)
Fixpoint index_ok (next : Z) (t : trace) : bool :=
  match t with
  | [] => true
  | EvRead _ off _ :: t' =>
      if off =? R_LSR then index_ok (next + 1) t' else index_ok next t'
  | EvLog (LogResumed _ _ i _) :: t' => (i =? next - 1) && index_ok next t'
  | EvLog (LogStalled _ _ i _) :: t' => (i =? next - 1) && index_ok next t'
  | _ :: t' => index_ok next t'
  end.

(** The checkpoint lines and the counter lines of a trace. *)
Fixpoint checkpoints (t : trace) : list log_line :=
  match t with
  | [] => []
  | EvLog LogStartup :: t' => LogStartup :: checkpoints t'
  | EvLog LogInitialised :: t' => LogInitialised :: checkpoints t'
  | EvLog LogTerminating :: t' => LogTerminating :: checkpoints t'
  | _ :: t' => checkpoints t'
  end.

Fixpoint counter_lines (t : trace) : list log_line :=
  match t with
  | [] => []
  | EvLog (LogTransmitted n) :: t' => LogTransmitted n :: counter_lines t'
  | EvLog (LogReceived n) :: t' => LogReceived n :: counter_lines t'
  | _ :: t' => counter_lines t'
  end.

(** The configuration [parse_options] returns for flag options [opts],
    starting from [cfg]. *)
Definition with_flags (cfg : UuartFlags.uuart_config) (opts : list ascii)
  : UuartFlags.uuart_config :=
  {| UuartFlags.assume_dtr :=
       UuartFlags.assume_dtr cfg || existsb (Ascii.eqb "D") opts;
     UuartFlags.assume_enabled :=
       UuartFlags.assume_enabled cfg || existsb (Ascii.eqb "E") opts;
     UuartFlags.assume_fifos :=
       UuartFlags.assume_fifos cfg || existsb (Ascii.eqb "F") opts;
     UuartFlags.ignore_rx :=
       UuartFlags.ignore_rx cfg || existsb (Ascii.eqb "R") opts;
     UuartFlags.ignore_tx :=
       UuartFlags.ignore_tx cfg || existsb (Ascii.eqb "T") opts |}.

(** What [main] does on the first option that is not a flag. *)
Definition option_exit {W A} (o : ascii) : M W A :=
  if Ascii.eqb o "h" then err EXIT_SUCCESS UuartFlags.help_text
  else errx_c EXIT_FAILURE "Unexpected option: %c" o.

(** The samples of the iterations of a run of the loop that ran to their
    end: all the samples read, but the last one if the run was ended by
    [exit] in the middle of an iteration. *)
Definition completed {W S} (x : trace * W * res (loop_end S)) : list Z :=
  match run_res x with
  | Exited _ => removelast (lsr_samples (run_trace x))
  | _ => lsr_samples (run_trace x)
  end.

(** * Properties *)

(** ** Bytes *)

Lemma to_u8_range (x : Z) : 0 <= to_u8 x < 256.
Proof. unfold to_u8. apply Z.mod_pos_bound. lia. Qed.

Lemma to_u8_small (x : Z) : 0 <= x < 256 -> to_u8 x = x.
Proof. intros Hx. unfold to_u8. apply Z.mod_small. exact Hx. Qed.

Lemma to_u8_idem (x : Z) : to_u8 (to_u8 x) = to_u8 x.
Proof. apply to_u8_small, to_u8_range. Qed.

(** A property of bytes that holds on each of the 256 values holds on all. *)
Lemma all_bytes_spec (f : Z -> bool) :
  all_bytes f = true -> forall x, 0 <= x < 256 -> f x = true.
Proof.
  unfold all_bytes. intros Hall x Hx.
  rewrite forallb_forall in Hall. apply Hall.
  rewrite in_map_iff. exists (Z.to_nat x). split.
  - apply Z2Nat.id. lia.
  - apply in_seq. lia.
Qed.

(** ** The interrupt-enable value *)

Import UuartFlags.

Lemma ier_value_spec_byte (a : abi) (cfg : uuart_config) (x : Z) :
  0 <= x < 256 ->
  ier_value a cfg x = spec_ier_rule (ignore_tx cfg) (ignore_rx cfg) x.
Proof.
  intros Hx.
  destruct cfg as [d e f rx tx]. unfold ier_value. cbn [ignore_tx ignore_rx].
  apply Z.eqb_eq. revert x Hx.
  apply (all_bytes_spec (fun x =>
    (let ier := if negb tx then to_u8 (Z.land x (ulong_not a IER_ETBEI)) else x in
     let ier := if negb rx then to_u8 (Z.land ier (ulong_not a IER_ERBFI)) else ier in
     if Z.land ier (Z.lor IER_ETBEI IER_ERBFI) =? 0 then 0 else ier)
    =? spec_ier_rule tx rx x)).
  destruct a, tx, rx; vm_compute; reflexivity.
Qed.

Lemma spec_ier_rule_byte (tx rx : bool) (x : Z) :
  0 <= x < 256 -> 0 <= spec_ier_rule tx rx x < 256.
Proof.
  intros Hx.
  assert (H : ((0 <=? spec_ier_rule tx rx x) && (spec_ier_rule tx rx x <? 256)) = true).
  { revert x Hx. apply all_bytes_spec. destruct tx, rx; vm_compute; reflexivity. }
  apply andb_true_iff in H. destruct H as [H1 H2].
  apply Z.leb_le in H1. apply Z.ltb_lt in H2. lia.
Qed.

Lemma spec_ier_rule_none (x : Z) :
  0 <= x < 256 -> spec_ier_rule false false x = 0.
Proof.
  intros Hx. apply Z.eqb_eq. revert x Hx.
  apply (all_bytes_spec (fun x => spec_ier_rule false false x =? 0)).
  vm_compute; reflexivity.
Qed.

Section ConfigureIer.
Context {W : Type} `{Platform W}.

Lemma configure_ier_run (cfg : uuart_config) (regs : Z) (w : W) :
  let cur := to_u8 (fst (mem_load regs R_IER w)) in
  let new := spec_ier_rule (ignore_tx cfg) (ignore_rx cfg) cur in
  configure_ier cfg regs w =
    ([EvRead regs R_IER cur; EvWrite regs R_IER new],
     mem_store regs R_IER new (snd (mem_load regs R_IER w)), Ret tt).
Proof.
  intros cur new. unfold configure_ier, bind, Common.readb, Common.writeb.
  destruct (mem_load regs R_IER w) as [v w1] eqn:Hl. cbn [fst snd] in *.
  fold cur. rewrite (ier_value_spec_byte plat_abi cfg cur (to_u8_range v)).
  fold new. rewrite (to_u8_small new).
  - reflexivity.
  - apply spec_ier_rule_byte, to_u8_range.
Qed.

End ConfigureIer.

(** C2.  Whatever the interrupt-enable register holds and whatever the flags
    are, the configurator reads the register once and writes it once, and the
    value written is the one the rule of the specification gives for the value
    read: clear bit 1 unless transmit is ignored, clear bit 0 unless receive is
    ignored, zero if neither bit remains.  The flagless program always writes
    zero, which is the rule with neither path ignored. *)
Theorem C2_interrupt_enable_rule :
  forall (W : Type) (P : Platform W) (cfg : uuart_config) (regs : Z) (w : W),
    let cur := to_u8 (fst (mem_load regs R_IER (after_enable cfg regs w))) in
    filter is_ier_access (run_trace (UuartFlags.configure cfg regs w)) =
      [EvRead regs R_IER cur;
       EvWrite regs R_IER (spec_ier_rule (ignore_tx cfg) (ignore_rx cfg) cur)]
    /\ filter is_ier_access (run_trace (Uuart.configure regs w)) =
         [EvWrite regs R_IER 0]
    /\ forall v, spec_ier_rule false false (to_u8 v) = 0.
Proof.
  intros W P cfg regs w cur. split; [|split].
  - unfold UuartFlags.configure, bind, when.
    assert (Hen : (if negb (assume_enabled cfg)
                   then Common.writeb regs R_GCRA (Z.lor GCRA_VUART_EN GCRA_H_TX_CORK)
                   else ret tt) w
                  = (if assume_enabled cfg then []
                     else [EvWrite regs R_GCRA
                             (to_u8 (Z.lor GCRA_VUART_EN GCRA_H_TX_CORK))],
                     after_enable cfg regs w, Ret tt)).
    { unfold after_enable. destruct (assume_enabled cfg); reflexivity. }
    rewrite Hen. rewrite configure_ier_run. fold cur.
    destruct (assume_enabled cfg), (assume_fifos cfg), (assume_dtr cfg);
      reflexivity.
  - reflexivity.
  - intros v. apply spec_ier_rule_none, to_u8_range.
Qed.

(** ** Traces *)

Lemma lsr_samples_app (t1 t2 : trace) :
  lsr_samples (t1 ++ t2) = lsr_samples t1 ++ lsr_samples t2.
Proof.
  induction t1 as [|e t1 IH]; [reflexivity|].
  destruct e; cbn [lsr_samples app]; try exact IH.
  destruct (off =? R_LSR); cbn [app]; now rewrite IH.
Qed.

Lemma edges_app (t1 t2 : trace) : edges (t1 ++ t2) = edges t1 ++ edges t2.
Proof.
  induction t1 as [|e t1 IH]; [reflexivity|].
  destruct e as [| | | | |l| |]; cbn [edges app]; try exact IH.
  destruct l; cbn [app]; now rewrite ?IH.
Qed.

(** ** The monad *)

Section Monad.
Context {W : Type}.

(** A run of [bind m f] is a run of [m], followed by a run of [f] when [m]
    returns. *)
Lemma bind_run {A B} (m : M W A) (f : A -> M W B) (w : W) :
  bind m f w =
    match run_res (m w) with
    | Ret a =>
        (run_trace (m w) ++ run_trace (f a (run_world (m w))),
         run_world (f a (run_world (m w))),
         run_res (f a (run_world (m w))))
    | Exited s => (run_trace (m w), run_world (m w), Exited s)
    | Running => (run_trace (m w), run_world (m w), Running)
    end.
Proof.
  unfold bind, run_res, run_trace, run_world.
  destruct (m w) as [[t1 w1] r1]. cbn [fst snd].
  destruct r1; try reflexivity.
  destruct (f a w1) as [[t2 w2] r2]. reflexivity.
Qed.

End Monad.

(** ** The line-status bits *)

Import Common.

Lemma lsr_active_spec (lsr : Z) :
  0 <= lsr < 256 -> lsr_active lsr = spec_active lsr.
Proof.
  intros Hx. apply eqb_true_iff. revert lsr Hx.
  apply (all_bytes_spec (fun x => Bool.eqb (lsr_active x) (spec_active x))).
  vm_compute; reflexivity.
Qed.

(** ** The stall/resume block *)

Section StallEdge.
Context {W : Type} `{Platform W}.

(** The block consults the clock exactly when the sample and the state
    disagree with "flowing and active" / "stalled and inactive", i.e. on an
    edge; it prints one line if the clock answers, and exits if not. *)
Lemma stall_edge_run (stall : bool) (i lsr : Z) (w : W) :
  stall_edge stall i lsr w =
    if Bool.eqb (lsr_active lsr) stall then
      let rc := fst (fst (sys_clock_gettime w)) in
      let ts := snd (fst (sys_clock_gettime w)) in
      let w' := snd (sys_clock_gettime w) in
      if rc =? 0 then
        ([EvClock rc; EvLog (edge_line (lsr_active lsr) ts i lsr)], w',
         Ret (negb (lsr_active lsr)))
      else
        ([EvClock rc; EvErr EXIT_FAILURE "clock_gettime"], w',
         Exited EXIT_FAILURE)
    else ([], w, Ret (negb (lsr_active lsr))).
Proof.
  unfold stall_edge, boottime, clock_gettime, bind, when, log, emit, err, ret,
    edge_line.
  destruct (lsr_active lsr), stall; cbn [Bool.eqb negb]; try reflexivity;
    destruct (sys_clock_gettime w) as [[rc ts] w']; cbn [fst snd negb];
    destruct (rc =? 0); reflexivity.
Qed.

End StallEdge.

(** ** Loops *)

Section Loops.
Context {W S : Type} (cond : S -> bool) (body : S -> M W S).

(** Whatever the fuel, what [for_loop] computes is a run of the loop. *)
Lemma for_loop_run (fuel : nat) :
  forall st w, loop_run cond body st w (for_loop cond body fuel st w).
Proof.
  induction fuel as [|fuel IH]; intros st w; cbn [for_loop].
  - destruct (cond st) eqn:Hc; [apply run_fuel | apply run_done]; exact Hc.
  - destruct (cond st) eqn:Hc; [|apply run_done; exact Hc].
    unfold bind. destruct (body st w) as [[t1 w1] r1] eqn:Hb.
    destruct r1 as [st1| s |].
    + specialize (IH st1 w1).
      destruct (for_loop cond body fuel st1 w1) as [[t2 w2] r2].
      eapply run_step; eassumption.
    + apply run_exit; assumption.
    + apply run_stuck; assumption.
Qed.

End Loops.

(** ** One iteration of the poll loop, in closed form *)

Section Iteration.
Context {W : Type} `{Platform W}.

Lemma filler_byte : to_u8 FILLER = FILLER.
Proof. reflexivity. Qed.

Ltac iter_cases lsr edge rc :=
  destruct edge; cbn [andb];
  [destruct (rc =? 0); cbn [negb]; [|reflexivity]|];
  cbv beta iota zeta delta [bind writeb readb putchar emit ret when];
  rewrite ?filler_byte;
  destruct (lsr_thre lsr), (lsr_dr lsr);
  repeat match goal with
         | |- context [mem_load ?r ?o ?x] => destruct (mem_load r o x) as [? ?]
         end;
  cbn [fst snd app]; rewrite ?to_u8_idem; reflexivity.

(** The flag-aware program: sample, stall/resume block, transmit, receive. *)
Lemma flags_poll_iter_run (cfg : uuart_config) (regs iters : Z)
  (st : poll_state) (w : W) :
  let lsr := to_u8 (fst (mem_load regs R_LSR w)) in
  let w1 := snd (mem_load regs R_LSR w) in
  let edge := Bool.eqb (lsr_active lsr) (st_stall st) in
  let clk := sys_clock_gettime w1 in
  let rc := fst (fst clk) in
  let w2 := if edge then snd clk else w1 in
  let w3 := if does_tx cfg lsr then mem_store regs R_THR FILLER w2 else w2 in
  let c := to_u8 (fst (mem_load regs R_RBR w3)) in
  let w4 := if does_rx cfg lsr then snd (mem_load regs R_RBR w3) else w3 in
  poll_iter cfg regs iters st w =
    if edge && negb (rc =? 0) then
      ([EvRead regs R_LSR lsr; EvClock rc; EvErr EXIT_FAILURE "clock_gettime"],
       snd clk, Exited EXIT_FAILURE)
    else
      (EvRead regs R_LSR lsr ::
         (if edge
          then [EvClock rc;
                EvLog (edge_line (lsr_active lsr) (snd (fst clk)) (st_i st) lsr)]
          else [])
         ++ (if does_tx cfg lsr then [EvWrite regs R_THR FILLER] else [])
         ++ (if does_rx cfg lsr then [EvRead regs R_RBR c; EvPutchar c] else []),
       w4,
       Ret {| st_stall := negb (lsr_active lsr);
              st_i := st_i st + (if iters >? 0 then 1 else 0);
              st_txd := if does_tx cfg lsr
                        then to_ulong plat_abi (st_txd st + 1) else st_txd st;
              st_rxd := if does_rx cfg lsr
                        then to_ulong plat_abi (st_rxd st + 1) else st_rxd st |}).
Proof.
  intros lsr w1 edge clk rc w2 w3 c w4.
  unfold poll_iter. unfold bind at 1. unfold readb at 1.
  destruct (mem_load regs R_LSR w) as [v w1'].
  cbn [fst snd] in lsr, w1. fold lsr. fold w1.
  unfold bind at 1. rewrite stall_edge_run.
  fold edge. fold clk. cbn zeta. fold rc.
  subst w2 w3 w4 c. unfold does_tx, does_rx.
  destruct (ignore_tx cfg), (ignore_rx cfg); cbn [negb andb];
    iter_cases lsr edge rc.
Qed.

(** [src/uuart.c]: sample, stall/resume block, receive, transmit. *)
Lemma uuart_poll_iter_run (regs : Z) (st : Uuart.poll_state) (w : W) :
  let lsr := to_u8 (fst (mem_load regs R_LSR w)) in
  let w1 := snd (mem_load regs R_LSR w) in
  let edge := Bool.eqb (lsr_active lsr) (Uuart.st_stall st) in
  let clk := sys_clock_gettime w1 in
  let rc := fst (fst clk) in
  let w2 := if edge then snd clk else w1 in
  let c := to_u8 (fst (mem_load regs R_RBR w2)) in
  let w3 := if lsr_dr lsr then snd (mem_load regs R_RBR w2) else w2 in
  let w4 := if lsr_thre lsr then mem_store regs R_THR FILLER w3 else w3 in
  Uuart.poll_iter regs st w =
    if edge && negb (rc =? 0) then
      ([EvRead regs R_LSR lsr; EvClock rc; EvErr EXIT_FAILURE "clock_gettime"],
       snd clk, Exited EXIT_FAILURE)
    else
      (EvRead regs R_LSR lsr ::
         (if edge
          then [EvClock rc;
                EvLog (edge_line (lsr_active lsr) (snd (fst clk))
                         (Uuart.st_i st) lsr)]
          else [])
         ++ (if lsr_dr lsr then [EvRead regs R_RBR c; EvPutchar c] else [])
         ++ (if lsr_thre lsr then [EvWrite regs R_THR FILLER] else []),
       w4,
       Ret {| Uuart.st_stall := negb (lsr_active lsr);
              Uuart.st_i := Uuart.st_i st + 1 |}).
Proof.
  intros lsr w1 edge clk rc w2 c w3 w4.
  unfold Uuart.poll_iter. unfold bind at 1. unfold readb at 1.
  destruct (mem_load regs R_LSR w) as [v w1'].
  cbn [fst snd] in lsr, w1. fold lsr. fold w1.
  unfold bind at 1. rewrite stall_edge_run.
  fold edge. fold clk. cbn zeta. fold rc.
  subst w2 w3 w4 c.
  iter_cases lsr edge rc.
Qed.

End Iteration.

(** ** Stall/resume logging *)

Lemma iter_edges_spec (stall : bool) (lsr : Z) :
  0 <= lsr < 256 -> iter_edges stall lsr = spec_edges (phase_of stall) [lsr].
Proof.
  intros Hb. unfold iter_edges. rewrite (lsr_active_spec lsr Hb).
  destruct stall, (spec_active lsr) eqn:Ha; cbn; rewrite ?Ha; reflexivity.
Qed.

Lemma spec_edges_cons (stall : bool) (lsr : Z) (l : list Z) :
  spec_edges (phase_of stall) (lsr :: l) =
    spec_edges (phase_of stall) [lsr]
    ++ spec_edges (phase_of (negb (spec_active lsr))) l.
Proof.
  destruct stall; cbn [spec_edges phase_of];
    destruct (spec_active lsr); reflexivity.
Qed.

Lemma spec_edges_all_active (l : list Z) :
  forallb spec_active l = true ->
  spec_edges Flowing l = []
  /\ spec_edges Stalled l = match l with [] => [] | x :: _ => [EdgeResumed x] end.
Proof.
  induction l as [|x l IH]; [split; reflexivity|].
  cbn [forallb spec_edges]. intros Hall.
  apply andb_true_iff in Hall. destruct Hall as [Hx Hl].
  rewrite Hx. destruct (IH Hl) as [IH1 _]. rewrite IH1. split; reflexivity.
Qed.

Lemma forallb_removelast {A} (p : A -> bool) (l : list A) :
  forallb p l = true -> forallb p (removelast l) = true.
Proof.
  induction l as [|x l IH]; [reflexivity|].
  cbn [forallb]. intros Hall. apply andb_true_iff in Hall.
  destruct Hall as [Hx Hl]. destruct l as [|y l]; [reflexivity|].
  change (removelast (x :: y :: l)) with (x :: removelast (y :: l)).
  cbn [forallb]. rewrite Hx. exact (IH Hl).
Qed.

Section EdgeLoop.
Context {W S : Type} (cond : S -> bool) (body : S -> M W S).
Variable stall_of : S -> bool.

(** What a loop body has to do for the loop to log edges only. *)
Hypothesis body_edges :
  forall st w,
    exists lsr,
      0 <= lsr < 256
      /\ lsr_samples (run_trace (body st w)) = [lsr]
      /\ match run_res (body st w) with
         | Ret st' =>
             stall_of st' = negb (lsr_active lsr)
             /\ edges (run_trace (body st w)) = iter_edges (stall_of st) lsr
         | Exited _ => edges (run_trace (body st w)) = []
         | Running => False
         end.

Lemma loop_edges st w x :
  loop_run cond body st w x ->
  Forall (fun v => 0 <= v < 256) (lsr_samples (run_trace x))
  /\ match run_res x with
     | Exited _ =>
         lsr_samples (run_trace x) <> []
         /\ edges (run_trace x) =
              spec_edges (phase_of (stall_of st))
                (removelast (lsr_samples (run_trace x)))
     | _ =>
         edges (run_trace x) =
           spec_edges (phase_of (stall_of st)) (lsr_samples (run_trace x))
     end.
Proof.
  induction 1 as [st w Hc | st w Hc | st w t w' s Hc Hb | st w t w' Hc Hb
                 | st w t1 w1 st1 t2 w2 r Hc Hb Hrun IH];
    cbn [run_trace run_res fst snd] in *.
  - split; [constructor | reflexivity].
  - split; [constructor | reflexivity].
  - destruct (body_edges st w) as (lsr & Hbyte & Hs & He).
    rewrite Hb in Hs, He. cbn [run_trace run_res fst snd] in Hs, He.
    rewrite Hs, He. split; [repeat constructor; lia|]. split; [discriminate|].
    reflexivity.
  - destruct (body_edges st w) as (lsr & _ & _ & He).
    rewrite Hb in He. destruct He.
  - destruct (body_edges st w) as (lsr & Hbyte & Hs & He).
    rewrite Hb in Hs, He. cbn [run_trace run_res fst snd] in Hs, He.
    destruct He as [Hst He]. destruct IH as [IHb IHe].
    rewrite lsr_samples_app, edges_app, Hs, He. cbn [app].
    split; [constructor; [lia | exact IHb]|].
    rewrite Hst, (lsr_active_spec lsr Hbyte) in IHe.
    rewrite (iter_edges_spec _ _ Hbyte).
    destruct r as [e | s |].
    + rewrite IHe. symmetry. apply spec_edges_cons.
    + destruct IHe as [Hne IHe]. split; [discriminate|].
      destruct (lsr_samples t2) as [|y l] eqn:Hl; [now destruct Hne|].
      change (removelast (lsr :: y :: l)) with (lsr :: removelast (y :: l)).
      rewrite IHe. symmetry. apply spec_edges_cons.
    + rewrite IHe. symmetry. apply spec_edges_cons.
Qed.

Lemma loop_edge_triggered st w x :
  loop_run cond body st w x -> edge_triggered (stall_of st) x.
Proof.
  intros Hrun. destruct (loop_edges st w x Hrun) as [Hbytes He].
  unfold edge_triggered. cbv zeta. split.
  - intros Hne. destruct (run_res x) as [e | s |]; try exact He.
    now destruct (Hne s).
  - intros Hact.
    assert (Hspec : forallb spec_active (lsr_samples (run_trace x)) = true).
    { rewrite forallb_forall in *. intros v Hv.
      rewrite <- lsr_active_spec; [now apply Hact|].
      rewrite Forall_forall in Hbytes. now apply Hbytes. }
    assert (Hcut := forallb_removelast _ _ Hspec).
    destruct (spec_edges_all_active _ Hspec) as [HF HS].
    destruct (spec_edges_all_active _ Hcut) as [HF' HS'].
    split; [|split].
    + intros Hst. rewrite Hst in He. cbn [phase_of] in He.
      destruct (run_res x); [congruence | | congruence].
      destruct He as [_ He]. congruence.
    + assert (Hlen : forall l : list Z,
                (List.length (match l with
                              | [] => []
                              | v :: _ => [EdgeResumed v]
                              end) <= 1)%nat).
      { intros [|v l]; cbn; lia. }
      destruct (run_res x) as [e | s |]; [| destruct He as [_ He] |];
        rewrite He; destruct (stall_of st); cbn [phase_of];
        rewrite ?HF, ?HS, ?HF', ?HS'; try apply Hlen; cbn; lia.
    + intros Hst Hne Hex. rewrite Hst in He. cbn [phase_of] in He.
      destruct (run_res x) as [e | s |]; [| now destruct (Hex s) |];
        rewrite He, HS; destruct (lsr_samples (run_trace x));
        try reflexivity; now destruct Hne.
Qed.

End EdgeLoop.

Section PollEdges.
Context {W : Type} `{Platform W}.

Ltac edge_cases lsr stall :=
  cbv zeta; unfold iter_edges, edge_line;
  destruct (lsr_active lsr), stall; cbn [Bool.eqb andb negb];
  repeat match goal with
         | |- context [if ?b then _ else _] => destruct b
         end;
  cbn; repeat split; reflexivity.

(** One iteration of the flag-aware loop reads one sample; if it completes,
    [stall] is "the sample is inactive" and its stall/resume lines are
    [iter_edges]; if it is cut short, it has logged none. *)
Lemma flags_iter_edges (cfg : uuart_config) (regs iters : Z)
  (st : poll_state) (w : W) :
  let lsr := to_u8 (fst (mem_load regs R_LSR w)) in
  let x := poll_iter cfg regs iters st w in
  lsr_samples (run_trace x) = [lsr]
  /\ match run_res x with
     | Ret st' =>
         st_stall st' = negb (lsr_active lsr)
         /\ edges (run_trace x) = iter_edges (st_stall st) lsr
     | Exited _ => edges (run_trace x) = []
     | Running => False
     end.
Proof.
  intros lsr x. subst x. rewrite flags_poll_iter_run. fold lsr.
  edge_cases lsr (st_stall st).
Qed.

Lemma uuart_iter_edges (regs : Z) (st : Uuart.poll_state) (w : W) :
  let lsr := to_u8 (fst (mem_load regs R_LSR w)) in
  let x := Uuart.poll_iter regs st w in
  lsr_samples (run_trace x) = [lsr]
  /\ match run_res x with
     | Ret st' =>
         Uuart.st_stall st' = negb (lsr_active lsr)
         /\ edges (run_trace x) = iter_edges (Uuart.st_stall st) lsr
     | Exited _ => edges (run_trace x) = []
     | Running => False
     end.
Proof.
  intros lsr x. subst x. rewrite uuart_poll_iter_run. fold lsr.
  edge_cases lsr (Uuart.st_stall st).
Qed.

Lemma flags_loop_edge_triggered (fuel : nat) (cfg : uuart_config)
  (regs iters : Z) (st : poll_state) (w : W) :
  edge_triggered (st_stall st) (poll_loop fuel cfg regs iters st w).
Proof.
  eapply (loop_edge_triggered _ _ st_stall); [|apply for_loop_run].
  intros st0 w0. exists (to_u8 (fst (mem_load regs R_LSR w0))).
  split; [apply to_u8_range | apply flags_iter_edges].
Qed.

Lemma uuart_loop_edge_triggered (fuel : nat) (regs iters : Z)
  (st : Uuart.poll_state) (w : W) :
  edge_triggered (Uuart.st_stall st) (Uuart.poll_loop fuel regs iters st w).
Proof.
  eapply (loop_edge_triggered _ _ Uuart.st_stall); [|apply for_loop_run].
  intros st0 w0. exists (to_u8 (fst (mem_load regs R_LSR w0))).
  split; [apply to_u8_range | apply uuart_iter_edges].
Qed.

End PollEdges.

(** C1.  Stall/resume logging is edge-triggered, in both programs.  In one
    iteration that reads the sample [lsr] from state [stall]: if the iteration
    completes, it logs "resumed" when the sample is active and the state was
    Stalled, "stalled" when the sample is inactive and the state was Flowing,
    and nothing otherwise ([iter_edges]), and the new state is "sample
    inactive"; if the clock fails, it logs nothing.  Over a whole run of the
    loop the lines are those of the specification's two-state machine on the
    samples read, and a run whose samples are all active logs nothing when
    entered Flowing and exactly one "resumed" line, for its first sample, when
    entered Stalled ([edge_triggered]). *)
Theorem C1_edge_triggered_logging :
  forall (W : Type) (P : Platform W),
    (forall cfg regs iters st w,
        let lsr := to_u8 (fst (mem_load regs R_LSR w)) in
        let x := UuartFlags.poll_iter cfg regs iters st w in
        match run_res x with
        | Ret st' =>
            st_stall st' = negb (lsr_active lsr)
            /\ edges (run_trace x) = iter_edges (st_stall st) lsr
        | _ => edges (run_trace x) = []
        end)
    /\ (forall regs st w,
           let lsr := to_u8 (fst (mem_load regs R_LSR w)) in
           let x := Uuart.poll_iter regs st w in
           match run_res x with
           | Ret st' =>
               Uuart.st_stall st' = negb (lsr_active lsr)
               /\ edges (run_trace x) = iter_edges (Uuart.st_stall st) lsr
           | _ => edges (run_trace x) = []
           end)
    /\ (forall fuel cfg regs iters st w,
           edge_triggered (st_stall st)
             (UuartFlags.poll_loop fuel cfg regs iters st w))
    /\ (forall fuel regs iters st w,
           edge_triggered (Uuart.st_stall st)
             (Uuart.poll_loop fuel regs iters st w)).
Proof.
  intros W P. split; [|split; [|split]].
  - intros cfg regs iters st w lsr x.
    destruct (flags_iter_edges cfg regs iters st w) as [_ Hx].
    fold lsr x in Hx. destruct (run_res x); [exact Hx | exact Hx | destruct Hx].
  - intros regs st w lsr x.
    destruct (uuart_iter_edges regs st w) as [_ Hx].
    fold lsr x in Hx. destruct (run_res x); [exact Hx | exact Hx | destruct Hx].
  - intros. apply flags_loop_edge_triggered.
  - intros. apply uuart_loop_edge_triggered.
Qed.

(** From Stalled, three active samples in a row give one "resumed" line. *)
Lemma C1_edge_triggered_logging_witness :
  let x := UuartFlags.poll_loop 3 cfg0 7 3 st_stalled
             (Sim.sim0 [0x20; 0x01; 0x21] []) in
  edges (run_trace x) = [EdgeResumed (hd 0 (lsr_samples (run_trace x)))].
Proof.
  intros x.
  destruct (C1_edge_triggered_logging Sim.sim Sim.sim_platform)
    as (_ & _ & Hrun & _).
  destruct (Hrun 3%nat cfg0 7 3 st_stalled (Sim.sim0 [0x20; 0x01; 0x21] []))
    as [_ Hact].
  fold x in Hact.
  destruct Hact as (_ & _ & Hone); [vm_compute; reflexivity|].
  apply Hone.
  - reflexivity.
  - vm_compute. discriminate.
  - intros s. vm_compute. discriminate.
Defined.

(** ** Iteration count *)

Section IterationFacts.
Context {W : Type} `{Platform W}.

Ltac iter_facts lsr rc :=
  cbv zeta;
  repeat match goal with
         | |- context [Bool.eqb ?a ?b] => destruct (Bool.eqb a b)
         end;
  cbn [andb];
  try (destruct (rc =? 0) eqn:?; cbn [negb]);
  repeat match goal with
         | |- context [if ?b then _ else _] =>
             lazymatch b with
             | _ >? _ => fail
             | _ => destruct b
             end
         end;
  cbn [run_trace run_res fst snd app lsr_samples];
  (split; [reflexivity|]);
  (split; [unfold edge_line; repeat constructor; cbn; intros;
            repeat match goal with
                   | H : context [if ?b then _ else _] |- _ => destruct b
                   end; cbn in *; congruence|]);
  try (split; [reflexivity|]);
  try (cbn; unfold calm, edge_line; cbn;
       repeat match goal with
              | H : (_ =? 0) = _ |- _ => rewrite H
              end; cbn;
       repeat match goal with
              | |- context [if ?b then _ else _] => destruct b
              end; reflexivity);
  try (eexists; split; [|reflexivity]; apply Z.eqb_neq; assumption).

(** Everything about one iteration of the flag-aware loop that the loop
    proofs use. *)
Lemma flags_iter_facts (cfg : uuart_config) (regs iters : Z)
  (st : poll_state) (w : W) :
  let lsr := to_u8 (fst (mem_load regs R_LSR w)) in
  let x := poll_iter cfg regs iters st w in
  lsr_samples (run_trace x) = [lsr]
  /\ Forall (fun e => forall i, edge_index e = Some i -> i = st_i st)
       (run_trace x)
  /\ match run_res x with
     | Ret st' =>
         st' = {| st_stall := negb (lsr_active lsr);
                  st_i := st_i st + (if iters >? 0 then 1 else 0);
                  st_txd := if does_tx cfg lsr
                            then to_ulong plat_abi (st_txd st + 1)
                            else st_txd st;
                  st_rxd := if does_rx cfg lsr
                            then to_ulong plat_abi (st_rxd st + 1)
                            else st_rxd st |}
         /\ forallb calm (run_trace x) = true
     | Exited s =>
         s = EXIT_FAILURE
         /\ exists rc, rc <> 0
            /\ run_trace x =
                 [EvRead regs R_LSR lsr; EvClock rc;
                  EvErr EXIT_FAILURE "clock_gettime"]
     | Running => False
     end.
Proof.
  intros lsr x. subst x. rewrite flags_poll_iter_run. fold lsr.
  set (rc := fst (fst (sys_clock_gettime (snd (mem_load regs R_LSR w))))).
  iter_facts lsr rc.
Qed.

Lemma uuart_iter_facts (regs : Z) (st : Uuart.poll_state) (w : W) :
  let lsr := to_u8 (fst (mem_load regs R_LSR w)) in
  let x := Uuart.poll_iter regs st w in
  lsr_samples (run_trace x) = [lsr]
  /\ Forall (fun e => forall i, edge_index e = Some i -> i = Uuart.st_i st)
       (run_trace x)
  /\ match run_res x with
     | Ret st' =>
         st' = {| Uuart.st_stall := negb (lsr_active lsr);
                  Uuart.st_i := Uuart.st_i st + 1 |}
         /\ forallb calm (run_trace x) = true
     | Exited s =>
         s = EXIT_FAILURE
         /\ exists rc, rc <> 0
            /\ run_trace x =
                 [EvRead regs R_LSR lsr; EvClock rc;
                  EvErr EXIT_FAILURE "clock_gettime"]
     | Running => False
     end.
Proof.
  intros lsr x. subst x. rewrite uuart_poll_iter_run. fold lsr.
  set (rc := fst (fst (sys_clock_gettime (snd (mem_load regs R_LSR w))))).
  iter_facts lsr rc.
Qed.

End IterationFacts.

Lemma iterations_app (t1 t2 : trace) :
  iterations (t1 ++ t2) = (iterations t1 + iterations t2)%nat.
Proof. unfold iterations. now rewrite lsr_samples_app, length_app. Qed.

Section CountedLoop.
Context {W S : Type} (cond : S -> bool) (body : S -> M W S).
Variables (idx : S -> Z) (iters : Z).

Hypothesis cond_spec : forall st, cond st = (idx st <? iters).

Hypothesis body_counts :
  forall st w,
    0 <= idx st ->
    cond st = true ->
    iterations (run_trace (body st w)) = 1%nat
    /\ match run_res (body st w) with
       | Ret st' => idx st' = idx st + 1
       | Exited s => existsb is_failed_clock (run_trace (body st w)) = true
       | Running => False
       end.

(** A loop that counts [idx] up to [iters] by one, given enough fuel, ends
    after [iters - idx] iterations, unless an iteration exits. *)
Lemma counted_loop (fuel : nat) :
  forall st w,
    0 <= idx st <= iters ->
    (Z.to_nat (iters - idx st) <= fuel)%nat ->
    let x := for_loop cond body fuel st w in
    match run_res x with
    | Ret (LoopDone st') =>
        iterations (run_trace x) = Z.to_nat (iters - idx st)
        /\ idx st' = iters
    | Ret (LoopFuel _) => False
    | Exited s => existsb is_failed_clock (run_trace x) = true
    | Running => False
    end.
Proof.
  induction fuel as [|fuel IH]; intros st w Hle Hfuel; cbn [for_loop];
    rewrite cond_spec; destruct (idx st <? iters) eqn:Hc.
  - apply Z.ltb_lt in Hc. lia.
  - apply Z.ltb_ge in Hc. cbn. split; [|lia].
    replace (iters - idx st) with 0 by lia. reflexivity.
  - assert (Hcond : cond st = true) by (rewrite cond_spec; exact Hc).
    apply Z.ltb_lt in Hc.
    destruct (body_counts st w (proj1 Hle) Hcond) as [Hone Hres].
    rewrite bind_run. destruct (run_res (body st w)) as [st1 | s |].
    + cbn [run_res run_trace fst snd].
      specialize (IH st1 (run_world (body st w))). cbv zeta in IH.
      assert (H1 : 0 <= idx st1 <= iters) by lia.
      assert (H2 : (Z.to_nat (iters - idx st1) <= fuel)%nat) by lia.
      specialize (IH H1 H2).
      destruct (run_res (for_loop cond body fuel st1 (run_world (body st w))))
        as [[st' | st'] | s |]; try exact IH.
      * rewrite iterations_app, Hone. destruct IH as [IH1 IH2].
        rewrite IH1. split; [lia | exact IH2].
      * rewrite existsb_app, IH. apply orb_true_r.
    + cbn [run_res run_trace fst snd]. exact Hres.
    + destruct Hres.
  - apply Z.ltb_ge in Hc. cbn. split; [|lia].
    replace (iters - idx st) with 0 by lia. reflexivity.
Qed.

End CountedLoop.

Section IterationCount.
Context {W : Type} `{Platform W}.

Lemma failed_clock_trace (regs lsr rc : Z) :
  rc <> 0 ->
  existsb is_failed_clock
    [EvRead regs R_LSR lsr; EvClock rc; EvErr EXIT_FAILURE "clock_gettime"]
  = true.
Proof.
  intros Hrc. cbn. apply Z.eqb_neq in Hrc. rewrite Hrc. reflexivity.
Qed.

(** A non-negative count: the flag-aware loop ends after exactly [iters]
    iterations with index [iters], unless the clock fails. *)
Lemma flags_loop_counted (cfg : uuart_config) (regs iters : Z) (fuel : nat)
  (w : W) :
  0 <= iters ->
  (Z.to_nat iters <= fuel)%nat ->
  let x := poll_loop fuel cfg regs iters poll_init w in
  match run_res x with
  | Ret (LoopDone st') =>
      iterations (run_trace x) = Z.to_nat iters /\ st_i st' = iters
  | Ret (LoopFuel _) => False
  | Exited s => existsb is_failed_clock (run_trace x) = true
  | Running => False
  end.
Proof.
  intros Hpos Hfuel. unfold poll_loop.
  pose proof (counted_loop (fun st => loop_cond iters (st_i st))
                (poll_iter cfg regs iters) st_i iters) as Hloop.
  cbv zeta in Hloop.
  replace (Z.to_nat iters) with (Z.to_nat (iters - st_i poll_init))
    by (cbn [st_i poll_init]; f_equal; lia).
  apply Hloop.
  - intros st. unfold loop_cond.
    replace (iters <? 0) with false by (symmetry; apply Z.ltb_ge; lia).
    reflexivity.
  - intros st w0 Hi Hc. unfold loop_cond in Hc.
    apply orb_true_iff in Hc. destruct Hc as [Hc | Hc];
      apply Z.ltb_lt in Hc; [lia|].
    destruct (flags_iter_facts cfg regs iters st w0) as (Hs & _ & Hres).
    split; [unfold iterations; now rewrite Hs|].
    destruct (run_res (poll_iter cfg regs iters st w0)) as [st' | s |].
    + destruct Hres as [-> _]. cbn [st_i].
      replace (iters >? 0) with true by (symmetry; apply Z.gtb_lt; lia).
      reflexivity.
    + destruct Hres as (_ & rc & Hrc & ->). now apply failed_clock_trace.
    + exact Hres.
  - cbn [st_i poll_init]. lia.
  - cbn [st_i poll_init].
    replace (iters - 0) with iters by lia. exact Hfuel.
Qed.

Lemma uuart_loop_counted (regs iters : Z) (fuel : nat) (w : W) :
  0 <= iters ->
  (Z.to_nat iters <= fuel)%nat ->
  let x := Uuart.poll_loop fuel regs iters Uuart.poll_init w in
  match run_res x with
  | Ret (LoopDone st') =>
      iterations (run_trace x) = Z.to_nat iters /\ Uuart.st_i st' = iters
  | Ret (LoopFuel _) => False
  | Exited s => existsb is_failed_clock (run_trace x) = true
  | Running => False
  end.
Proof.
  intros Hpos Hfuel. unfold Uuart.poll_loop.
  pose proof (counted_loop (fun st => Uuart.loop_cond iters (Uuart.st_i st))
                (Uuart.poll_iter regs) Uuart.st_i iters) as Hloop.
  cbv zeta in Hloop.
  replace (Z.to_nat iters)
    with (Z.to_nat (iters - Uuart.st_i Uuart.poll_init))
    by (cbn [Uuart.st_i Uuart.poll_init]; f_equal; lia).
  apply Hloop.
  - intros st. reflexivity.
  - intros st w0 _ _.
    destruct (uuart_iter_facts regs st w0) as (Hs & _ & Hres).
    split; [unfold iterations; now rewrite Hs|].
    destruct (run_res (Uuart.poll_iter regs st w0)) as [st' | s |].
    + destruct Hres as [-> _]. reflexivity.
    + destruct Hres as (_ & rc & Hrc & ->). now apply failed_clock_trace.
    + exact Hres.
  - cbn [Uuart.st_i Uuart.poll_init]. lia.
  - cbn [Uuart.st_i Uuart.poll_init].
    replace (iters - 0) with iters by lia. exact Hfuel.
Qed.

(** A negative count: however many iterations the flag-aware loop is given,
    it runs them all and its condition still holds, unless the clock fails;
    the index it logs stays what it was on entry. *)
Lemma flags_loop_negative (cfg : uuart_config) (regs iters : Z) :
  iters < 0 ->
  forall (fuel : nat) (st : poll_state) (w : W),
    let x := poll_loop fuel cfg regs iters st w in
    Forall (fun e => forall i, edge_index e = Some i -> i = st_i st)
      (run_trace x)
    /\ match run_res x with
       | Ret (LoopFuel st') =>
           iterations (run_trace x) = fuel /\ st_i st' = st_i st
       | Ret (LoopDone _) => False
       | Exited s => existsb is_failed_clock (run_trace x) = true
       | Running => False
       end.
Proof.
  intros Hneg. unfold poll_loop.
  assert (Hcond : forall i, loop_cond iters i = true).
  { intros i. unfold loop_cond.
    replace (iters <? 0) with true by (symmetry; apply Z.ltb_lt; lia).
    reflexivity. }
  induction fuel as [|fuel IH]; intros st w; cbn [for_loop]; rewrite Hcond.
  - cbn. split; [constructor | split; reflexivity].
  - rewrite bind_run.
    destruct (flags_iter_facts cfg regs iters st w) as (Hs & Hidx & Hres).
    destruct (run_res (poll_iter cfg regs iters st w)) as [st1 | s |].
    + destruct Hres as [Hst1 _].
      specialize (IH st1 (run_world (poll_iter cfg regs iters st w))).
      cbv zeta in IH. destruct IH as [IHidx IHres].
      assert (Hi : st_i st1 = st_i st).
      { rewrite Hst1. cbn [st_i].
        replace (iters >? 0) with false
          by (symmetry; rewrite Z.gtb_ltb; apply Z.ltb_ge; lia).
        lia. }
      cbn [run_res run_trace fst snd]. split.
      * apply Forall_app. split; [exact Hidx|]. now rewrite <- Hi.
      * destruct (run_res (for_loop _ _ fuel st1 _)) as [[st' | st'] | s |];
          try exact IHres.
        -- rewrite iterations_app. unfold iterations at 1. rewrite Hs.
           destruct IHres as [IH1 IH2]. rewrite IH1. split; [reflexivity|].
           congruence.
        -- rewrite existsb_app, IHres. apply orb_true_r.
    + cbn [run_res run_trace fst snd]. split; [exact Hidx|].
      destruct Hres as (_ & rc & Hrc & ->). now apply failed_clock_trace.
    + destruct Hres.
Qed.

(** [src/uuart.c] with a count that is not positive: no iteration at all. *)
Lemma uuart_loop_nonpositive (regs iters : Z) (fuel : nat) (w : W) :
  iters <= 0 ->
  Uuart.poll_loop fuel regs iters Uuart.poll_init w =
    ([], w, Ret (LoopDone Uuart.poll_init)).
Proof.
  intros Hle. unfold Uuart.poll_loop.
  assert (Hc : Uuart.loop_cond iters (Uuart.st_i Uuart.poll_init) = false).
  { unfold Uuart.loop_cond. cbn [Uuart.st_i Uuart.poll_init].
    apply Z.ltb_ge. lia. }
  destruct fuel; cbn [for_loop]; rewrite Hc; reflexivity.
Qed.

End IterationCount.

(** C3 as stated fails: with a negative count the iteration index does not
    advance.  On a device that first reports nothing and then a free
    transmitter, one iteration from the initial state leaves the index at 0,
    and the second iteration logs its "resumed" line with index 0. *)
Lemma C3_index_frozen_counterexample :
  (exists st',
      run_res (UuartFlags.poll_iter cfg0 7 (-1) poll_init
                 (Sim.sim0 [0x00; 0x20] [])) = Ret st'
      /\ st_i st' <> st_i poll_init + 1)
  /\ (let x := UuartFlags.poll_loop 2 cfg0 7 (-1) poll_init
                 (Sim.sim0 [0x00; 0x20] []) in
      iterations (run_trace x) = 2%nat
      /\ filter (fun e => is_resumed e || is_stalled e) (run_trace x) =
           [EvLog (LogStalled 12 345 0 0x00); EvLog (LogResumed 12 345 0 0x20)]).
Proof.
  split.
  - eexists. split; [vm_compute; reflexivity|]. cbn. discriminate.
  - vm_compute. split; reflexivity.
Qed.

(** C3, amended.  In the flag-aware program a negative count keeps the loop
    running: however many iterations are observed, the loop has run them all
    and has not ended (unless a failed clock read ended the process), and the
    iteration index stays at its entry value, in the loop variables and in
    every line logged.  A non-negative count [iters] makes the loop end after
    exactly [iters] iterations with index [iters] (unless a failed clock read
    ended the process before).  In [src/uuart.c] a negative count gives no
    iteration at all, and a non-negative count behaves as in the flag-aware
    program. *)
Theorem C3_iteration_count_policy :
  forall (W : Type) (P : Platform W),
    (forall cfg regs iters fuel st w,
        iters < 0 ->
        let x := UuartFlags.poll_loop fuel cfg regs iters st w in
        Forall (fun e => forall i, edge_index e = Some i -> i = st_i st)
          (run_trace x)
        /\ match run_res x with
           | Ret (LoopFuel st') =>
               iterations (run_trace x) = fuel /\ st_i st' = st_i st
           | Ret (LoopDone _) => False
           | Exited s => existsb is_failed_clock (run_trace x) = true
           | Running => False
           end)
    /\ (forall cfg regs iters fuel w,
           0 <= iters ->
           (Z.to_nat iters <= fuel)%nat ->
           let x := UuartFlags.poll_loop fuel cfg regs iters poll_init w in
           match run_res x with
           | Ret (LoopDone st') =>
               iterations (run_trace x) = Z.to_nat iters /\ st_i st' = iters
           | Ret (LoopFuel _) => False
           | Exited s => existsb is_failed_clock (run_trace x) = true
           | Running => False
           end)
    /\ (forall regs iters fuel w,
           iters < 0 ->
           Uuart.poll_loop fuel regs iters Uuart.poll_init w =
             ([], w, Ret (LoopDone Uuart.poll_init)))
    /\ (forall regs iters fuel w,
           0 <= iters ->
           (Z.to_nat iters <= fuel)%nat ->
           let x := Uuart.poll_loop fuel regs iters Uuart.poll_init w in
           match run_res x with
           | Ret (LoopDone st') =>
               iterations (run_trace x) = Z.to_nat iters
               /\ Uuart.st_i st' = iters
           | Ret (LoopFuel _) => False
           | Exited s => existsb is_failed_clock (run_trace x) = true
           | Running => False
           end).
Proof.
  intros W P. split; [|split; [|split]].
  - intros cfg regs iters fuel st w Hneg.
    now apply flags_loop_negative.
  - intros cfg regs iters fuel w Hpos Hfuel.
    now apply flags_loop_counted.
  - intros regs iters fuel w Hneg. apply uuart_loop_nonpositive. lia.
  - intros regs iters fuel w Hpos Hfuel.
    now apply uuart_loop_counted.
Qed.

(** The policy on the scripted device: count -1 observed for three
    iterations, count 3 with fuel for five, in both programs. *)
Lemma C3_iteration_count_policy_witness :
  (let x := UuartFlags.poll_loop 3 cfg0 7 (-1) poll_init
              (Sim.sim0 [0x00; 0x20; 0x21] []) in
   Forall (fun e => forall i, edge_index e = Some i -> i = st_i poll_init)
     (run_trace x)
   /\ match run_res x with
      | Ret (LoopFuel st') =>
          iterations (run_trace x) = 3%nat /\ st_i st' = st_i poll_init
      | Ret (LoopDone _) => False
      | Exited s => existsb is_failed_clock (run_trace x) = true
      | Running => False
      end)
  /\ (let x := UuartFlags.poll_loop 5 cfg0 7 3 poll_init
                 (Sim.sim0 [0x00; 0x20; 0x21] []) in
      match run_res x with
      | Ret (LoopDone st') =>
          iterations (run_trace x) = Z.to_nat 3 /\ st_i st' = 3
      | Ret (LoopFuel _) => False
      | Exited s => existsb is_failed_clock (run_trace x) = true
      | Running => False
      end)
  /\ Uuart.poll_loop 5 7 (-1) Uuart.poll_init (Sim.sim0 [0x20] []) =
       ([], Sim.sim0 [0x20] [], Ret (LoopDone Uuart.poll_init))
  /\ (let x := Uuart.poll_loop 5 7 3 Uuart.poll_init
                 (Sim.sim0 [0x00; 0x20; 0x21] []) in
      match run_res x with
      | Ret (LoopDone st') =>
          iterations (run_trace x) = Z.to_nat 3 /\ Uuart.st_i st' = 3
      | Ret (LoopFuel _) => False
      | Exited s => existsb is_failed_clock (run_trace x) = true
      | Running => False
      end).
Proof.
  destruct (C3_iteration_count_policy Sim.sim Sim.sim_platform)
    as (Hneg & Hpos & Hneg' & Hpos').
  split; [|split; [|split]].
  - apply Hneg. lia.
  - apply Hpos; [lia | cbn; lia].
  - apply Hneg'. lia.
  - apply Hpos'; [lia | cbn; lia].
Defined.

(** ** Byte counters *)

Lemma ulong_modulus_pos (a : abi) : 0 < ulong_modulus a.
Proof. destruct a; reflexivity. Qed.

Lemma int_max_lt_ulong (a : abi) : INT_MAX < ulong_modulus a.
Proof. destruct a; reflexivity. Qed.

Lemma to_ulong_idem (a : abi) (x : Z) : to_ulong a (to_ulong a x) = to_ulong a x.
Proof.
  unfold to_ulong. apply Z.mod_mod. pose proof (ulong_modulus_pos a). lia.
Qed.

Lemma to_ulong_add_l (a : abi) (x n : Z) :
  to_ulong a (to_ulong a x + n) = to_ulong a (x + n).
Proof. unfold to_ulong. apply Zplus_mod_idemp_l. Qed.

Lemma count_cons (p : Z -> bool) (x : Z) (l : list Z) :
  Z.of_nat (List.length (filter p (x :: l))) =
    (if p x then 1 else 0) + Z.of_nat (List.length (filter p l)).
Proof.
  cbn [filter]. destruct (p x); [|lia].
  cbn [List.length]. lia.
Qed.

Lemma count_le_length (p : Z -> bool) (l : list Z) :
  0 <= Z.of_nat (List.length (filter p l)) <= Z.of_nat (List.length l).
Proof.
  pose proof (filter_length_le p l). lia.
Qed.

Section Counters.
Context {W : Type} `{Platform W}.

(** Over a run of the loop each counter advances, modulo the width of
    [unsigned long], by the number of samples on which its action fired. *)
Lemma flags_loop_counters (cfg : uuart_config) (regs iters : Z) st w x :
  loop_run (fun st => loop_cond iters (st_i st)) (poll_iter cfg regs iters)
    st w x ->
  to_ulong plat_abi (st_txd st) = st_txd st ->
  to_ulong plat_abi (st_rxd st) = st_rxd st ->
  match run_res x with
  | Ret e =>
      st_txd (loop_state e) =
        to_ulong plat_abi (st_txd st + tx_count cfg (lsr_samples (run_trace x)))
      /\ st_rxd (loop_state e) =
           to_ulong plat_abi
             (st_rxd st + rx_count cfg (lsr_samples (run_trace x)))
  | _ => True
  end.
Proof.
  induction 1 as [st w Hc | st w Hc | st w t w' s Hc Hb | st w t w' Hc Hb
                 | st w t1 w1 st1 t2 w2 r Hc Hb Hrun IH];
    intros Htx Hrx;
    cbn [run_trace run_res fst snd loop_state] in *; try exact I.
  - unfold tx_count, rx_count. cbn. rewrite !Z.add_0_r. now split.
  - unfold tx_count, rx_count. cbn. rewrite !Z.add_0_r. now split.
  - destruct (flags_iter_facts cfg regs iters st w) as (Hs & _ & Hres).
    rewrite Hb in Hs, Hres. cbn [run_trace run_res fst snd] in Hs, Hres.
    destruct Hres as [Hst1 _].
    destruct r as [e | s |]; try exact I.
    rewrite lsr_samples_app, Hs. cbn [app].
    unfold tx_count, rx_count in *. rewrite !count_cons.
    set (lsr := to_u8 (fst (mem_load regs R_LSR w))) in *.
    assert (Htx1 : to_ulong plat_abi (st_txd st1) = st_txd st1).
    { rewrite Hst1. cbn [st_txd].
      destruct (does_tx cfg lsr); [apply to_ulong_idem | exact Htx]. }
    assert (Hrx1 : to_ulong plat_abi (st_rxd st1) = st_rxd st1).
    { rewrite Hst1. cbn [st_rxd].
      destruct (does_rx cfg lsr); [apply to_ulong_idem | exact Hrx]. }
    destruct (IH Htx1 Hrx1) as [IHt IHr]. rewrite IHt, IHr.
    rewrite Hst1. cbn [st_txd st_rxd].
    split.
    + destruct (does_tx cfg lsr).
      * rewrite to_ulong_add_l. f_equal. lia.
      * f_equal.
    + destruct (does_rx cfg lsr).
      * rewrite to_ulong_add_l. f_equal. lia.
      * f_equal.
Qed.

(** A counter that started at zero has not wrapped as long as fewer
    iterations have run than [unsigned long] has values. *)
Lemma count_no_wrap (p : Z -> bool) (t : trace) :
  Z.of_nat (iterations t) < ulong_modulus plat_abi ->
  to_ulong plat_abi (0 + Z.of_nat (List.length (filter p (lsr_samples t)))) =
    Z.of_nat (List.length (filter p (lsr_samples t))).
Proof.
  intros Hlt. unfold to_ulong. rewrite Z.add_0_l. apply Z.mod_small.
  pose proof (count_le_length p (lsr_samples t)). unfold iterations in Hlt. lia.
Qed.

End Counters.

Section CountedRun.
Context {W S : Type} (cond : S -> bool) (body : S -> M W S).
Variables (idx : S -> Z) (iters : Z).

Hypothesis cond_spec : forall st, cond st = (idx st <? iters).

Hypothesis body_counts :
  forall st w,
    0 <= idx st ->
    cond st = true ->
    iterations (run_trace (body st w)) = 1%nat
    /\ match run_res (body st w) with
       | Ret st' => idx st' = idx st + 1
       | _ => True
       end.

(** A run that ends on the loop condition has made [iters - idx]
    iterations. *)
Lemma counted_run_done st w x :
  loop_run cond body st w x ->
  0 <= idx st ->
  match run_res x with
  | Ret (LoopDone _) => iterations (run_trace x) = Z.to_nat (iters - idx st)
  | _ => True
  end.
Proof.
  induction 1 as [st w Hc | st w Hc | st w t w' s Hc Hb | st w t w' Hc Hb
                 | st w t1 w1 st1 t2 w2 r Hc Hb Hrun IH];
    intros Hi; cbn [run_trace run_res fst snd] in *; try exact I.
  - rewrite cond_spec in Hc. apply Z.ltb_ge in Hc.
    replace (Z.to_nat (iters - idx st)) with 0%nat by lia. reflexivity.
  - destruct (body_counts st w Hi Hc) as [Hone Hres].
    rewrite Hb in Hone, Hres. cbn [run_trace run_res fst snd] in Hone, Hres.
    assert (Hi1 : 0 <= idx st1) by lia. specialize (IH Hi1).
    destruct r as [[st' | st'] | s |]; try exact I.
    rewrite cond_spec in Hc. apply Z.ltb_lt in Hc.
    rewrite iterations_app, Hone, IH. lia.
Qed.

End CountedRun.

Section CountersAtEnd.
Context {W : Type} `{Platform W}.

(** The flag-aware loop can only end on a non-negative count, and then it
    has made that many iterations. *)
Lemma flags_done_iterations (cfg : uuart_config) (regs iters : Z)
  (fuel : nat) (w : W) st' :
  run_res (poll_loop fuel cfg regs iters poll_init w) = Ret (LoopDone st') ->
  0 <= iters
  /\ iterations (run_trace (poll_loop fuel cfg regs iters poll_init w)) =
       Z.to_nat iters.
Proof.
  intros Hdone.
  destruct (Z.lt_ge_cases iters 0) as [Hneg | Hpos].
  - destruct (flags_loop_negative cfg regs iters Hneg fuel poll_init w)
      as [_ Hres].
    rewrite Hdone in Hres. destruct Hres.
  - split; [exact Hpos|].
    assert (Hcond : forall st : poll_state,
               loop_cond iters (st_i st) = (st_i st <? iters)).
    { intros st. unfold loop_cond.
      replace (iters <? 0) with false by (symmetry; apply Z.ltb_ge; lia).
      reflexivity. }
    assert (Hbody : forall st w0,
               0 <= st_i st ->
               loop_cond iters (st_i st) = true ->
               iterations (run_trace (poll_iter cfg regs iters st w0)) = 1%nat
               /\ match run_res (poll_iter cfg regs iters st w0) with
                  | Ret st1 => st_i st1 = st_i st + 1
                  | _ => True
                  end).
    { intros st w0 Hi Hc. rewrite Hcond in Hc. apply Z.ltb_lt in Hc.
      destruct (flags_iter_facts cfg regs iters st w0) as (Hs & _ & Hres).
      split; [unfold iterations; now rewrite Hs|].
      destruct (run_res (poll_iter cfg regs iters st w0)); try exact I.
      destruct Hres as [-> _]. cbn [st_i].
      replace (iters >? 0) with true by (symmetry; apply Z.gtb_lt; lia).
      reflexivity. }
    pose proof (counted_run_done _ _ st_i iters Hcond Hbody poll_init w _
                  (for_loop_run _ _ fuel poll_init w)) as Hrun.
    unfold poll_loop in *. rewrite Hdone in Hrun.
    cbn [st_i poll_init] in Hrun. rewrite Z.sub_0_r in Hrun.
    apply Hrun. lia.
Qed.

(** When the loop ends, the counters are the numbers of samples on which the
    actions fired: an [int] count cannot make them wrap. *)
Lemma flags_done_counters (cfg : uuart_config) (regs iters : Z)
  (fuel : nat) (w : W) st' :
  iters <= INT_MAX ->
  let x := poll_loop fuel cfg regs iters poll_init w in
  run_res x = Ret (LoopDone st') ->
  st_txd st' = tx_count cfg (lsr_samples (run_trace x))
  /\ st_rxd st' = rx_count cfg (lsr_samples (run_trace x)).
Proof.
  intros Hint x Hdone.
  destruct (flags_done_iterations cfg regs iters fuel w st' Hdone)
    as [Hpos Hiter].
  fold x in Hiter.
  pose proof (flags_loop_counters cfg regs iters poll_init w x
                (for_loop_run _ _ fuel poll_init w) eq_refl eq_refl) as Hc.
  rewrite Hdone in Hc. cbn [loop_state st_txd st_rxd poll_init] in Hc.
  destruct Hc as [Ht Hr]. rewrite Ht, Hr. unfold tx_count, rx_count.
  assert (Hlt : Z.of_nat (iterations (run_trace x)) < ulong_modulus plat_abi).
  { rewrite Hiter, Z2Nat.id by lia.
    pose proof (int_max_lt_ulong plat_abi). lia. }
  split; now apply count_no_wrap.
Qed.

End CountersAtEnd.

(** On the platform whose transmitter is always ready, after [n] iterations
    of the unbounded loop the transmit counter is [n] modulo 2^32. *)
Lemma thre_loop (n : nat) :
  forall st : poll_state,
    st_stall st = false ->
    to_ulong ILP32 (st_txd st) = st_txd st ->
    run_res (poll_loop n cfg0 7 (-1) st Sim.ThreOnly) =
      Ret (LoopFuel {| st_stall := false; st_i := st_i st;
                       st_txd := to_ulong ILP32 (st_txd st + Z.of_nat n);
                       st_rxd := st_rxd st |}).
Proof.
  unfold poll_loop.
  induction n as [|n IH]; intros st Hstall Hvalid; cbn [for_loop].
  - change (loop_cond (-1) (st_i st)) with true. cbv iota.
    destruct st as [s i t r]. cbn in *. subst s.
    rewrite Z.add_0_r, Hvalid. reflexivity.
  - change (loop_cond (-1) (st_i st)) with true. cbv iota.
    rewrite bind_run, flags_poll_iter_run.
    change (to_u8 (fst (mem_load 7 R_LSR Sim.ThreOnly))) with 32.
    rewrite Hstall.
    change (Bool.eqb (lsr_active 32) false) with false.
    change (does_tx cfg0 32) with true.
    change (does_rx cfg0 32) with false.
    cbv zeta. cbn [andb run_res run_trace run_world fst snd].
    change (mem_store 7 R_THR FILLER (snd (mem_load 7 R_LSR Sim.ThreOnly)))
      with Sim.ThreOnly.
    rewrite IH.
    + cbn [st_i st_txd st_rxd]. change (-1 >? 0) with false. cbv iota.
      rewrite Z.add_0_r, to_ulong_add_l.
      replace (st_txd st + Z.of_nat (S n)) with (st_txd st + 1 + Z.of_nat n)
        by lia.
      reflexivity.
    + reflexivity.
    + cbn [st_txd]. apply to_ulong_idem.
Qed.

(** C5 as stated fails: the counters are [unsigned long] and the loop with a
    negative count never ends.  With the transmitter always ready, the run
    that is one iteration longer than 4294967295 iterations has a smaller
    transmit counter: it went from 4294967295 to 0 on an iteration in which the
    transmit-holding-empty bit was set and transmit was not ignored. *)
Lemma C5_counter_wraps_counterexample :
  exists (n : nat) (st1 st2 : poll_state),
    Z.of_nat n = 4294967295
    /\ run_res (poll_loop n cfg0 7 (-1) poll_init Sim.ThreOnly)
       = Ret (LoopFuel st1)
    /\ run_res (poll_loop (S n) cfg0 7 (-1) poll_init Sim.ThreOnly)
       = Ret (LoopFuel st2)
    /\ st_txd st1 = 4294967295
    /\ st_txd st2 = 0
    /\ st_txd st2 < st_txd st1.
Proof.
  assert (Hn : exists n : nat, Z.of_nat n = 4294967295).
  { exists (Z.to_nat 4294967295). apply Z2Nat.id. discriminate. }
  destruct Hn as [n Hn]. exists n.
  eexists. eexists. split; [exact Hn|].
  split; [apply thre_loop; reflexivity|].
  split; [apply thre_loop; reflexivity|].
  cbn [st_txd poll_init]. rewrite Nat2Z.inj_succ, Hn.
  repeat split.
Qed.

(** C5, amended.  The counters start at zero.  An iteration that completes
    adds one, modulo the width of [unsigned long], to the transmit counter if
    the sample has the transmit-holding-empty bit set and transmit is not
    ignored, and leaves it unchanged otherwise; likewise for the receive
    counter with the data-ready bit; short of the largest [unsigned long] this
    is an increase by exactly one or none.  During a run from the initial
    state each counter is, modulo that width, the number of samples on which
    its action fired, and exactly that number as long as fewer iterations have
    run than [unsigned long] has values.  When the loop ends (its count is an
    [int]) each counter is exactly that number. *)
Theorem C5_byte_counters :
  forall (W : Type) (P : Platform W),
    (st_txd poll_init = 0 /\ st_rxd poll_init = 0)
    /\ (forall cfg regs iters st w st',
           let lsr := to_u8 (fst (mem_load regs R_LSR w)) in
           run_res (UuartFlags.poll_iter cfg regs iters st w) = Ret st' ->
           st_txd st' = (if does_tx cfg lsr
                         then to_ulong plat_abi (st_txd st + 1) else st_txd st)
           /\ st_rxd st' = (if does_rx cfg lsr
                            then to_ulong plat_abi (st_rxd st + 1)
                            else st_rxd st)
           /\ (0 <= st_txd st < ulong_modulus plat_abi - 1 ->
               st_txd st' = st_txd st + (if does_tx cfg lsr then 1 else 0))
           /\ (0 <= st_rxd st < ulong_modulus plat_abi - 1 ->
               st_rxd st' = st_rxd st + (if does_rx cfg lsr then 1 else 0)))
    /\ (forall cfg regs iters fuel w e,
           let x := UuartFlags.poll_loop fuel cfg regs iters poll_init w in
           let samples := lsr_samples (run_trace x) in
           run_res x = Ret e ->
           st_txd (loop_state e) = to_ulong plat_abi (tx_count cfg samples)
           /\ st_rxd (loop_state e) = to_ulong plat_abi (rx_count cfg samples)
           /\ (Z.of_nat (iterations (run_trace x)) < ulong_modulus plat_abi ->
               st_txd (loop_state e) = tx_count cfg samples
               /\ st_rxd (loop_state e) = rx_count cfg samples))
    /\ (forall cfg regs iters fuel w st',
           let x := UuartFlags.poll_loop fuel cfg regs iters poll_init w in
           let samples := lsr_samples (run_trace x) in
           iters <= INT_MAX ->
           run_res x = Ret (LoopDone st') ->
           st_txd st' = tx_count cfg samples
           /\ st_rxd st' = rx_count cfg samples).
Proof.
  intros W P. split; [split; reflexivity|]. split; [|split].
  - intros cfg regs iters st w st' lsr Hret.
    destruct (flags_iter_facts cfg regs iters st w) as (_ & _ & Hres).
    rewrite Hret in Hres. destruct Hres as [-> _]. fold lsr.
    cbn [st_txd st_rxd]. split; [reflexivity|]. split; [reflexivity|].
    unfold to_ulong.
    split; intros Hr; [destruct (does_tx cfg lsr) | destruct (does_rx cfg lsr)];
      try lia; apply Z.mod_small; lia.
  - intros cfg regs iters fuel w e x samples Hret.
    pose proof (flags_loop_counters cfg regs iters poll_init w x
                  (for_loop_run _ _ fuel poll_init w) eq_refl eq_refl) as Hc.
    rewrite Hret in Hc. cbn [st_txd st_rxd poll_init] in Hc.
    fold samples in Hc. destruct Hc as [Ht Hr].
    rewrite Ht, Hr, !Z.add_0_l. split; [reflexivity|]. split; [reflexivity|].
    intros Hlt. unfold tx_count, rx_count, samples.
    rewrite <- (Z.add_0_l (Z.of_nat (List.length (filter (does_tx cfg) _)))).
    rewrite <- (Z.add_0_l (Z.of_nat (List.length (filter (does_rx cfg) _)))).
    rewrite !count_no_wrap by exact Hlt. rewrite !Z.add_0_l. now split.
  - intros cfg regs iters fuel w st' x samples Hint Hdone.
    now apply (flags_done_counters cfg regs iters fuel w st' Hint).
Qed.

(** The counters on the scripted device: one iteration from the initial
    state, and a run of three iterations to its end. *)
Lemma C5_byte_counters_witness :
  (let st' := {| st_stall := false; st_i := 1; st_txd := 1; st_rxd := 1 |} in
   st_txd st' = st_txd poll_init + 1 /\ st_rxd st' = st_rxd poll_init + 1)
  /\ (let x := UuartFlags.poll_loop 3 cfg0 7 3 poll_init
                 (Sim.sim0 [0x20; 0x21; 0x01] []) in
      st_txd (loop_state (LoopDone
                {| st_stall := false; st_i := 3; st_txd := 2; st_rxd := 2 |}))
        = tx_count cfg0 (lsr_samples (run_trace x))
      /\ st_rxd (loop_state (LoopDone
                {| st_stall := false; st_i := 3; st_txd := 2; st_rxd := 2 |}))
        = rx_count cfg0 (lsr_samples (run_trace x)))
  /\ (let x := UuartFlags.poll_loop 3 cfg0 7 3 poll_init
                 (Sim.sim0 [0x20; 0x21; 0x01] []) in
      st_txd {| st_stall := false; st_i := 3; st_txd := 2; st_rxd := 2 |}
        = tx_count cfg0 (lsr_samples (run_trace x))
      /\ st_rxd {| st_stall := false; st_i := 3; st_txd := 2; st_rxd := 2 |}
        = rx_count cfg0 (lsr_samples (run_trace x))).
Proof.
  destruct (C5_byte_counters Sim.sim Sim.sim_platform)
    as (_ & Hiter & Hrun & Hdone).
  split; [|split].
  - destruct (Hiter cfg0 7 3 poll_init (Sim.sim0 [0x21] [])
                {| st_stall := false; st_i := 1; st_txd := 1; st_rxd := 1 |}
                eq_refl) as (_ & _ & Ht & Hr).
    split; [apply Ht | apply Hr]; split; vm_compute; congruence.
  - destruct (Hrun cfg0 7 3 3%nat (Sim.sim0 [0x20; 0x21; 0x01] [])
                (LoopDone {| st_stall := false; st_i := 3;
                             st_txd := 2; st_rxd := 2 |})
                eq_refl) as (_ & _ & Hexact).
    apply Hexact. vm_compute. reflexivity.
  - apply (Hdone cfg0 7 3 3%nat (Sim.sim0 [0x20; 0x21; 0x01] [])).
    + vm_compute. discriminate.
    + reflexivity.
Defined.

(** ** Order of the transmit and receive actions *)

Section TransferOrder.
Context {W : Type} `{Platform W}.

Lemma flags_iter_order (cfg : uuart_config) (regs iters : Z)
  (st st' : poll_state) (w : W) :
  let lsr := to_u8 (fst (mem_load regs R_LSR w)) in
  let x := poll_iter cfg regs iters st w in
  does_tx cfg lsr = true ->
  does_rx cfg lsr = true ->
  run_res x = Ret st' ->
  tx_then_rx regs (run_trace x).
Proof.
  intros lsr x Htx Hrx. subst x. rewrite flags_poll_iter_run. fold lsr.
  cbv zeta. rewrite Htx, Hrx.
  destruct (Bool.eqb (lsr_active lsr) (st_stall st)); cbn [andb].
  - destruct (fst (fst (sys_clock_gettime (snd (mem_load regs R_LSR w)))) =? 0);
      cbn [negb run_res run_trace fst snd]; [|discriminate].
    intros _. eexists [_; _; _], _. split; [reflexivity|].
    unfold edge_line. destruct (lsr_active lsr); reflexivity.
  - cbn [run_res run_trace fst snd].
    intros _. eexists [_], _. split; reflexivity.
Qed.

Lemma uuart_iter_order (regs : Z) (st st' : Uuart.poll_state) (w : W) :
  let lsr := to_u8 (fst (mem_load regs R_LSR w)) in
  let x := Uuart.poll_iter regs st w in
  lsr_thre lsr = true ->
  lsr_dr lsr = true ->
  run_res x = Ret st' ->
  rx_then_tx regs (run_trace x).
Proof.
  intros lsr x Htx Hrx. subst x. rewrite uuart_poll_iter_run. fold lsr.
  cbv zeta. rewrite Htx, Hrx.
  destruct (Bool.eqb (lsr_active lsr) (Uuart.st_stall st)); cbn [andb].
  - destruct (fst (fst (sys_clock_gettime (snd (mem_load regs R_LSR w)))) =? 0);
      cbn [negb run_res run_trace fst snd]; [|discriminate].
    intros _. eexists [_; _; _], _. split; [reflexivity|].
    unfold edge_line. destruct (lsr_active lsr); reflexivity.
  - cbn [run_res run_trace fst snd].
    intros _. eexists [_], _. split; reflexivity.
Qed.

End TransferOrder.

(** C8 as stated fails in [src/uuart.c]: with both bits set, its iteration
    reads the receive buffer and emits the byte first and writes the filler
    byte last. *)
Lemma C8_uuart_rx_first_counterexample :
  let t := run_trace (Uuart.poll_iter 7 Uuart.poll_init (Sim.sim0 [0x21] [])) in
  t = [EvRead 7 R_LSR 0x21; EvRead 7 R_RBR 0; EvPutchar 0;
       EvWrite 7 R_THR FILLER]
  /\ ~ tx_then_rx 7 t.
Proof.
  split; [reflexivity|].
  intros (pre & c & Ht & _). vm_compute in Ht.
  destruct pre as [|e1 [|e2 [|e3 pre]]]; cbn in Ht; try discriminate.
  destruct pre as [|e4 pre]; [discriminate|].
  injection Ht as _ _ _ _ Ht. destruct pre; discriminate.
Qed.

(** C8, amended.  In the flag-aware program, an iteration that completes and
    in which both paths act (transmit-holding-empty and data-ready observed
    set, neither path ignored) ends with the write of the filler byte to the
    transmit-holding register, then the read of the receive-buffer register,
    then the byte on the output stream, and moves no byte before.  In
    [src/uuart.c], which has no flags, the order is the reverse: read, emit,
    then write. *)
Theorem C8_transfer_order :
  forall (W : Type) (P : Platform W),
    (forall cfg regs iters st w st',
        let lsr := to_u8 (fst (mem_load regs R_LSR w)) in
        let x := UuartFlags.poll_iter cfg regs iters st w in
        ignore_tx cfg = false -> ignore_rx cfg = false ->
        lsr_thre lsr = true -> lsr_dr lsr = true ->
        run_res x = Ret st' ->
        tx_then_rx regs (run_trace x))
    /\ (forall regs st w st',
           let lsr := to_u8 (fst (mem_load regs R_LSR w)) in
           let x := Uuart.poll_iter regs st w in
           lsr_thre lsr = true -> lsr_dr lsr = true ->
           run_res x = Ret st' ->
           rx_then_tx regs (run_trace x)).
Proof.
  intros W P. split.
  - intros cfg regs iters st w st' lsr x Htx Hrx Hthre Hdr Hret.
    apply (flags_iter_order cfg regs iters st st' w); [| |exact Hret];
      unfold does_tx, does_rx; fold lsr; now rewrite ?Htx, ?Hrx, ?Hthre, ?Hdr.
  - intros regs st w st' lsr x Hthre Hdr Hret.
    now apply (uuart_iter_order regs st st' w).
Qed.

(** Both orders on the scripted device, sample [0x21]. *)
Lemma C8_transfer_order_witness :
  tx_then_rx 7
    (run_trace (UuartFlags.poll_iter cfg0 7 1 poll_init (Sim.sim0 [0x21] [])))
  /\ rx_then_tx 7
       (run_trace (Uuart.poll_iter 7 Uuart.poll_init (Sim.sim0 [0x21] []))).
Proof.
  destruct (C8_transfer_order Sim.sim Sim.sim_platform) as [Hflags Huuart].
  split.
  - apply (Hflags cfg0 7 1 poll_init (Sim.sim0 [0x21] [])
             {| st_stall := false; st_i := 1; st_txd := 1; st_rxd := 1 |});
      reflexivity.
  - apply (Huuart 7 Uuart.poll_init (Sim.sim0 [0x21] [])
             {| Uuart.st_stall := false; Uuart.st_i := 1 |});
      reflexivity.
Defined.

(** ** The configuration sequence *)

Section Configure.
Context {W : Type} `{Platform W}.

(** [configure] always returns; its trace is the optional enable write, the
    read and the write of the interrupt-enable register, the optional FIFO
    write and the optional modem-control write. *)
Lemma flags_configure_run (cfg : uuart_config) (regs : Z) (w : W) :
  let cur := to_u8 (fst (mem_load regs R_IER (after_enable cfg regs w))) in
  run_res (UuartFlags.configure cfg regs w) = Ret tt
  /\ run_trace (UuartFlags.configure cfg regs w) =
       (if assume_enabled cfg then []
        else [EvWrite regs R_GCRA (Z.lor GCRA_VUART_EN GCRA_H_TX_CORK)])
       ++ [EvRead regs R_IER cur;
           EvWrite regs R_IER
             (spec_ier_rule (ignore_tx cfg) (ignore_rx cfg) cur)]
       ++ (if assume_fifos cfg then [] else [EvWrite regs R_FCR 0x07])
       ++ (if assume_dtr cfg then [] else [EvWrite regs R_MCR 0x0b]).
Proof.
  intros cur. unfold UuartFlags.configure, bind, when.
  assert (Hen : (if negb (assume_enabled cfg)
                 then writeb regs R_GCRA (Z.lor GCRA_VUART_EN GCRA_H_TX_CORK)
                 else ret tt) w
                = (if assume_enabled cfg then []
                   else [EvWrite regs R_GCRA
                           (Z.lor GCRA_VUART_EN GCRA_H_TX_CORK)],
                   after_enable cfg regs w, Ret tt)).
  { unfold after_enable. destruct (assume_enabled cfg); reflexivity. }
  rewrite Hen, configure_ier_run. fold cur.
  destruct (assume_enabled cfg), (assume_fifos cfg), (assume_dtr cfg);
    split; reflexivity.
Qed.

Lemma flags_configure_writes (cfg : uuart_config) (regs : Z) (w : W) :
  writes (run_trace (UuartFlags.configure cfg regs w)) =
    configure_writes cfg regs
      (to_u8 (fst (mem_load regs R_IER (after_enable cfg regs w)))).
Proof.
  destruct (flags_configure_run cfg regs w) as [_ Ht]. rewrite Ht.
  unfold configure_writes.
  destruct (assume_enabled cfg), (assume_fifos cfg), (assume_dtr cfg);
    reflexivity.
Qed.

End Configure.

(** C4 as stated fails: no flag gates the interrupt-enable step.  With every
    flag set, on a device whose interrupt-enable register holds only the
    line-status interrupt bit, the configurator still writes that register,
    and changes it from 4 to 0. *)
Lemma C4_ier_write_counterexample :
  let x := UuartFlags.configure cfg_all 7 Sim.sim_elsi in
  Sim.sim_regs Sim.sim_elsi R_IER = 4
  /\ writes (run_trace x) = [EvWrite 7 R_IER 0]
  /\ writes (run_trace x) <> []
  /\ Sim.sim_regs (run_world x) R_IER = 0.
Proof.
  cbv zeta. repeat split. discriminate.
Qed.

(** C4, amended.  For every combination of the flags, the writes of the
    configurator are, in this order: the enable write to GCRA iff
    [assume_enabled] is clear; one write to the interrupt-enable register
    always, with the value of the masking rule; the FIFO write to FCR iff
    [assume_fifos] is clear; the modem-control write to MCR iff [assume_dtr] is
    clear.  Each gated step is thus skipped exactly when its flag is set and is
    one whole write otherwise; with all flags set the only write left is the
    one to the interrupt-enable register. *)
Theorem C4_gated_configuration_steps :
  forall (W : Type) (P : Platform W) (cfg : uuart_config) (regs : Z) (w : W),
    let x := UuartFlags.configure cfg regs w in
    let cur := to_u8 (fst (mem_load regs R_IER (after_enable cfg regs w))) in
    run_res x = Ret tt
    /\ writes (run_trace x) =
         (if assume_enabled cfg then []
          else [EvWrite regs R_GCRA (Z.lor GCRA_VUART_EN GCRA_H_TX_CORK)])
         ++ [EvWrite regs R_IER
               (spec_ier_rule (ignore_tx cfg) (ignore_rx cfg) cur)]
         ++ (if assume_fifos cfg then [] else [EvWrite regs R_FCR 0x07])
         ++ (if assume_dtr cfg then [] else [EvWrite regs R_MCR 0x0b])
    /\ (assume_enabled cfg = true -> assume_fifos cfg = true ->
        assume_dtr cfg = true ->
        writes (run_trace x) =
          [EvWrite regs R_IER
             (spec_ier_rule (ignore_tx cfg) (ignore_rx cfg) cur)]).
Proof.
  intros W P cfg regs w x cur.
  split; [apply flags_configure_run|].
  unfold x. rewrite flags_configure_writes. fold cur.
  split; [reflexivity|].
  intros He Hf Hd. unfold configure_writes. now rewrite He, Hf, Hd.
Qed.

(** All flags set, on the device whose interrupt-enable register holds 4. *)
Lemma C4_gated_configuration_steps_witness :
  writes (run_trace (UuartFlags.configure cfg_all 7 Sim.sim_elsi)) =
    [EvWrite 7 R_IER
       (spec_ier_rule true true
          (to_u8 (fst (mem_load 7 R_IER (after_enable cfg_all 7 Sim.sim_elsi)))))].
Proof.
  destruct (C4_gated_configuration_steps Sim.sim Sim.sim_platform cfg_all 7
              Sim.sim_elsi) as (_ & _ & Hall).
  apply Hall; reflexivity.
Defined.

(** ** The stages of [main] *)

Lemma forallb_impl {A} (p q : A -> bool) (l : list A) :
  (forall x, p x = true -> q x = true) ->
  forallb p l = true -> forallb q l = true.
Proof.
  intros Hpq. rewrite !forallb_forall. intros Hp x Hx. now apply Hpq, Hp.
Qed.

Lemma dump_event_calm (e : event) : is_dump_event e = true -> calm e = true.
Proof. destruct e as [| | | | |[]| |]; cbn; congruence. Qed.

Section Stages.
Context {W : Type} `{Platform W}.

Lemma dump_list_cons (regs : Z) (name : string) (off : Z)
  (l : list (string * Z)) (w : W) :
  let v := to_u8 (fst (mem_load regs off w)) in
  let y := dump_list regs l (snd (mem_load regs off w)) in
  dump_list regs ((name, off) :: l) w =
    (EvRead regs off v :: EvLog (LogReg name v) :: run_trace y,
     run_world y, run_res y).
Proof.
  cbn [dump_list]. unfold bind, readb, log, emit.
  destruct (mem_load regs off w) as [v w1]. cbn [fst snd].
  destruct (dump_list regs l w1) as [[t2 w2] r2]. reflexivity.
Qed.

(** A register dump always returns; it only loads and logs, one load per
    entry of its table, in order. *)
Lemma dump_list_run (regs : Z) (l : list (string * Z)) :
  forall w,
    run_res (dump_list regs l w) = Ret tt
    /\ forallb is_dump_event (run_trace (dump_list regs l w)) = true
    /\ read_offsets (run_trace (dump_list regs l w)) = map snd l.
Proof.
  induction l as [|[name off] l IH]; intros w.
  - repeat split.
  - rewrite dump_list_cons. cbv zeta.
    destruct (IH (snd (mem_load regs off w))) as (Hr & Hd & Ho).
    cbn [run_res run_trace fst snd forallb is_dump_event read_offsets map
         andb].
    rewrite Hr, Hd, Ho. repeat split.
Qed.

Lemma dump_regs_run (regs : Z) (w : W) :
  run_res (dump_regs regs w) = Ret tt
  /\ forallb is_dump_event (run_trace (dump_regs regs w)) = true
  /\ read_offsets (run_trace (dump_regs regs w)) =
       [R_IER; R_IIR; R_LCR; R_MCR; R_LSR; R_MSR; R_GCRA; R_GCRB;
        R_VARL; R_VARH; R_GCRE; R_GCRF; R_GCRG; R_GCRH].
Proof. apply (dump_list_run regs dump_table w). Qed.

(** Option parsing either returns a configuration, silently, or exits with
    one message. *)
Lemma parse_options_run (opts : list ascii) :
  forall cfg (w : W),
    (exists cfg', parse_options opts cfg w = ([], w, Ret cfg'))
    \/ (exists s msg, parse_options opts cfg w = ([EvErr s msg], w, Exited s)).
Proof.
  induction opts as [|o opts IH]; intros cfg w; cbn [parse_options].
  - left. now exists cfg.
  - repeat match goal with
           | |- context [if Ascii.eqb o ?c then _ else _] =>
               destruct (Ascii.eqb o c)
           end;
      try apply IH; right; eexists; eexists; reflexivity.
Qed.

Lemma parse_options_flags (opts : list ascii) :
  forallb flag_option opts = true ->
  forall cfg (w : W), exists cfg', parse_options opts cfg w = ([], w, Ret cfg').
Proof.
  induction opts as [|o opts IH]; intros Hall cfg w; cbn [parse_options].
  - now exists cfg.
  - cbn [forallb] in Hall. apply andb_true_iff in Hall.
    destruct Hall as [Ho Hall]. unfold flag_option in Ho.
    destruct (Ascii.eqb o "D"); [now apply IH|].
    destruct (Ascii.eqb o "E"); [now apply IH|].
    destruct (Ascii.eqb o "F"); [now apply IH|].
    destruct (Ascii.eqb o "h") eqn:Hh.
    { apply Ascii.eqb_eq in Hh. subst o. discriminate. }
    destruct (Ascii.eqb o "R"); [now apply IH|].
    destruct (Ascii.eqb o "T"); [now apply IH|].
    discriminate.
Qed.

End Stages.

Section MainRuns.
Context {W : Type} `{Platform W}.

Lemma bind_ret_run {A B} (m : M W A) (f : A -> M W B) (w : W) (a : A) :
  run_res (m w) = Ret a ->
  bind m f w =
    (run_trace (m w) ++ run_trace (f a (run_world (m w))),
     run_world (f a (run_world (m w))),
     run_res (f a (run_world (m w)))).
Proof. intros Hr. rewrite bind_run, Hr. reflexivity. Qed.

Lemma bind_log_run {B} (l : log_line) (f : unit -> M W B) (w : W) :
  bind (log l) f w =
    (EvLog l :: run_trace (f tt w), run_world (f tt w), run_res (f tt w)).
Proof.
  unfold bind, log, emit. destruct (f tt w) as [[t2 w2] r2]. reflexivity.
Qed.

Ltac run_simpl := cbn [run_trace run_world run_res fst snd].

(** The start of [main]: a failed [open] (-1) and a null [mmap] result are
    reported and end the process; otherwise the registers are dumped. *)
Lemma startup_run (w : W) :
  let fd := fst (sys_open w) in
  let w1 := snd (sys_open w) in
  let regs := fst (sys_mmap fd w1) in
  let w2 := snd (sys_mmap fd w1) in
  let d := dump_regs regs w2 in
  startup w =
    if fd =? -1 then
      ([EvOpen fd; EvErr EXIT_FAILURE "open"], w1, Exited EXIT_FAILURE)
    else if regs =? NULL then
      ([EvOpen fd; EvMmap fd regs; EvErr EXIT_FAILURE "mmap"], w2,
       Exited EXIT_FAILURE)
    else
      ([EvOpen fd; EvMmap fd regs; EvLog LogStartup] ++ run_trace d,
       run_world d, Ret regs).
Proof.
  intros fd w1 regs w2 d. subst d w2 regs w1 fd.
  unfold startup. unfold bind at 1. unfold open_dev_mem.
  destruct (sys_open w) as [fd w1]. cbn [fst snd].
  destruct (fd =? -1); [reflexivity|].
  unfold bind at 1. unfold ret at 1. unfold bind at 1. unfold mmap_vuart.
  destruct (sys_mmap fd w1) as [regs w2]. cbn [fst snd].
  destruct (regs =? NULL); [reflexivity|].
  unfold bind at 1. unfold ret at 1.
  rewrite bind_log_run.
  destruct (dump_regs_run regs w2) as (Hr & _ & _).
  rewrite (bind_ret_run _ _ _ tt Hr). run_simpl.
  unfold ret. run_simpl. rewrite app_nil_r. reflexivity.
Qed.

Lemma flags_finish_run (cfg : uuart_config) (regs : Z) (st : poll_state)
  (w : W) :
  let d := dump_regs regs w in
  finish cfg regs st w =
    ([EvLog LogTerminating] ++ run_trace d
       ++ (if ignore_tx cfg then [] else [EvLog (LogTransmitted (st_txd st))])
       ++ (if ignore_rx cfg then [] else [EvLog (LogReceived (st_rxd st))]),
     run_world d, Exited EXIT_SUCCESS).
Proof.
  intros d. subst d. unfold finish. rewrite bind_log_run.
  destruct (dump_regs_run regs w) as (Hr & _ & _).
  rewrite (bind_ret_run _ _ _ tt Hr). run_simpl.
  unfold when, bind, log, emit, exit, ret.
  destruct (ignore_tx cfg), (ignore_rx cfg); reflexivity.
Qed.

(** The session of the flag-aware program: configuration, second dump, the
    loop, and, if the loop ends, the final report. *)
Lemma flags_session_run (fuel : nat) (cfg : uuart_config) (regs iters : Z)
  (w : W) :
  let c := UuartFlags.configure cfg regs w in
  let d := dump_regs regs (run_world c) in
  let l := UuartFlags.poll_loop fuel cfg regs iters poll_init (run_world d) in
  let pre := run_trace c ++ [EvLog LogInitialised] ++ run_trace d
             ++ [EvLog (LogRunning iters)] in
  UuartFlags.session fuel cfg regs iters w =
    match run_res l with
    | Ret (LoopDone st) =>
        let f := finish cfg regs st (run_world l) in
        (pre ++ run_trace l ++ run_trace f, run_world f, run_res f)
    | Ret (LoopFuel _) => (pre ++ run_trace l, run_world l, Running)
    | Exited s => (pre ++ run_trace l, run_world l, Exited s)
    | Running => (pre ++ run_trace l, run_world l, Running)
    end.
Proof.
  intros c d l pre. subst pre l d c. unfold UuartFlags.session.
  destruct (flags_configure_run cfg regs w) as [Hc _].
  rewrite (bind_ret_run _ _ _ tt Hc). rewrite bind_log_run. run_simpl.
  set (w1 := run_world (UuartFlags.configure cfg regs w)).
  destruct (dump_regs_run regs w1) as (Hd & _ & _).
  rewrite (bind_ret_run _ _ _ tt Hd). rewrite bind_log_run. run_simpl.
  set (w2 := run_world (dump_regs regs w1)).
  rewrite bind_run.
  destruct (run_res (UuartFlags.poll_loop fuel cfg regs iters poll_init w2))
    as [[st | st] | s |]; run_simpl; cbn [app];
    rewrite <- ?app_assoc; cbn [app]; rewrite <- ?app_assoc;
    try reflexivity.
  unfold running. run_simpl. rewrite app_nil_r. reflexivity.
Qed.

(** The session of [src/uuart.c]. *)
Lemma uuart_session_run (fuel : nat) (regs iters : Z) (w : W) :
  let c := Uuart.configure regs w in
  let d := dump_regs regs (run_world c) in
  let l := Uuart.poll_loop fuel regs iters Uuart.poll_init (run_world d) in
  let pre := run_trace c ++ [EvLog LogInitialised] ++ run_trace d in
  Uuart.session fuel regs iters w =
    match run_res l with
    | Ret (LoopDone st) =>
        let d3 := dump_regs regs (run_world l) in
        (pre ++ run_trace l ++ [EvLog LogTerminating] ++ run_trace d3,
         run_world d3, Exited EXIT_SUCCESS)
    | Ret (LoopFuel _) => (pre ++ run_trace l, run_world l, Running)
    | Exited s => (pre ++ run_trace l, run_world l, Exited s)
    | Running => (pre ++ run_trace l, run_world l, Running)
    end.
Proof.
  intros c d l pre. subst pre l d c. unfold Uuart.session.
  assert (Hc : run_res (Uuart.configure regs w) = Ret tt) by reflexivity.
  rewrite (bind_ret_run _ _ _ tt Hc). rewrite bind_log_run. run_simpl.
  set (w1 := run_world (Uuart.configure regs w)).
  destruct (dump_regs_run regs w1) as (Hd & _ & _).
  rewrite (bind_ret_run _ _ _ tt Hd). run_simpl.
  set (w2 := run_world (dump_regs regs w1)).
  rewrite bind_run.
  destruct (run_res (Uuart.poll_loop fuel regs iters Uuart.poll_init w2))
    as [[st | st] | s |]; run_simpl; cbn [app];
    rewrite <- ?app_assoc; cbn [app]; rewrite <- ?app_assoc;
    try reflexivity.
  - rewrite bind_log_run. run_simpl.
    set (w3 := run_world (Uuart.poll_loop fuel regs iters Uuart.poll_init w2)).
    destruct (dump_regs_run regs w3) as (Hd3 & _ & _).
    rewrite (bind_ret_run _ _ _ tt Hd3). unfold exit. run_simpl.
    rewrite app_nil_r. reflexivity.
  - unfold running. run_simpl. rewrite app_nil_r. reflexivity.
Qed.

End MainRuns.

(** ** Clock failure *)

Lemma calm_no_failed_clock (t : trace) :
  forallb calm t = true -> no_failed_clock t = true.
Proof.
  apply forallb_impl. intros e. unfold calm. rewrite !andb_true_iff. tauto.
Qed.

Lemma no_failed_clock_app (t1 t2 : trace) :
  no_failed_clock (t1 ++ t2) = no_failed_clock t1 && no_failed_clock t2.
Proof. apply forallb_app. Qed.

Lemma no_failed_clock_In (t : trace) (rc : Z) :
  no_failed_clock t = true -> In (EvClock rc) t -> rc = 0.
Proof.
  unfold no_failed_clock. rewrite forallb_forall. intros Hall Hin.
  specialize (Hall _ Hin). cbn in Hall.
  apply negb_true_iff, negb_false_iff, Z.eqb_eq in Hall. exact Hall.
Qed.

Section FailFast.
Context {W S : Type} (cond : S -> bool) (body : S -> M W S).

Hypothesis body_fail_fast : forall st w, fail_fast (body st w).

(** A loop whose body is fail-fast is fail-fast. *)
Lemma loop_fail_fast st w x : loop_run cond body st w x -> fail_fast x.
Proof.
  induction 1 as [st w Hc | st w Hc | st w t w' s Hc Hb | st w t w' Hc Hb
                 | st w t1 w1 st1 t2 w2 r Hc Hb Hrun IH].
  - reflexivity.
  - reflexivity.
  - pose proof (body_fail_fast st w) as H1. rewrite Hb in H1.
    unfold fail_fast, aborted_on_clock in *.
    cbn [run_res run_trace fst snd] in *.
    destruct H1 as [Hs Hrest]. split; [|exact Hrest].
    injection Hs as ->. reflexivity.
  - pose proof (body_fail_fast st w) as H1. rewrite Hb in H1. exact H1.
  - pose proof (body_fail_fast st w) as H1. rewrite Hb in H1.
    unfold fail_fast in *. cbn [run_res run_trace fst snd] in *.
    destruct r as [e | s |].
    + rewrite forallb_app, H1, IH. reflexivity.
    + destruct IH as (Hs & pre & rc & Hrc & Ht & Hpre).
      split; [exact Hs|]. exists (t1 ++ pre), rc.
      cbn [run_res run_trace fst snd] in *.
      split; [exact Hrc|]. split.
      * rewrite Ht. apply app_assoc.
      * rewrite forallb_app, H1, Hpre. reflexivity.
    + rewrite forallb_app, H1, IH. reflexivity.
Qed.

End FailFast.

Section ClockFailure.
Context {W : Type} `{Platform W}.

Lemma flags_iter_fail_fast (cfg : uuart_config) (regs iters : Z)
  (st : poll_state) (w : W) :
  fail_fast (UuartFlags.poll_iter cfg regs iters st w).
Proof.
  destruct (flags_iter_facts cfg regs iters st w) as (_ & _ & Hres).
  unfold fail_fast.
  destruct (run_res (UuartFlags.poll_iter cfg regs iters st w)) eqn:Hr.
  - apply Hres.
  - destruct Hres as (-> & rc & Hrc & Ht).
    split; [exact Hr|]. exists [EvRead regs R_LSR (to_u8 (fst (mem_load regs R_LSR w)))], rc.
    split; [exact Hrc|]. split; [exact Ht | reflexivity].
  - destruct Hres.
Qed.

Lemma uuart_iter_fail_fast (regs : Z) (st : Uuart.poll_state) (w : W) :
  fail_fast (Uuart.poll_iter regs st w).
Proof.
  destruct (uuart_iter_facts regs st w) as (_ & _ & Hres).
  unfold fail_fast.
  destruct (run_res (Uuart.poll_iter regs st w)) eqn:Hr.
  - apply Hres.
  - destruct Hres as (-> & rc & Hrc & Ht).
    split; [exact Hr|]. exists [EvRead regs R_LSR (to_u8 (fst (mem_load regs R_LSR w)))], rc.
    split; [exact Hrc|]. split; [exact Ht | reflexivity].
  - destruct Hres.
Qed.

Lemma flags_loop_fail_fast (fuel : nat) (cfg : uuart_config) (regs iters : Z)
  (st : poll_state) (w : W) :
  fail_fast (UuartFlags.poll_loop fuel cfg regs iters st w).
Proof.
  eapply loop_fail_fast; [|apply for_loop_run].
  intros st0 w0. apply flags_iter_fail_fast.
Qed.

Lemma uuart_loop_fail_fast (fuel : nat) (regs iters : Z)
  (st : Uuart.poll_state) (w : W) :
  fail_fast (Uuart.poll_loop fuel regs iters st w).
Proof.
  eapply loop_fail_fast; [|apply for_loop_run].
  intros st0 w0. apply uuart_iter_fail_fast.
Qed.

Lemma calm_dump_regs (regs : Z) (w : W) :
  forallb calm (run_trace (dump_regs regs w)) = true.
Proof.
  destruct (dump_regs_run regs w) as (_ & Hd & _).
  revert Hd. apply forallb_impl, dump_event_calm.
Qed.

Lemma calm_flags_configure (cfg : uuart_config) (regs : Z) (w : W) :
  forallb calm (run_trace (UuartFlags.configure cfg regs w)) = true.
Proof.
  destruct (flags_configure_run cfg regs w) as [_ Ht]. rewrite Ht.
  destruct (assume_enabled cfg), (assume_fifos cfg), (assume_dtr cfg);
    reflexivity.
Qed.

Lemma calm_uuart_configure (regs : Z) (w : W) :
  forallb calm (run_trace (Uuart.configure regs w)) = true.
Proof. reflexivity. Qed.

(** [startup] never reads the clock; if it returns, it has reported no
    error. *)
Lemma startup_calm (w : W) :
  no_failed_clock (run_trace (startup w)) = true
  /\ match run_res (startup w) with
     | Ret _ => forallb calm (run_trace (startup w)) = true
     | Exited s => True
     | Running => False
     end.
Proof.
  rewrite startup_run. cbv zeta.
  destruct (fst (sys_open w) =? -1); [split; [reflexivity | exact I]|].
  destruct (fst (sys_mmap _ _) =? NULL); [split; [reflexivity | exact I]|].
  cbn [run_trace run_res fst snd].
  assert (Hc : forallb calm
                 ([EvOpen (fst (sys_open w));
                   EvMmap (fst (sys_open w))
                     (fst (sys_mmap (fst (sys_open w)) (snd (sys_open w))));
                   EvLog LogStartup]
                  ++ run_trace
                       (dump_regs
                          (fst (sys_mmap (fst (sys_open w)) (snd (sys_open w))))
                          (snd (sys_mmap (fst (sys_open w))
                                  (snd (sys_open w)))))) = true).
  { rewrite forallb_app, calm_dump_regs. reflexivity. }
  split; [now apply calm_no_failed_clock | exact Hc].
Qed.

End ClockFailure.

Section MainClockFailure.
Context {W : Type} `{Platform W}.

(** Putting calm events in front of a run keeps it in one of the two cases:
    no failed clock read, or ended by one. *)
Lemma prefix_clock_cases {A} (t0 : trace) (x : trace * W * res A) :
  forallb calm t0 = true ->
  no_failed_clock (run_trace x) = true \/ aborted_on_clock x ->
  no_failed_clock (t0 ++ run_trace x) = true
  \/ aborted_on_clock (t0 ++ run_trace x, run_world x, run_res x).
Proof.
  intros H0 [Hx | (Hs & pre & rc & Hrc & Ht & Hpre)].
  - left. rewrite no_failed_clock_app, Hx, (calm_no_failed_clock _ H0).
    reflexivity.
  - right. split; [exact Hs|]. exists (t0 ++ pre), rc.
    cbn [run_trace fst snd]. split; [exact Hrc|]. split.
    + rewrite Ht. apply app_assoc.
    + rewrite forallb_app, H0, Hpre. reflexivity.
Qed.

Lemma aborted_after_prefix {A B} (t0 : trace) (x : trace * W * res A)
  (w' : W) (s : Z) :
  forallb calm t0 = true ->
  aborted_on_clock x ->
  run_res x = Exited s ->
  aborted_on_clock (t0 ++ run_trace x, w', @Exited B s).
Proof.
  intros H0 (Hs & pre & rc & Hrc & Ht & Hpre) Hr.
  rewrite Hr in Hs. injection Hs as ->.
  split; [reflexivity|]. exists (t0 ++ pre), rc.
  cbn [run_trace fst snd]. split; [exact Hrc|]. split.
  - rewrite Ht. apply app_assoc.
  - rewrite forallb_app, H0, Hpre. reflexivity.
Qed.

Lemma fail_fast_cases {A} (x : trace * W * res A) :
  fail_fast x ->
  no_failed_clock (run_trace x) = true \/ aborted_on_clock x.
Proof.
  unfold fail_fast. destruct (run_res x); intros Hx.
  - left. now apply calm_no_failed_clock.
  - now right.
  - left. now apply calm_no_failed_clock.
Qed.

Lemma flags_session_clock_cases (fuel : nat) (cfg : uuart_config)
  (regs iters : Z) (w : W) :
  let x := UuartFlags.session fuel cfg regs iters w in
  no_failed_clock (run_trace x) = true \/ aborted_on_clock x.
Proof.
  intros x. subst x. rewrite flags_session_run. cbv zeta.
  set (c := UuartFlags.configure cfg regs w).
  set (d := dump_regs regs (run_world c)).
  set (l := UuartFlags.poll_loop fuel cfg regs iters poll_init (run_world d)).
  assert (Hpre : forallb calm
                   (run_trace c ++ [EvLog LogInitialised] ++ run_trace d
                    ++ [EvLog (LogRunning iters)]) = true).
  { rewrite !forallb_app. unfold c, d.
    rewrite calm_flags_configure, calm_dump_regs. reflexivity. }
  set (pre := run_trace c ++ [EvLog LogInitialised] ++ run_trace d
              ++ [EvLog (LogRunning iters)]) in *.
  pose proof (flags_loop_fail_fast fuel cfg regs iters poll_init (run_world d))
    as Hl.
  fold l in Hl. unfold fail_fast in Hl.
  destruct (run_res l) as [[st | st] | s |] eqn:Hr.
  - left. rewrite flags_finish_run. cbn [run_trace fst snd].
    rewrite !no_failed_clock_app.
    rewrite (calm_no_failed_clock _ Hpre), (calm_no_failed_clock _ Hl).
    rewrite (calm_no_failed_clock _ (calm_dump_regs regs (run_world l))).
    destruct (ignore_tx cfg), (ignore_rx cfg); reflexivity.
  - left. cbn [run_trace fst snd]. rewrite no_failed_clock_app.
    now rewrite (calm_no_failed_clock _ Hpre), (calm_no_failed_clock _ Hl).
  - right. now apply aborted_after_prefix.
  - left. cbn [run_trace fst snd]. rewrite no_failed_clock_app.
    now rewrite (calm_no_failed_clock _ Hpre), (calm_no_failed_clock _ Hl).
Qed.

Lemma uuart_session_clock_cases (fuel : nat) (regs iters : Z) (w : W) :
  let x := Uuart.session fuel regs iters w in
  no_failed_clock (run_trace x) = true \/ aborted_on_clock x.
Proof.
  intros x. subst x. rewrite uuart_session_run. cbv zeta.
  set (c := Uuart.configure regs w).
  set (d := dump_regs regs (run_world c)).
  set (l := Uuart.poll_loop fuel regs iters Uuart.poll_init (run_world d)).
  assert (Hpre : forallb calm
                   (run_trace c ++ [EvLog LogInitialised] ++ run_trace d)
                 = true).
  { rewrite !forallb_app. unfold c, d.
    rewrite calm_uuart_configure, calm_dump_regs. reflexivity. }
  set (pre := run_trace c ++ [EvLog LogInitialised] ++ run_trace d) in *.
  pose proof (uuart_loop_fail_fast fuel regs iters Uuart.poll_init (run_world d))
    as Hl.
  fold l in Hl. unfold fail_fast in Hl.
  destruct (run_res l) as [[st | st] | s |] eqn:Hr.
  - left. cbn [run_trace fst snd].
    rewrite !no_failed_clock_app.
    rewrite (calm_no_failed_clock _ Hpre), (calm_no_failed_clock _ Hl).
    rewrite (calm_no_failed_clock _ (calm_dump_regs regs (run_world l))).
    reflexivity.
  - left. cbn [run_trace fst snd]. rewrite no_failed_clock_app.
    now rewrite (calm_no_failed_clock _ Hpre), (calm_no_failed_clock _ Hl).
  - right. now apply aborted_after_prefix.
  - left. cbn [run_trace fst snd]. rewrite no_failed_clock_app.
    now rewrite (calm_no_failed_clock _ Hpre), (calm_no_failed_clock _ Hl).
Qed.

(** What follows [startup] in [main], whatever it is, as long as it is in one
    of the two cases. *)
Lemma after_startup_clock_cases {B} (k : Z -> M W B) (w : W) :
  (forall regs w', no_failed_clock (run_trace (k regs w')) = true
                   \/ aborted_on_clock (k regs w')) ->
  no_failed_clock (run_trace (bind startup k w)) = true
  \/ aborted_on_clock (bind startup k w).
Proof.
  intros Hk. rewrite bind_run.
  destruct (startup_calm w) as [Hn Hc].
  destruct (run_res (startup w)) as [regs | s |].
  - apply prefix_clock_cases; [exact Hc | apply Hk].
  - left. exact Hn.
  - destruct Hc.
Qed.

Lemma flags_main_clock_cases (fuel : nat) (opts : list ascii) (args : list Z)
  (w : W) :
  let x := UuartFlags.main fuel opts args w in
  no_failed_clock (run_trace x) = true \/ aborted_on_clock x.
Proof.
  intros x. subst x. unfold UuartFlags.main. rewrite bind_run.
  destruct (parse_options_run opts cfg0 w) as [[cfg Hp] | (s & msg & Hp)];
    rewrite Hp; cbn [run_res run_trace run_world fst snd].
  - apply (prefix_clock_cases []); [reflexivity|].
    apply after_startup_clock_cases. intros regs w'.
    destruct args as [|iters args]; [left; reflexivity|].
    apply flags_session_clock_cases.
  - left. reflexivity.
Qed.

Lemma uuart_main_clock_cases (fuel : nat) (args : list Z) (w : W) :
  let x := Uuart.main fuel args w in
  no_failed_clock (run_trace x) = true \/ aborted_on_clock x.
Proof.
  intros x. subst x. unfold Uuart.main.
  apply after_startup_clock_cases. intros regs w'.
  destruct args as [|iters args]; [left; reflexivity|].
  apply uuart_session_clock_cases.
Qed.

(** In a run ended by a failed clock read, a failed clock read found in the
    trace is the one at its end. *)
Lemma aborted_on_clock_In {A} (x : trace * W * res A) (rc : Z) :
  aborted_on_clock x ->
  In (EvClock rc) (run_trace x) -> rc <> 0 ->
  run_res x = Exited EXIT_FAILURE
  /\ (exists pre,
         run_trace x = pre ++ [EvClock rc; EvErr EXIT_FAILURE "clock_gettime"]
         /\ forallb calm pre = true)
  /\ ~ In (EvLog LogTerminating) (run_trace x).
Proof.
  intros (Hs & pre & rc' & Hrc' & Ht & Hpre) Hin Hrc.
  split; [exact Hs|].
  assert (Heq : rc = rc').
  { rewrite Ht in Hin. apply in_app_or in Hin. destruct Hin as [Hin | Hin].
    - rewrite (no_failed_clock_In pre rc (calm_no_failed_clock _ Hpre) Hin)
        in Hrc.
      now destruct Hrc.
    - destruct Hin as [Hin | [Hin | []]]; [congruence | discriminate]. }
  subst rc'. split; [now exists pre|].
  rewrite Ht. intros Hterm. apply in_app_or in Hterm.
  destruct Hterm as [Hterm | Hterm].
  - rewrite forallb_forall in Hpre. specialize (Hpre _ Hterm). discriminate.
  - destruct Hterm as [Hterm | [Hterm | []]]; discriminate.
Qed.

End MainClockFailure.

(** C9.  In both programs: if a read of the boot-time clock fails during the
    run of [main] (the trace has a clock read with a non-zero return code),
    then the process has exited with [EXIT_FAILURE]; the failed read and the
    report "clock_gettime" are the last two events of the run, so nothing is
    written to the device after the failure; and neither before nor after is
    there an error report, another failed read or the "Terminating
    configuration" line that opens the final dump. *)
Theorem C9_clock_failure_aborts :
  forall (W : Type) (P : Platform W),
    (forall fuel opts args w rc,
        let x := UuartFlags.main fuel opts args w in
        In (EvClock rc) (run_trace x) -> rc <> 0 ->
        run_res x = Exited EXIT_FAILURE
        /\ (exists pre,
               run_trace x =
                 pre ++ [EvClock rc; EvErr EXIT_FAILURE "clock_gettime"]
               /\ forallb calm pre = true)
        /\ ~ In (EvLog LogTerminating) (run_trace x))
    /\ (forall fuel args w rc,
           let x := Uuart.main fuel args w in
           In (EvClock rc) (run_trace x) -> rc <> 0 ->
           run_res x = Exited EXIT_FAILURE
           /\ (exists pre,
                  run_trace x =
                    pre ++ [EvClock rc; EvErr EXIT_FAILURE "clock_gettime"]
                  /\ forallb calm pre = true)
           /\ ~ In (EvLog LogTerminating) (run_trace x)).
Proof.
  intros W P. split.
  - intros fuel opts args w rc x Hin Hrc.
    destruct (flags_main_clock_cases fuel opts args w) as [Hn | Hab].
    + now destruct Hrc; apply (no_failed_clock_In _ rc Hn).
    + now apply aborted_on_clock_In.
  - intros fuel args w rc x Hin Hrc.
    destruct (uuart_main_clock_cases fuel args w) as [Hn | Hab].
    + now destruct Hrc; apply (no_failed_clock_In _ rc Hn).
    + now apply aborted_on_clock_In.
Qed.

(** A failed clock read in the first iteration, in both programs: the two
    dumps before the loop take the first two line-status samples, the loop
    reads an inactive sample from Flowing and the clock returns 5. *)
Lemma C9_clock_failure_aborts_witness :
  (let x := UuartFlags.main 2 [] [2] (Sim.sim0 [0x60; 0x60; 0x00] [5]) in
   run_res x = Exited EXIT_FAILURE
   /\ (exists pre,
          run_trace x = pre ++ [EvClock 5; EvErr EXIT_FAILURE "clock_gettime"]
          /\ forallb calm pre = true)
   /\ ~ In (EvLog LogTerminating) (run_trace x))
  /\ (let x := Uuart.main 2 [2] (Sim.sim0 [0x60; 0x60; 0x00] [5]) in
      run_res x = Exited EXIT_FAILURE
      /\ (exists pre,
             run_trace x =
               pre ++ [EvClock 5; EvErr EXIT_FAILURE "clock_gettime"]
             /\ forallb calm pre = true)
      /\ ~ In (EvLog LogTerminating) (run_trace x)).
Proof.
  destruct (C9_clock_failure_aborts Sim.sim Sim.sim_platform) as [Hf Hu].
  split.
  - apply Hf; [|discriminate].
    vm_compute. repeat (first [left; reflexivity | right]).
  - apply Hu; [|discriminate].
    vm_compute. repeat (first [left; reflexivity | right]).
Defined.

(** ** Runs of [main] without a count, and with count 0 *)

Section MainInspect.
Context {W : Type} `{Platform W}.






End MainInspect.



Section MainCountZero.
Context {W : Type} `{Platform W}.

(** With count 0 the loop ends at once, whatever the fuel. *)
Lemma flags_loop_zero (fuel : nat) (cfg : uuart_config) (regs : Z) (w : W) :
  UuartFlags.poll_loop fuel cfg regs 0 poll_init w =
    ([], w, Ret (LoopDone poll_init)).
Proof. destruct fuel; reflexivity. Qed.

Lemma uuart_loop_zero (fuel : nat) (regs : Z) (w : W) :
  Uuart.poll_loop fuel regs 0 Uuart.poll_init w =
    ([], w, Ret (LoopDone Uuart.poll_init)).
Proof. destruct fuel; reflexivity. Qed.

End MainCountZero.

Lemma read_offsets_app (t1 t2 : trace) :
  read_offsets (t1 ++ t2) = read_offsets t1 ++ read_offsets t2.
Proof.
  induction t1 as [|e t1 IH]; [reflexivity|].
  destruct e; cbn [app read_offsets]; rewrite ?IH; reflexivity.
Qed.

(** The events of a dump. *)
Section DumpShape.
Context {W : Type} `{Platform W}.

Lemma dump_list_shape (regs : Z) (l : list (string * Z)) :
  forall w,
    exists vals,
      List.length vals = List.length l
      /\ Forall (fun v => 0 <= v < 256) vals
      /\ run_trace (dump_list regs l w) = dump_events regs (combine l vals).
Proof.
  induction l as [|[name off] l IH]; intros w.
  - exists []. repeat split. constructor.
  - rewrite dump_list_cons. cbv zeta.
    destruct (IH (snd (mem_load regs off w))) as (vals & Hlen & Hbytes & Ht).
    exists (to_u8 (fst (mem_load regs off w)) :: vals).
    cbn [List.length combine dump_events flat_map run_trace fst snd app].
    split; [now rewrite Hlen|]. split.
    + constructor; [apply to_u8_range | exact Hbytes].
    + now rewrite Ht.
Qed.

(** Every dump loads and prints the fourteen registers of the table. *)
Lemma dump_regs_full (regs : Z) (w : W) :
  full_dump regs (run_trace (dump_regs regs w)).
Proof.
  unfold full_dump. split; [apply dump_regs_run|].
  apply (dump_list_shape regs dump_table w).
Qed.

End DumpShape.

(** C7.  With count 0, once the options are flags and the register block is
    obtained, the run of [main] is: open, map, "Startup configuration" and the
    first dump; the configuration; "Initialised configuration" and the second
    dump; no iteration of the poll loop ("Running for 0 iterations" is
    directly followed by "Terminating configuration"); the third dump; the
    counters, both zero, for the paths not ignored; exit with [EXIT_SUCCESS].
    Each of the three dumps is performed in full: it loads the fourteen
    registers IER ... GCRH in order and prints each name with the byte
    loaded.  Likewise in [src/uuart.c], which prints neither the "Running"
    line nor counters. *)
Theorem C7_count_zero :
  forall (W : Type) (P : Platform W),
    (forall fuel opts rest w,
        let x := UuartFlags.main fuel opts (0 :: rest) w in
        let fd := fst (sys_open w) in
        let regs := fst (sys_mmap fd (snd (sys_open w))) in
        let d1 := dump_regs regs (snd (sys_mmap fd (snd (sys_open w)))) in
        forallb flag_option opts = true -> fd <> -1 -> regs <> NULL ->
        exists cfg,
          parse_options opts cfg0 w = ([], w, Ret cfg)
          /\ let c := UuartFlags.configure cfg regs (run_world d1) in
             let d2 := dump_regs regs (run_world c) in
             let d3 := dump_regs regs (run_world d2) in
             UuartFlags.poll_loop fuel cfg regs 0 poll_init (run_world d2) =
               ([], run_world d2, Ret (LoopDone poll_init))
             /\ run_res x = Exited EXIT_SUCCESS
             /\ run_trace x =
                  [EvOpen fd; EvMmap fd regs; EvLog LogStartup]
                  ++ run_trace d1
                  ++ run_trace c
                  ++ [EvLog LogInitialised]
                  ++ run_trace d2
                  ++ [EvLog (LogRunning 0); EvLog LogTerminating]
                  ++ run_trace d3
                  ++ (if ignore_tx cfg then [] else [EvLog (LogTransmitted 0)])
                  ++ (if ignore_rx cfg then [] else [EvLog (LogReceived 0)])
             /\ full_dump regs (run_trace d1)
             /\ full_dump regs (run_trace d2)
             /\ full_dump regs (run_trace d3)
             /\ read_offsets (run_trace x) =
                  map snd dump_table ++ [R_IER] ++ map snd dump_table
                  ++ map snd dump_table)
    /\ (forall fuel rest w,
           let x := Uuart.main fuel (0 :: rest) w in
           let fd := fst (sys_open w) in
           let regs := fst (sys_mmap fd (snd (sys_open w))) in
           let d1 := dump_regs regs (snd (sys_mmap fd (snd (sys_open w)))) in
           let c := Uuart.configure regs (run_world d1) in
           let d2 := dump_regs regs (run_world c) in
           let d3 := dump_regs regs (run_world d2) in
           fd <> -1 -> regs <> NULL ->
           Uuart.poll_loop fuel regs 0 Uuart.poll_init (run_world d2) =
             ([], run_world d2, Ret (LoopDone Uuart.poll_init))
           /\ run_res x = Exited EXIT_SUCCESS
           /\ run_trace x =
                [EvOpen fd; EvMmap fd regs; EvLog LogStartup]
                ++ run_trace d1
                ++ run_trace c
                ++ [EvLog LogInitialised]
                ++ run_trace d2
                ++ [EvLog LogTerminating]
                ++ run_trace d3
           /\ full_dump regs (run_trace d1)
           /\ full_dump regs (run_trace d2)
           /\ full_dump regs (run_trace d3)
           /\ read_offsets (run_trace x) =
                map snd dump_table ++ map snd dump_table
                ++ map snd dump_table).
Proof.
  intros W P. split.
  - intros fuel opts rest w x fd regs d1 Hopts Hfd Hregs.
    destruct (parse_options_flags opts Hopts cfg0 w) as [cfg Hp].
    exists cfg. split; [exact Hp|]. intros c d2 d3.
    split; [apply flags_loop_zero|].
    assert (Hs : startup w =
                 ([EvOpen fd; EvMmap fd regs; EvLog LogStartup] ++ run_trace d1,
                  run_world d1, Ret regs)).
    { rewrite startup_run. cbv zeta. fold fd regs d1.
      apply Z.eqb_neq in Hfd, Hregs. now rewrite Hfd, Hregs. }
    assert (Hx : run_res x = Exited EXIT_SUCCESS
                 /\ run_trace x =
                      [EvOpen fd; EvMmap fd regs; EvLog LogStartup]
                      ++ run_trace d1
                      ++ run_trace c
                      ++ [EvLog LogInitialised]
                      ++ run_trace d2
                      ++ [EvLog (LogRunning 0); EvLog LogTerminating]
                      ++ run_trace d3
                      ++ (if ignore_tx cfg then []
                          else [EvLog (LogTransmitted 0)])
                      ++ (if ignore_rx cfg then []
                          else [EvLog (LogReceived 0)])).
    { subst x. unfold UuartFlags.main.
      rewrite bind_run, Hp. cbn [run_res run_trace run_world fst snd app].
      rewrite bind_run, Hs. cbn [run_res run_trace run_world fst snd].
      rewrite flags_session_run. cbv zeta. fold c d2.
      rewrite flags_loop_zero. cbn [run_res run_trace run_world fst snd].
      rewrite flags_finish_run. cbn [run_res run_trace run_world fst snd].
      fold d3. split; [reflexivity|].
      cbn [st_txd st_rxd poll_init].
      repeat (progress (rewrite <- ?app_assoc; cbn [app])). reflexivity. }
    destruct Hx as [Hr Ht].
    split; [exact Hr|]. split; [exact Ht|].
    pose proof (dump_regs_full regs (snd (sys_mmap fd (snd (sys_open w)))))
      as H1.
    pose proof (dump_regs_full regs (run_world c)) as H2.
    pose proof (dump_regs_full regs (run_world d2)) as H3.
    fold d1 in H1. fold d2 in H2. fold d3 in H3.
    split; [exact H1|]. split; [exact H2|]. split; [exact H3|].
    rewrite Ht.
    destruct (flags_configure_run cfg regs (run_world d1)) as [_ Hc].
    fold c in Hc.
    repeat (progress (cbn [app read_offsets]; rewrite ?read_offsets_app)).
    rewrite (proj1 H1), (proj1 H2), (proj1 H3), Hc.
    destruct (assume_enabled cfg), (assume_fifos cfg), (assume_dtr cfg),
      (ignore_tx cfg), (ignore_rx cfg); reflexivity.
  - intros fuel rest w x fd regs d1 c d2 d3 Hfd Hregs.
    split; [apply uuart_loop_zero|].
    assert (Hs : startup w =
                 ([EvOpen fd; EvMmap fd regs; EvLog LogStartup] ++ run_trace d1,
                  run_world d1, Ret regs)).
    { rewrite startup_run. cbv zeta. fold fd regs d1.
      apply Z.eqb_neq in Hfd, Hregs. now rewrite Hfd, Hregs. }
    assert (Hx : run_res x = Exited EXIT_SUCCESS
                 /\ run_trace x =
                      [EvOpen fd; EvMmap fd regs; EvLog LogStartup]
                      ++ run_trace d1
                      ++ run_trace c
                      ++ [EvLog LogInitialised]
                      ++ run_trace d2
                      ++ [EvLog LogTerminating]
                      ++ run_trace d3).
    { subst x. unfold Uuart.main.
      rewrite bind_run, Hs. cbn [run_res run_trace run_world fst snd].
      rewrite uuart_session_run. cbv zeta. fold c d2.
      rewrite uuart_loop_zero. cbn [run_res run_trace run_world fst snd].
      fold d3. split; [reflexivity|].
      repeat (progress (rewrite <- ?app_assoc; cbn [app])). reflexivity. }
    destruct Hx as [Hr Ht].
    split; [exact Hr|]. split; [exact Ht|].
    pose proof (dump_regs_full regs (snd (sys_mmap fd (snd (sys_open w)))))
      as H1.
    pose proof (dump_regs_full regs (run_world c)) as H2.
    pose proof (dump_regs_full regs (run_world d2)) as H3.
    fold d1 in H1. fold d2 in H2. fold d3 in H3.
    split; [exact H1|]. split; [exact H2|]. split; [exact H3|].
    rewrite Ht.
    repeat (progress (cbn [app read_offsets]; rewrite ?read_offsets_app)).
    rewrite (proj1 H1), (proj1 H2), (proj1 H3).
    reflexivity.
Qed.

(** Count 0 on the scripted device, in both programs, the flag-aware one with
    option -R: in each the registers are loaded three times over (and the
    interrupt-enable register once more by the flag-aware configuration), the
    last load being that of GCRH in the terminating dump. *)
Lemma C7_count_zero_witness :
  (let x := UuartFlags.main 5 ["R"]%char [0] (Sim.sim0 [] []) in
   run_res x = Exited EXIT_SUCCESS
   /\ List.length (read_offsets (run_trace x)) = 43%nat
   /\ last (read_offsets (run_trace x)) 0 = R_GCRH)
  /\ (let x := Uuart.main 5 [0] (Sim.sim0 [] []) in
      run_res x = Exited EXIT_SUCCESS
      /\ List.length (read_offsets (run_trace x)) = 42%nat
      /\ last (read_offsets (run_trace x)) 0 = R_GCRH).
Proof.
  destruct (C7_count_zero Sim.sim Sim.sim_platform) as [Hf Hu].
  split.
  - destruct (Hf 5%nat ["R"]%char [] (Sim.sim0 [] []))
      as (cfg & _ & _ & Hr & _ & _ & _ & _ & Ho);
      [reflexivity | discriminate | discriminate |].
    cbv zeta. rewrite Ho. split; [exact Hr|]. split; reflexivity.
  - destruct (Hu 5%nat [] (Sim.sim0 [] [])) as (_ & Hr & _ & _ & _ & _ & Ho);
      [discriminate | discriminate |].
    cbv zeta. rewrite Ho. split; [exact Hr|]. split; reflexivity.
Defined.

(** ** Failure to obtain the register block *)

Section Setup.
Context {W : Type} `{Platform W}.

(** A failed [open] is reported and ends the process before the device is
    touched. *)
Lemma startup_open_failed (w : W) :
  fst (sys_open w) = -1 ->
  startup w =
    ([EvOpen (-1); EvErr EXIT_FAILURE "open"], snd (sys_open w),
     Exited EXIT_FAILURE).
Proof.
  intros Hfd. rewrite startup_run. cbv zeta. rewrite Hfd. reflexivity.
Qed.

(** A failed [mmap] is not: [MAP_FAILED] is not the null pointer, so
    [startup] goes on to dump the registers through it and returns it. *)
Lemma startup_mmap_failed (w : W) :
  let fd := fst (sys_open w) in
  let d := dump_regs MAP_FAILED (snd (sys_mmap fd (snd (sys_open w)))) in
  fd <> -1 ->
  fst (sys_mmap fd (snd (sys_open w))) = MAP_FAILED ->
  startup w =
    ([EvOpen fd; EvMmap fd MAP_FAILED; EvLog LogStartup] ++ run_trace d,
     run_world d, Ret MAP_FAILED).
Proof.
  intros fd d Hfd Hmap. rewrite startup_run. cbv zeta. fold fd.
  apply Z.eqb_neq in Hfd. rewrite Hfd, Hmap. reflexivity.
Qed.

End Setup.

(** C6 does not hold of the code when it is [mmap] that fails: the claim
    wants the failure reported and the process ended before any configuration
    write or poll iteration.  Run on a platform where [open] succeeds and
    [mmap] returns [MAP_FAILED], with count 1, neither program reports
    anything: each loads the registers through the failed pointer, performs
    its configuration writes through it, runs the loop and exits with
    [EXIT_SUCCESS]. *)
Theorem C6_mmap_failure_unreported :
  (let x := UuartFlags.main 1 [] [1] Sim.sim_nomap in
   run_res x = Exited EXIT_SUCCESS
   /\ existsb is_err (run_trace x) = false
   /\ firstn 4 (run_trace x) =
        [EvOpen 3; EvMmap 3 MAP_FAILED; EvLog LogStartup;
         EvRead MAP_FAILED R_IER 0]
   /\ writes (run_trace x) =
        [EvWrite MAP_FAILED R_GCRA 0x21; EvWrite MAP_FAILED R_IER 0;
         EvWrite MAP_FAILED R_FCR 0x07; EvWrite MAP_FAILED R_MCR 0x0b])
  /\ (let x := Uuart.main 1 [1] Sim.sim_nomap in
      run_res x = Exited EXIT_SUCCESS
      /\ existsb is_err (run_trace x) = false
      /\ firstn 4 (run_trace x) =
           [EvOpen 3; EvMmap 3 MAP_FAILED; EvLog LogStartup;
            EvRead MAP_FAILED R_IER 0]
      /\ writes (run_trace x) =
           [EvWrite MAP_FAILED R_GCRA 0x21; EvWrite MAP_FAILED R_IER 0;
            EvWrite MAP_FAILED R_FCR 0x07; EvWrite MAP_FAILED R_MCR 0x0b]).
Proof. vm_compute. repeat split. Qed.

(** ** The two scenarios of the specification, run on the scripted device *)

(** No flag, count 3, both bits always set: no stall/resume line, three
    fillers sent, three bytes read and emitted, "Transmitted: 3" and
    "Received: 3". *)
Example scenario_both_bits_set :
  without_dumps
    (run_trace (UuartFlags.session 3 cfg0 7 3
                  (Sim.sim0 [0x61; 0x21; 0x21; 0x21; 0x60] []))) =
    [EvWrite 7 R_GCRA 0x21; EvWrite 7 R_IER 0; EvWrite 7 R_FCR 0x07;
     EvWrite 7 R_MCR 0x0b; EvLog LogInitialised; EvLog (LogRunning 3);
     EvWrite 7 R_THR FILLER; EvPutchar FILLER;
     EvWrite 7 R_THR FILLER; EvPutchar FILLER;
     EvWrite 7 R_THR FILLER; EvPutchar FILLER;
     EvLog LogTerminating; EvLog (LogTransmitted 3); EvLog (LogReceived 3)].
Proof. reflexivity. Qed.

(** No flag, count 3, neither bit ever set: one "stalled" line, at iteration
    0, and no byte moved. *)
Example scenario_neither_bit_set :
  without_dumps
    (run_trace (UuartFlags.session 3 cfg0 7 3
                  (Sim.sim0 [0x60; 0x00; 0x00; 0x00; 0x60] []))) =
    [EvWrite 7 R_GCRA 0x21; EvWrite 7 R_IER 0; EvWrite 7 R_FCR 0x07;
     EvWrite 7 R_MCR 0x0b; EvLog LogInitialised; EvLog (LogRunning 3);
     EvClock 0; EvLog (LogStalled 12 345 0 0x00);
     EvLog LogTerminating; EvLog (LogTransmitted 0); EvLog (LogReceived 0)].
Proof. reflexivity. Qed.

(** * Further properties of the code *)

(** ** [dump_regs] *)


(** ** Option parsing *)

Section ParseOptions.
Context {W : Type} `{Platform W}.

Lemma flag_option_cases (o : ascii) :
  flag_option o = true ->
  o = "D"%char \/ o = "E"%char \/ o = "F"%char \/ o = "R"%char \/ o = "T"%char.
Proof.
  unfold flag_option. rewrite !orb_true_iff, !Ascii.eqb_eq. tauto.
Qed.

Lemma with_flags_nil (cfg : uuart_config) : with_flags cfg [] = cfg.
Proof.
  destruct cfg. unfold with_flags. cbn. now rewrite !orb_false_r.
Qed.

(** Flag options are accumulated silently: each field of the result is set
    iff it was set before or its letter occurs among the options. *)
Lemma parse_options_with_flags (opts : list ascii) :
  forallb flag_option opts = true ->
  forall cfg (w : W),
    parse_options opts cfg w = ([], w, Ret (with_flags cfg opts)).
Proof.
  induction opts as [|o opts IH]; intros Hall cfg w.
  - cbn [parse_options]. now rewrite with_flags_nil.
  - cbn [forallb] in Hall. apply andb_true_iff in Hall.
    destruct Hall as [Ho Hall].
    destruct (flag_option_cases o Ho) as [-> | [-> | [-> | [-> | ->]]]];
      cbn [parse_options]; cbv iota beta;
      match goal with
      | |- (if ?b then _ else _) _ = _ => change b with true; cbv iota
      | _ => idtac
      end;
      repeat match goal with
             | |- (if ?b then _ else _) _ = _ =>
                 first [change b with true | change b with false]; cbv iota
             end;
      rewrite (IH Hall); unfold with_flags; destruct cfg; cbn;
      rewrite ?orb_true_r, ?orb_true_l; reflexivity.
Qed.

(** The first option that is not a flag ends the process; what follows it is
    not looked at. *)
Lemma parse_options_exit (pre : list ascii) (o : ascii) (post : list ascii) :
  forallb flag_option pre = true ->
  flag_option o = false ->
  forall cfg (w : W),
    parse_options (pre ++ o :: post) cfg w = option_exit o w.
Proof.
  intros Hpre Ho.
  induction pre as [|p pre IH]; intros cfg w.
  - cbn [app parse_options]. unfold flag_option in Ho.
    rewrite !orb_false_iff in Ho.
    destruct Ho as [[[[HD HE] HF] HR] HT].
    rewrite HD, HE, HF, HR, HT. unfold option_exit.
    destruct (Ascii.eqb o "h"); reflexivity.
  - cbn [forallb] in Hpre. apply andb_true_iff in Hpre.
    destruct Hpre as [Hp Hpre].
    destruct (flag_option_cases p Hp) as [-> | [-> | [-> | [-> | ->]]]];
      cbn [app parse_options];
      repeat match goal with
             | |- (if ?b then _ else _) _ = _ =>
                 first [change b with true | change b with false]; cbv iota
             end;
      apply (IH Hpre).
Qed.

End ParseOptions.

(** X2.  When every option is one of the flags D, E, F, R, T, option parsing
    returns without printing anything and without touching the platform, and
    each field of the configuration is set iff its letter occurs among the
    options: order and repetition of the options do not matter. *)
Theorem X2_flag_options_accumulate :
  forall (W : Type) (P : Platform W) (opts : list ascii) (w : W),
    forallb flag_option opts = true ->
    exists cfg,
      parse_options opts cfg0 w = ([], w, Ret cfg)
      /\ assume_dtr cfg = existsb (Ascii.eqb "D") opts
      /\ assume_enabled cfg = existsb (Ascii.eqb "E") opts
      /\ assume_fifos cfg = existsb (Ascii.eqb "F") opts
      /\ ignore_rx cfg = existsb (Ascii.eqb "R") opts
      /\ ignore_tx cfg = existsb (Ascii.eqb "T") opts.
Proof.
  intros W P opts w Hall. exists (with_flags cfg0 opts).
  split; [now apply parse_options_with_flags|]. repeat split.
Qed.

(** Options -T -D -T. *)
Lemma X2_flag_options_accumulate_witness :
  exists cfg,
    parse_options ["T"; "D"; "T"]%char cfg0 (Sim.sim0 [] []) =
      ([], Sim.sim0 [] [], Ret cfg)
    /\ assume_dtr cfg = existsb (Ascii.eqb "D") ["T"; "D"; "T"]%char
    /\ assume_enabled cfg = existsb (Ascii.eqb "E") ["T"; "D"; "T"]%char
    /\ assume_fifos cfg = existsb (Ascii.eqb "F") ["T"; "D"; "T"]%char
    /\ ignore_rx cfg = existsb (Ascii.eqb "R") ["T"; "D"; "T"]%char
    /\ ignore_tx cfg = existsb (Ascii.eqb "T") ["T"; "D"; "T"]%char.
Proof.
  apply (X2_flag_options_accumulate Sim.sim Sim.sim_platform). reflexivity.
Defined.

(** X3.  The first option that is not a flag ends [main] at once, before the
    device is opened: -h prints the help text and exits with [EXIT_SUCCESS];
    any other option character [o] prints "Unexpected option: " followed by
    [o] (the format "Unexpected option: %c" applied to [o]; for an option
    [getopt_long] does not know, [o] is '?') and exits with [EXIT_FAILURE].
    The flags before it have no effect, the options and arguments after it
    are not looked at, and the platform is left as it was. *)
Theorem X3_option_exit :
  forall (W : Type) (P : Platform W) (fuel : nat)
         (pre : list ascii) (o : ascii) (post : list ascii)
         (args : list Z) (w : W),
    forallb flag_option pre = true ->
    flag_option o = false ->
    format_c "Unexpected option: %c" o
      = ("Unexpected option: " ++ String o EmptyString)%string
    /\ UuartFlags.main fuel (pre ++ o :: post) args w =
         if Ascii.eqb o "h"
         then ([EvErr EXIT_SUCCESS help_text], w, Exited EXIT_SUCCESS)
         else ([EvErr EXIT_FAILURE
                  ("Unexpected option: " ++ String o EmptyString)%string],
               w, Exited EXIT_FAILURE).
Proof.
  intros W P fuel pre o post args w Hpre Ho.
  split; [reflexivity|].
  unfold UuartFlags.main. rewrite bind_run.
  rewrite (parse_options_exit pre o post Hpre Ho cfg0 w).
  unfold option_exit. destruct (Ascii.eqb o "h"); reflexivity.
Qed.

(** Options -E -h -? and options -E -? -h, each with count 5. *)
Lemma X3_option_exit_witness :
  UuartFlags.main 9 (["E"] ++ "h" :: ["?"])%char [5] (Sim.sim0 [] []) =
    ([EvErr EXIT_SUCCESS help_text], Sim.sim0 [] [], Exited EXIT_SUCCESS)
  /\ UuartFlags.main 9 (["E"] ++ "?" :: ["h"])%char [5] (Sim.sim0 [] []) =
       ([EvErr EXIT_FAILURE "Unexpected option: ?"], Sim.sim0 [] [],
        Exited EXIT_FAILURE).
Proof.
  split.
  - apply (X3_option_exit Sim.sim Sim.sim_platform 9 ["E"%char] "h"%char
             ["?"%char] [5] (Sim.sim0 [] [])); reflexivity.
  - apply (X3_option_exit Sim.sim Sim.sim_platform 9 ["E"%char] "?"%char
             ["h"%char] [5] (Sim.sim0 [] [])); reflexivity.
Defined.

(** ** The shape of a run of [main] *)

Section MainShape.
Context {W : Type} `{Platform W}.

(** If [startup] returns, it returns what [mmap] returned, which is neither
    reported as an error nor null, after the first dump. *)
Lemma startup_ret (w : W) (regs : Z) :
  run_res (startup w) = Ret regs ->
  let fd := fst (sys_open w) in
  let d := dump_regs regs (snd (sys_mmap fd (snd (sys_open w)))) in
  regs = fst (sys_mmap fd (snd (sys_open w)))
  /\ fd <> -1 /\ regs <> NULL
  /\ run_trace (startup w) =
       [EvOpen fd; EvMmap fd regs; EvLog LogStartup] ++ run_trace d
  /\ run_world (startup w) = run_world d.
Proof.
  rewrite startup_run. cbv zeta.
  destruct (fst (sys_open w) =? -1) eqn:Hfd; [discriminate|].
  destruct (fst (sys_mmap _ _) =? NULL) eqn:Hmap; [discriminate|].
  cbn [run_res run_trace run_world fst snd]. intros Hr.
  injection Hr as <-. apply Z.eqb_neq in Hfd, Hmap. repeat split; assumption.
Qed.

(** If [startup] exits, it has reported a failed [open] or a null [mmap]. *)
Lemma startup_exit (w : W) (s : Z) :
  run_res (startup w) = Exited s ->
  let fd := fst (sys_open w) in
  let regs := fst (sys_mmap fd (snd (sys_open w))) in
  s = EXIT_FAILURE
  /\ (run_trace (startup w) = [EvOpen fd; EvErr EXIT_FAILURE "open"]
      \/ run_trace (startup w) =
           [EvOpen fd; EvMmap fd regs; EvErr EXIT_FAILURE "mmap"]).
Proof.
  rewrite startup_run. cbv zeta.
  destruct (fst (sys_open w) =? -1).
  { cbn. intros Hr. injection Hr as <-. split; [reflexivity | now left]. }
  destruct (fst (sys_mmap _ _) =? NULL).
  { cbn. intros Hr. injection Hr as <-. split; [reflexivity | now right]. }
  discriminate.
Qed.

Lemma startup_not_running (w : W) : run_res (startup w) <> Running.
Proof.
  rewrite startup_run. cbv zeta.
  destruct (_ =? -1); [discriminate|].
  destruct (_ =? NULL); discriminate.
Qed.

(** [main] of the flag-aware program once the options are parsed. *)
Lemma flags_main_after_parse (fuel : nat) (opts : list ascii) (args : list Z)
  (w : W) (cfg : uuart_config) :
  parse_options opts cfg0 w = ([], w, Ret cfg) ->
  UuartFlags.main fuel opts args w =
    match run_res (startup w) with
    | Ret regs =>
        match args with
        | [] =>
            (run_trace (startup w), run_world (startup w),
             Exited EXIT_SUCCESS)
        | iters :: _ =>
            let y := UuartFlags.session fuel cfg regs iters
                       (run_world (startup w)) in
            (run_trace (startup w) ++ run_trace y, run_world y, run_res y)
        end
    | Exited s => (run_trace (startup w), run_world (startup w), Exited s)
    | Running => (run_trace (startup w), run_world (startup w), Running)
    end.
Proof.
  intros Hp. unfold UuartFlags.main. rewrite bind_run, Hp.
  cbn [run_res run_trace run_world fst snd app]. rewrite bind_run.
  destruct (run_res (startup w)) as [regs | s |]; try reflexivity.
  destruct args as [|iters args]; [|reflexivity].
  cbn [exit run_res run_trace run_world fst snd]. now rewrite app_nil_r.
Qed.

Lemma uuart_main_unfold (fuel : nat) (args : list Z) (w : W) :
  Uuart.main fuel args w =
    match run_res (startup w) with
    | Ret regs =>
        match args with
        | [] =>
            (run_trace (startup w), run_world (startup w),
             Exited EXIT_SUCCESS)
        | iters :: _ =>
            let y := Uuart.session fuel regs iters (run_world (startup w)) in
            (run_trace (startup w) ++ run_trace y, run_world y, run_res y)
        end
    | Exited s => (run_trace (startup w), run_world (startup w), Exited s)
    | Running => (run_trace (startup w), run_world (startup w), Running)
    end.
Proof.
  unfold Uuart.main. rewrite bind_run.
  destruct (run_res (startup w)) as [regs | s |]; try reflexivity.
  destruct args as [|iters args]; [|reflexivity].
  cbn [exit run_res run_trace run_world fst snd]. now rewrite app_nil_r.
Qed.

End MainShape.

(** X4.  The two setup failures the code tests for are reported by name and
    end the process with [EXIT_FAILURE] before any register is loaded or
    stored: [open] returning -1 (then [mmap] is not even called), and [mmap]
    returning a null pointer.  This holds in both programs, in the flag-aware
    one after flag options, whatever the count. *)
Theorem X4_detected_setup_failures :
  forall (W : Type) (P : Platform W),
    (forall fuel opts args w,
        forallb flag_option opts = true ->
        fst (sys_open w) = -1 ->
        UuartFlags.main fuel opts args w =
          ([EvOpen (-1); EvErr EXIT_FAILURE "open"], snd (sys_open w),
           Exited EXIT_FAILURE))
    /\ (forall fuel opts args w,
           let fd := fst (sys_open w) in
           forallb flag_option opts = true ->
           fd <> -1 ->
           fst (sys_mmap fd (snd (sys_open w))) = NULL ->
           UuartFlags.main fuel opts args w =
             ([EvOpen fd; EvMmap fd NULL; EvErr EXIT_FAILURE "mmap"],
              snd (sys_mmap fd (snd (sys_open w))), Exited EXIT_FAILURE))
    /\ (forall fuel args w,
           fst (sys_open w) = -1 ->
           Uuart.main fuel args w =
             ([EvOpen (-1); EvErr EXIT_FAILURE "open"], snd (sys_open w),
              Exited EXIT_FAILURE))
    /\ (forall fuel args w,
           let fd := fst (sys_open w) in
           fd <> -1 ->
           fst (sys_mmap fd (snd (sys_open w))) = NULL ->
           Uuart.main fuel args w =
             ([EvOpen fd; EvMmap fd NULL; EvErr EXIT_FAILURE "mmap"],
              snd (sys_mmap fd (snd (sys_open w))), Exited EXIT_FAILURE)).
Proof.
  intros W P.
  assert (Hopen : forall w, fst (sys_open w) = -1 ->
            startup w = ([EvOpen (-1); EvErr EXIT_FAILURE "open"],
                         snd (sys_open w), Exited EXIT_FAILURE)).
  { intros w Hfd. rewrite startup_run. cbv zeta. now rewrite Hfd. }
  assert (Hmap : forall w, fst (sys_open w) <> -1 ->
            fst (sys_mmap (fst (sys_open w)) (snd (sys_open w))) = NULL ->
            startup w =
              ([EvOpen (fst (sys_open w)); EvMmap (fst (sys_open w)) NULL;
                EvErr EXIT_FAILURE "mmap"],
               snd (sys_mmap (fst (sys_open w)) (snd (sys_open w))),
               Exited EXIT_FAILURE)).
  { intros w Hfd Hnull. rewrite startup_run. cbv zeta.
    apply Z.eqb_neq in Hfd. now rewrite Hfd, Hnull. }
  split; [|split; [|split]].
  - intros fuel opts args w Hopts Hfd.
    rewrite (flags_main_after_parse fuel opts args w _
               (parse_options_with_flags opts Hopts cfg0 w)).
    now rewrite (Hopen w Hfd).
  - intros fuel opts args w fd Hopts Hfd Hnull.
    rewrite (flags_main_after_parse fuel opts args w _
               (parse_options_with_flags opts Hopts cfg0 w)).
    now rewrite (Hmap w Hfd Hnull).
  - intros fuel args w Hfd. rewrite uuart_main_unfold.
    now rewrite (Hopen w Hfd).
  - intros fuel args w fd Hfd Hnull. rewrite uuart_main_unfold.
    now rewrite (Hmap w Hfd Hnull).
Qed.

(** A failed [open] and a null [mmap] on the scripted platforms. *)
Lemma X4_detected_setup_failures_witness :
  UuartFlags.main 3 ["R"]%char [3] Sim.sim_noopen =
    ([EvOpen (-1); EvErr EXIT_FAILURE "open"], Sim.sim_noopen,
     Exited EXIT_FAILURE)
  /\ UuartFlags.main 3 ["R"]%char [3] Sim.sim_nullmap =
       ([EvOpen 3; EvMmap 3 NULL; EvErr EXIT_FAILURE "mmap"], Sim.sim_nullmap,
        Exited EXIT_FAILURE)
  /\ Uuart.main 3 [3] Sim.sim_noopen =
       ([EvOpen (-1); EvErr EXIT_FAILURE "open"], Sim.sim_noopen,
        Exited EXIT_FAILURE)
  /\ Uuart.main 3 [3] Sim.sim_nullmap =
       ([EvOpen 3; EvMmap 3 NULL; EvErr EXIT_FAILURE "mmap"], Sim.sim_nullmap,
        Exited EXIT_FAILURE).
Proof.
  destruct (X4_detected_setup_failures Sim.sim Sim.sim_platform)
    as (H1 & H2 & H3 & H4).
  split; [|split; [|split]].
  - apply (H1 3%nat ["R"]%char [3] Sim.sim_noopen); reflexivity.
  - apply (H2 3%nat ["R"]%char [3] Sim.sim_nullmap);
      [reflexivity | discriminate | reflexivity].
  - apply (H3 3%nat [3] Sim.sim_noopen); reflexivity.
  - apply (H4 3%nat [3] Sim.sim_nullmap); [discriminate | reflexivity].
Defined.

(** ** Properties of traces that pass from the stages to [main] *)

Section TraceClosure.
Context {W : Type} `{Platform W}.
Variable Q : trace -> Prop.

Hypothesis Q_nil : Q [].
Hypothesis Q_app : forall t1 t2, Q t1 -> Q t2 -> Q (t1 ++ t2).
Hypothesis Q_plain : forall e, is_plain e = true -> Q [e].

Lemma Q_plain_list (t : trace) : forallb is_plain t = true -> Q t.
Proof.
  induction t as [|e t IH]; [intros _; exact Q_nil|].
  cbn [forallb]. intros Hall. apply andb_true_iff in Hall.
  destruct Hall as [He Ht]. apply (Q_app [e] t); [now apply Q_plain | auto].
Qed.

Lemma Q_cons_plain (e : event) (t : trace) :
  is_plain e = true -> Q t -> Q (e :: t).
Proof. intros He Ht. apply (Q_app [e] t); [now apply Q_plain | exact Ht]. Qed.

(** A property of every iteration is a property of the loop. *)
Lemma Q_loop {S} (cond : S -> bool) (body : S -> M W S) :
  (forall st w, Q (run_trace (body st w))) ->
  forall st w x, loop_run cond body st w x -> Q (run_trace x).
Proof.
  intros Hbody st w x Hrun.
  induction Hrun as [st w Hc | st w Hc | st w t w' s Hc Hb | st w t w' Hc Hb
                    | st w t1 w1 st1 t2 w2 r Hc Hb Hrun IH];
    cbn [run_trace fst snd] in *; try exact Q_nil.
  - specialize (Hbody st w). now rewrite Hb in Hbody.
  - specialize (Hbody st w). now rewrite Hb in Hbody.
  - apply Q_app; [|exact IH].
    specialize (Hbody st w). now rewrite Hb in Hbody.
Qed.

Variable regs : Z.
Hypothesis Q_dump : forall w, Q (run_trace (dump_regs regs w)).

Lemma Q_startup (w : W) :
  regs = fst (sys_mmap (fst (sys_open w)) (snd (sys_open w))) ->
  Q (run_trace (startup w)).
Proof.
  intros Hregs. rewrite startup_run. cbv zeta. rewrite <- Hregs.
  destruct (_ =? -1); [now apply Q_plain_list|].
  destruct (_ =? NULL); [now apply Q_plain_list|].
  cbn [run_trace fst snd]. apply Q_app; [now apply Q_plain_list | apply Q_dump].
Qed.

Lemma Q_flags_session (fuel : nat) (cfg : uuart_config) (iters : Z) (w : W) :
  (forall w', Q (run_trace (UuartFlags.configure cfg regs w'))) ->
  (forall st w', Q (run_trace (UuartFlags.poll_iter cfg regs iters st w'))) ->
  Q (run_trace (UuartFlags.session fuel cfg regs iters w)).
Proof.
  intros Hconf Hiter. rewrite flags_session_run. cbv zeta.
  set (c := UuartFlags.configure cfg regs w).
  set (d := dump_regs regs (run_world c)).
  set (l := UuartFlags.poll_loop fuel cfg regs iters poll_init (run_world d)).
  assert (Hpre : Q (run_trace c ++ [EvLog LogInitialised] ++ run_trace d
                    ++ [EvLog (LogRunning iters)])).
  { apply Q_app; [apply Hconf|]. apply Q_app; [now apply Q_plain|].
    apply Q_app; [apply Q_dump | now apply Q_plain]. }
  assert (Hl : Q (run_trace l)).
  { apply (Q_loop _ _ Hiter _ _ _ (for_loop_run _ _ fuel _ _)). }
  set (pre := run_trace c ++ [EvLog LogInitialised] ++ run_trace d
              ++ [EvLog (LogRunning iters)]) in *.
  destruct (run_res l) as [[st | st] | s |]; cbn [run_trace fst snd];
    try (now apply Q_app).
  rewrite flags_finish_run. cbn [run_trace fst snd].
  apply Q_app; [exact Hpre|]. apply Q_app; [exact Hl|].
  apply Q_app; [now apply Q_plain|]. apply Q_app; [apply Q_dump|].
  apply Q_app.
  - destruct (ignore_tx cfg); [exact Q_nil | now apply Q_plain].
  - destruct (ignore_rx cfg); [exact Q_nil | now apply Q_plain].
Qed.

Lemma Q_uuart_session (fuel : nat) (iters : Z) (w : W) :
  (forall w', Q (run_trace (Uuart.configure regs w'))) ->
  (forall st w', Q (run_trace (Uuart.poll_iter regs st w'))) ->
  Q (run_trace (Uuart.session fuel regs iters w)).
Proof.
  intros Hconf Hiter. rewrite uuart_session_run. cbv zeta.
  set (c := Uuart.configure regs w).
  set (d := dump_regs regs (run_world c)).
  set (l := Uuart.poll_loop fuel regs iters Uuart.poll_init (run_world d)).
  assert (Hpre : Q (run_trace c ++ [EvLog LogInitialised] ++ run_trace d)).
  { apply Q_app; [apply Hconf|]. apply Q_app; [now apply Q_plain|].
    apply Q_dump. }
  assert (Hl : Q (run_trace l)).
  { apply (Q_loop _ _ Hiter _ _ _ (for_loop_run _ _ fuel _ _)). }
  set (pre := run_trace c ++ [EvLog LogInitialised] ++ run_trace d) in *.
  destruct (run_res l) as [[st | st] | s |]; cbn [run_trace fst snd];
    try (now apply Q_app).
  apply Q_app; [exact Hpre|]. apply Q_app; [exact Hl|].
  apply Q_app; [now apply Q_plain | apply Q_dump].
Qed.

Lemma Q_flags_main (fuel : nat) (opts : list ascii) (args : list Z) (w : W) :
  regs = fst (sys_mmap (fst (sys_open w)) (snd (sys_open w))) ->
  (forall cfg,
      parse_options opts cfg0 w = ([], w, Ret cfg) ->
      (forall w', Q (run_trace (UuartFlags.configure cfg regs w')))
      /\ (forall iters st w',
             Q (run_trace (UuartFlags.poll_iter cfg regs iters st w')))) ->
  Q (run_trace (UuartFlags.main fuel opts args w)).
Proof.
  intros Hregs Hstages.
  destruct (parse_options_run opts cfg0 w) as [[cfg Hp] | (s & msg & Hp)].
  - rewrite (flags_main_after_parse fuel opts args w cfg Hp).
    pose proof (Q_startup w Hregs) as Hs.
    destruct (run_res (startup w)) as [r | s |] eqn:Hr; try exact Hs.
    destruct args as [|iters args]; [exact Hs|].
    cbn [run_trace fst snd]. apply Q_app; [exact Hs|].
    destruct (startup_ret w r Hr) as (Hreq & _). rewrite <- Hregs in Hreq.
    subst r. destruct (Hstages cfg Hp) as [Hconf Hiter].
    apply Q_flags_session; auto.
  - unfold UuartFlags.main. rewrite bind_run, Hp.
    cbn [run_res run_trace fst snd]. now apply Q_plain.
Qed.

Lemma Q_uuart_main (fuel : nat) (args : list Z) (w : W) :
  regs = fst (sys_mmap (fst (sys_open w)) (snd (sys_open w))) ->
  (forall w', Q (run_trace (Uuart.configure regs w'))) ->
  (forall st w', Q (run_trace (Uuart.poll_iter regs st w'))) ->
  Q (run_trace (Uuart.main fuel args w)).
Proof.
  intros Hregs Hconf Hiter. rewrite uuart_main_unfold.
  pose proof (Q_startup w Hregs) as Hs.
  destruct (run_res (startup w)) as [r | s |] eqn:Hr; try exact Hs.
  destruct args as [|iters args]; [exact Hs|].
  cbn [run_trace fst snd]. apply Q_app; [exact Hs|].
  destruct (startup_ret w r Hr) as (Hreq & _). rewrite <- Hregs in Hreq.
  subst r. apply Q_uuart_session; auto.
Qed.

End TraceClosure.

(** ** What the stages do to the device and to the output stream *)

Lemma thr_writes_app (t1 t2 : trace) :
  thr_writes (t1 ++ t2) = thr_writes t1 ++ thr_writes t2.
Proof.
  induction t1 as [|e t1 IH]; [reflexivity|].
  destruct e; cbn [thr_writes app]; try exact IH.
  destruct (off =? R_THR); cbn [app]; now rewrite IH.
Qed.

Lemma rbr_reads_app (t1 t2 : trace) :
  rbr_reads (t1 ++ t2) = rbr_reads t1 ++ rbr_reads t2.
Proof.
  induction t1 as [|e t1 IH]; [reflexivity|].
  destruct e; cbn [rbr_reads app]; try exact IH.
  destruct (off =? R_RBR); cbn [app]; now rewrite IH.
Qed.

Lemma putchars_app (t1 t2 : trace) :
  putchars (t1 ++ t2) = putchars t1 ++ putchars t2.
Proof.
  induction t1 as [|e t1 IH]; [reflexivity|].
  destruct e; cbn [putchars app]; try exact IH. now rewrite IH.
Qed.

Lemma clock_reads_app (t1 t2 : trace) :
  clock_reads (t1 ++ t2) = (clock_reads t1 + clock_reads t2)%nat.
Proof.
  induction t1 as [|e t1 IH]; [reflexivity|].
  destruct e; cbn [clock_reads app]; try exact IH. now rewrite IH.
Qed.

Lemma checkpoints_app (t1 t2 : trace) :
  checkpoints (t1 ++ t2) = checkpoints t1 ++ checkpoints t2.
Proof.
  induction t1 as [|e t1 IH]; [reflexivity|].
  destruct e as [| | | | |l| |]; cbn [checkpoints app]; try exact IH.
  destruct l; cbn [app]; now rewrite ?IH.
Qed.

Lemma counter_lines_app (t1 t2 : trace) :
  counter_lines (t1 ++ t2) = counter_lines t1 ++ counter_lines t2.
Proof.
  induction t1 as [|e t1 IH]; [reflexivity|].
  destruct e as [| | | | |l| |]; cbn [counter_lines app]; try exact IH.
  destruct l; cbn [app]; now rewrite ?IH.
Qed.

Lemma access_ok_read (regs off v : Z) :
  0 <= off <= R_GCRH -> 0 <= v < 256 -> access_ok regs (EvRead regs off v) = true.
Proof.
  intros Hoff Hv. cbn [access_ok]. rewrite Z.eqb_refl.
  rewrite !andb_true_iff, !Z.leb_le, Z.ltb_lt. lia.
Qed.

Lemma access_ok_write (regs off v : Z) :
  0 <= off <= R_GCRH -> 0 <= v < 256 ->
  access_ok regs (EvWrite regs off v) = true.
Proof.
  intros Hoff Hv. cbn [access_ok]. rewrite Z.eqb_refl.
  rewrite !andb_true_iff, !Z.leb_le, Z.ltb_lt. lia.
Qed.

(** Bounds between constants. *)
Ltac closed_range :=
  cbv; repeat split; first [reflexivity | intros Hc; discriminate Hc].

Section StageAccess.
Context {W : Type} `{Platform W}.

(** A dump, value by value. *)
Lemma dump_regs_values (regs : Z) (w : W) :
  exists v1 v2 v3 v4 v5 v6 v7 v8 v9 v10 v11 v12 v13 v14,
    Forall (fun v => 0 <= v < 256)
      [v1; v2; v3; v4; v5; v6; v7; v8; v9; v10; v11; v12; v13; v14]
    /\ run_trace (dump_regs regs w) =
         dump_events regs
           (combine dump_table
              [v1; v2; v3; v4; v5; v6; v7; v8; v9; v10; v11; v12; v13; v14]).
Proof.
  destruct (dump_list_shape regs dump_table w) as (vals & Hlen & Hb & Ht).
  do 14 (destruct vals as [|? vals]; [discriminate|]).
  destruct vals; [|discriminate].
  do 14 eexists. split; [exact Hb | exact Ht].
Qed.

Lemma dump_regs_access (regs : Z) (w : W) :
  forallb (access_ok regs) (run_trace (dump_regs regs w)) = true.
Proof.
  destruct (dump_regs_values regs w)
    as (v1 & v2 & v3 & v4 & v5 & v6 & v7 & v8 & v9 & v10 & v11 & v12 & v13
        & v14 & Hb & ->).
  repeat match goal with
         | H : Forall _ (_ :: _) |- _ => inversion H; subst; clear H
         end.
  cbn [dump_events dump_table combine flat_map app forallb].
  rewrite !access_ok_read by first [assumption | closed_range].
  reflexivity.
Qed.

(** A dump moves no byte, reads no clock and prints no checkpoint or counter
    line. *)
Lemma dump_regs_silent (regs : Z) (w : W) :
  let t := run_trace (dump_regs regs w) in
  thr_writes t = [] /\ rbr_reads t = [] /\ putchars t = []
  /\ clock_reads t = 0%nat /\ checkpoints t = [] /\ counter_lines t = []
  /\ edges t = [].
Proof.
  destruct (dump_regs_values regs w)
    as (v1 & v2 & v3 & v4 & v5 & v6 & v7 & v8 & v9 & v10 & v11 & v12 & v13
        & v14 & _ & Ht).
  cbv zeta. rewrite Ht. repeat split.
Qed.

Lemma flags_configure_access (cfg : uuart_config) (regs : Z) (w : W) :
  forallb (access_ok regs) (run_trace (UuartFlags.configure cfg regs w)) = true.
Proof.
  destruct (flags_configure_run cfg regs w) as [_ Ht]. rewrite Ht.
  rewrite !forallb_app. cbn [forallb].
  rewrite access_ok_read, access_ok_write;
    try apply spec_ier_rule_byte; try apply to_u8_range; try closed_range.
  destruct (assume_enabled cfg), (assume_fifos cfg), (assume_dtr cfg);
    cbn [forallb];
    rewrite ?access_ok_write by closed_range; reflexivity.
Qed.

Lemma flags_configure_silent (cfg : uuart_config) (regs : Z) (w : W) :
  let t := run_trace (UuartFlags.configure cfg regs w) in
  thr_writes t = [] /\ rbr_reads t = [] /\ putchars t = []
  /\ clock_reads t = 0%nat /\ checkpoints t = [] /\ counter_lines t = [].
Proof.
  destruct (flags_configure_run cfg regs w) as [_ Ht]. cbv zeta. rewrite Ht.
  destruct (assume_enabled cfg), (assume_fifos cfg), (assume_dtr cfg);
    repeat split.
Qed.

Lemma uuart_configure_access (regs : Z) (w : W) :
  forallb (access_ok regs) (run_trace (Uuart.configure regs w)) = true.
Proof.
  cbn. rewrite !Z.eqb_refl. reflexivity.
Qed.

End StageAccess.

Section IterationTransfers.
Context {W : Type} `{Platform W}.

Ltac transfer_cases :=
  cbv zeta;
  repeat match goal with
         | |- context [Bool.eqb ?a ?b] => destruct (Bool.eqb a b)
         end;
  cbn [andb];
  repeat match goal with
         | |- context [if ?b then _ else _] => destruct b
         end;
  cbn [run_trace run_res fst snd app forallb];
  unfold edge_line;
  repeat match goal with
         | |- context [if ?b then _ else _] => destruct b
         end;
  rewrite ?access_ok_read, ?access_ok_write
    by first [apply to_u8_range | closed_range];
  cbn; rewrite ?Z.eqb_refl; repeat split; reflexivity.

(** One iteration of the flag-aware loop, as far as the device, the output
    stream and the clock are concerned. *)
Lemma flags_iter_transfers (cfg : uuart_config) (regs iters : Z)
  (st : poll_state) (w : W) :
  let lsr := to_u8 (fst (mem_load regs R_LSR w)) in
  let x := UuartFlags.poll_iter cfg regs iters st w in
  let t := run_trace x in
  forallb (access_ok regs) t = true
  /\ forallb (loop_access regs) t = true
  /\ putchars t = rbr_reads t
  /\ checkpoints t = [] /\ counter_lines t = []
  /\ match run_res x with
     | Ret _ =>
         thr_writes t = (if does_tx cfg lsr then [FILLER] else [])
         /\ List.length (rbr_reads t) = (if does_rx cfg lsr then 1 else 0)%nat
         /\ clock_reads t = List.length (edges t)
     | Exited _ =>
         thr_writes t = [] /\ rbr_reads t = []
         /\ clock_reads t = 1%nat /\ edges t = []
     | Running => False
     end.
Proof.
  intros lsr x t. subst t x. rewrite flags_poll_iter_run. fold lsr.
  transfer_cases.
Qed.

Lemma uuart_iter_transfers (regs : Z) (st : Uuart.poll_state) (w : W) :
  let lsr := to_u8 (fst (mem_load regs R_LSR w)) in
  let x := Uuart.poll_iter regs st w in
  let t := run_trace x in
  forallb (access_ok regs) t = true
  /\ forallb (loop_access regs) t = true
  /\ putchars t = rbr_reads t
  /\ checkpoints t = [] /\ counter_lines t = []
  /\ match run_res x with
     | Ret _ =>
         thr_writes t = (if lsr_thre lsr then [FILLER] else [])
         /\ List.length (rbr_reads t) = (if lsr_dr lsr then 1 else 0)%nat
         /\ clock_reads t = List.length (edges t)
     | Exited _ =>
         thr_writes t = [] /\ rbr_reads t = []
         /\ clock_reads t = 1%nat /\ edges t = []
     | Running => False
     end.
Proof.
  intros lsr x t. subst t x. rewrite uuart_poll_iter_run. fold lsr.
  transfer_cases.
Qed.

End IterationTransfers.

(** X5.  In every run of [main], of either program, every register load and
    store goes through the pointer [mmap] returned, at an offset of the
    register map (0 to 0x3c, hence inside the one page mapped), and carries a
    byte value. *)
Theorem X5_register_access_discipline :
  forall (W : Type) (P : Platform W),
    (forall fuel opts args w,
        let regs := fst (sys_mmap (fst (sys_open w)) (snd (sys_open w))) in
        forallb (access_ok regs)
          (run_trace (UuartFlags.main fuel opts args w)) = true)
    /\ (forall fuel args w,
           let regs := fst (sys_mmap (fst (sys_open w)) (snd (sys_open w))) in
           forallb (access_ok regs)
             (run_trace (Uuart.main fuel args w)) = true).
Proof.
  intros W P. split.
  - intros fuel opts args w regs.
    apply (Q_flags_main (fun t => forallb (access_ok regs) t = true))
      with (regs := regs).
    + reflexivity.
    + intros t1 t2 H1 H2. now rewrite forallb_app, H1, H2.
    + intros e He. destruct e; try discriminate; reflexivity.
    + apply dump_regs_access.
    + reflexivity.
    + intros cfg _. split.
      * apply flags_configure_access.
      * intros iters st w'. apply flags_iter_transfers.
  - intros fuel args w regs.
    apply (Q_uuart_main (fun t => forallb (access_ok regs) t = true))
      with (regs := regs).
    + reflexivity.
    + intros t1 t2 H1 H2. now rewrite forallb_app, H1, H2.
    + intros e He. destruct e; try discriminate; reflexivity.
    + apply dump_regs_access.
    + reflexivity.
    + apply uuart_configure_access.
    + intros st w'. apply uuart_iter_transfers.
Qed.

(** X6.  The poll loop of either program leaves the configuration alone: the
    only registers it loads are the line-status register and the receive
    buffer, and its only store is the filler byte ['y'] to the
    transmit-holding register. *)
Theorem X6_poll_loop_frame :
  forall (W : Type) (P : Platform W),
    (forall fuel cfg regs iters st w,
        forallb (loop_access regs)
          (run_trace (UuartFlags.poll_loop fuel cfg regs iters st w)) = true)
    /\ (forall fuel regs iters st w,
           forallb (loop_access regs)
             (run_trace (Uuart.poll_loop fuel regs iters st w)) = true).
Proof.
  intros W P.
  assert (Happ : forall regs (t1 t2 : trace),
             forallb (loop_access regs) t1 = true ->
             forallb (loop_access regs) t2 = true ->
             forallb (loop_access regs) (t1 ++ t2) = true).
  { intros regs t1 t2 H1 H2. now rewrite forallb_app, H1, H2. }
  split.
  - intros fuel cfg regs iters st w.
    exact (Q_loop (fun t => forallb (loop_access regs) t = true)
             eq_refl (Happ regs)
             (fun st => UuartFlags.loop_cond iters (st_i st))
             (UuartFlags.poll_iter cfg regs iters)
             (fun st0 w0 =>
                proj1 (proj2 (flags_iter_transfers cfg regs iters st0 w0)))
             st w _ (for_loop_run _ _ fuel st w)).
  - intros fuel regs iters st w.
    exact (Q_loop (fun t => forallb (loop_access regs) t = true)
             eq_refl (Happ regs)
             (fun st => Uuart.loop_cond iters (Uuart.st_i st))
             (Uuart.poll_iter regs)
             (fun st0 w0 =>
                proj1 (proj2 (uuart_iter_transfers regs st0 w0)))
             st w _ (for_loop_run _ _ fuel st w)).
Qed.

Section IgnoredPaths.
Context {W : Type} `{Platform W}.

Lemma flags_iter_no_tx (cfg : uuart_config) (regs iters : Z)
  (st : poll_state) (w : W) :
  ignore_tx cfg = true ->
  thr_writes (run_trace (UuartFlags.poll_iter cfg regs iters st w)) = [].
Proof.
  intros Hig.
  destruct (flags_iter_transfers cfg regs iters st w)
    as (_ & _ & _ & _ & _ & Hres).
  unfold does_tx in Hres. rewrite Hig in Hres. cbn [negb andb] in Hres.
  destruct (run_res _); [apply Hres | apply Hres | destruct Hres].
Qed.

Lemma flags_iter_no_rx (cfg : uuart_config) (regs iters : Z)
  (st : poll_state) (w : W) :
  ignore_rx cfg = true ->
  rbr_reads (run_trace (UuartFlags.poll_iter cfg regs iters st w)) = []
  /\ putchars (run_trace (UuartFlags.poll_iter cfg regs iters st w)) = [].
Proof.
  intros Hig.
  destruct (flags_iter_transfers cfg regs iters st w)
    as (_ & _ & Hput & _ & _ & Hres).
  unfold does_rx in Hres. rewrite Hig in Hres. cbn [negb andb] in Hres.
  rewrite Hput.
  assert (Hr : rbr_reads
                 (run_trace (UuartFlags.poll_iter cfg regs iters st w)) = []).
  { destruct (run_res _); [| apply Hres | destruct Hres].
    destruct Hres as (_ & Hlen & _).
    now destruct (rbr_reads _). }
  now rewrite Hr.
Qed.

End IgnoredPaths.

(** X7.  The ignore flags do what the help text says of them.  With -T among
    flag options, no run of [main] ever writes the transmit-holding register;
    with -R, no run ever reads the receive-buffer register or puts a byte on
    the output stream. *)
Theorem X7_ignore_flags_honoured :
  forall (W : Type) (P : Platform W) (fuel : nat) (opts : list ascii)
         (args : list Z) (w : W),
    let t := run_trace (UuartFlags.main fuel opts args w) in
    forallb flag_option opts = true ->
    (existsb (Ascii.eqb "T") opts = true -> thr_writes t = [])
    /\ (existsb (Ascii.eqb "R") opts = true ->
        rbr_reads t = [] /\ putchars t = []).
Proof.
  intros W P fuel opts args w t Hopts.
  pose proof (parse_options_with_flags opts Hopts cfg0 w) as Hparse.
  set (regs := fst (sys_mmap (fst (sys_open w)) (snd (sys_open w)))).
  split.
  - intros HT. subst t.
    apply (Q_flags_main (fun t => thr_writes t = [])) with (regs := regs).
    + reflexivity.
    + intros t1 t2 H1 H2. now rewrite thr_writes_app, H1, H2.
    + intros e He. destruct e; try discriminate; reflexivity.
    + intros w'. apply dump_regs_silent.
    + reflexivity.
    + intros cfg Hp. rewrite Hparse in Hp. injection Hp as <-. split.
      * intros w'. apply flags_configure_silent.
      * intros iters st w'. apply flags_iter_no_tx.
        cbn [ignore_tx with_flags cfg0 orb]. exact HT.
  - intros HR. subst t.
    apply (Q_flags_main (fun t => rbr_reads t = [] /\ putchars t = []))
      with (regs := regs).
    + split; reflexivity.
    + intros t1 t2 [H1 H1'] [H2 H2'].
      now rewrite rbr_reads_app, putchars_app, H1, H2, H1', H2'.
    + intros e He. destruct e; try discriminate; split; reflexivity.
    + intros w'. split; apply dump_regs_silent.
    + reflexivity.
    + intros cfg Hp. rewrite Hparse in Hp. injection Hp as <-. split.
      * intros w'. split; apply flags_configure_silent.
      * intros iters st w'. apply flags_iter_no_rx.
        cbn [ignore_rx with_flags cfg0 orb]. exact HR.
Qed.

(** Options -T -R, count 4, both bits always set. *)
Lemma X7_ignore_flags_honoured_witness :
  let t := run_trace (UuartFlags.main 4 ["T"; "R"]%char [4]
                        (Sim.sim0 [0x21; 0x21; 0x21; 0x21; 0x21; 0x21] [])) in
  thr_writes t = [] /\ rbr_reads t = [] /\ putchars t = [].
Proof.
  destruct (X7_ignore_flags_honoured Sim.sim Sim.sim_platform 4
              ["T"; "R"]%char [4]
              (Sim.sim0 [0x21; 0x21; 0x21; 0x21; 0x21; 0x21] []) eq_refl)
    as [HT HR].
  cbv zeta. split; [apply HT; reflexivity | apply HR; reflexivity].
Defined.

(** X8.  In every run of [main], of either program, the bytes put on the
    output stream are exactly the bytes read from the receive-buffer register,
    in the order read: each received byte is emitted once, unchanged, and
    nothing else is emitted. *)
Theorem X8_output_is_received_bytes :
  forall (W : Type) (P : Platform W),
    (forall fuel opts args w,
        let t := run_trace (UuartFlags.main fuel opts args w) in
        putchars t = rbr_reads t)
    /\ (forall fuel args w,
           let t := run_trace (Uuart.main fuel args w) in
           putchars t = rbr_reads t).
Proof.
  intros W P.
  assert (Happ : forall t1 t2 : trace,
             putchars t1 = rbr_reads t1 -> putchars t2 = rbr_reads t2 ->
             putchars (t1 ++ t2) = rbr_reads (t1 ++ t2)).
  { intros t1 t2 H1 H2. now rewrite putchars_app, rbr_reads_app, H1, H2. }
  assert (Hplain : forall e, is_plain e = true ->
                             putchars [e] = rbr_reads [e]).
  { intros e He. destruct e; try discriminate; reflexivity. }
  assert (Hdump : forall regs (w : W),
             putchars (run_trace (dump_regs regs w)) =
               rbr_reads (run_trace (dump_regs regs w))).
  { intros regs w.
    destruct (dump_regs_silent regs w) as (_ & Hr & Hp & _).
    now rewrite Hr, Hp. }
  split.
  - intros fuel opts args w t. subst t.
    apply (Q_flags_main (fun t => putchars t = rbr_reads t))
      with (regs := fst (sys_mmap (fst (sys_open w)) (snd (sys_open w))));
      auto.
    intros cfg _. split.
    + intros w'.
      destruct (flags_configure_silent cfg
                  (fst (sys_mmap (fst (sys_open w)) (snd (sys_open w)))) w')
        as (_ & Hr & Hp & _).
      now rewrite Hr, Hp.
    + intros iters st w'. apply flags_iter_transfers.
  - intros fuel args w t. subst t.
    apply (Q_uuart_main (fun t => putchars t = rbr_reads t))
      with (regs := fst (sys_mmap (fst (sys_open w)) (snd (sys_open w))));
      auto.
    intros st w'. apply uuart_iter_transfers.
Qed.

(** ** Counting over a run of the loop *)

Lemma removelast_cons {A} (x y : A) (l : list A) :
  removelast (x :: y :: l) = x :: removelast (y :: l).
Proof. reflexivity. Qed.

Section LoopCounts.
Context {W S : Type} (cond : S -> bool) (body : S -> M W S).
Variables htx hrx : Z -> bool.

Hypothesis body_counts :
  forall st w,
    let t := run_trace (body st w) in
    exists lsr,
      lsr_samples t = [lsr]
      /\ match run_res (body st w) with
         | Ret _ =>
             List.length (thr_writes t) = (if htx lsr then 1 else 0)%nat
             /\ List.length (rbr_reads t) = (if hrx lsr then 1 else 0)%nat
             /\ clock_reads t = List.length (edges t)
         | Exited _ =>
             thr_writes t = [] /\ rbr_reads t = []
             /\ clock_reads t = 1%nat /\ edges t = []
         | Running => False
         end.

Lemma loop_counts st w x :
  loop_run cond body st w x ->
  let t := run_trace x in
  (match run_res x with
   | Exited _ => lsr_samples t <> []
   | _ => True
   end)
  /\ List.length (thr_writes t) = List.length (filter htx (completed x))
  /\ List.length (rbr_reads t) = List.length (filter hrx (completed x))
  /\ clock_reads t =
       (List.length (edges t)
        + match run_res x with Exited _ => 1 | _ => 0 end)%nat.
Proof.
  unfold completed.
  induction 1 as [st w Hc | st w Hc | st w t w' s Hc Hb | st w t w' Hc Hb
                 | st w t1 w1 st1 t2 w2 r Hc Hb Hrun IH];
    cbn [run_trace run_res fst snd] in *.
  - repeat split.
  - repeat split.
  - destruct (body_counts st w) as (lsr & Hs & Hres).
    rewrite Hb in Hs, Hres. cbn [run_trace run_res fst snd] in Hs, Hres.
    destruct Hres as (Ht & Hr & Hk & He).
    rewrite Hs, Ht, Hr, Hk, He. repeat split. discriminate.
  - destruct (body_counts st w) as (lsr & _ & Hres).
    rewrite Hb in Hres. destruct Hres.
  - destruct (body_counts st w) as (lsr & Hs & Hres).
    rewrite Hb in Hs, Hres. cbn [run_trace run_res fst snd] in Hs, Hres.
    destruct Hres as (Ht & Hr & Hk).
    destruct IH as (Hne & IHt & IHr & IHk).
    rewrite lsr_samples_app, thr_writes_app, rbr_reads_app, clock_reads_app,
      edges_app, !length_app, Hs, Ht, Hr, Hk, IHt, IHr, IHk.
    cbn [app].
    assert (Hf : forall (p : Z -> bool) l,
               List.length (filter p (lsr :: l)) =
                 ((if p lsr then 1 else 0) + List.length (filter p l))%nat).
    { intros p l. cbn [filter]. destruct (p lsr); reflexivity. }
    destruct r as [e | s |].
    + rewrite !Hf. repeat split; lia.
    + destruct (lsr_samples t2) as [|y l]; [now destruct Hne|].
      rewrite removelast_cons, !Hf. repeat split; try lia. discriminate.
    + rewrite !Hf. repeat split; lia.
Qed.

End LoopCounts.

Section PollCounts.
Context {W : Type} `{Platform W}.

Lemma flags_loop_counts (fuel : nat) (cfg : uuart_config) (regs iters : Z)
  (st : poll_state) (w : W) :
  let x := UuartFlags.poll_loop fuel cfg regs iters st w in
  let t := run_trace x in
  List.length (thr_writes t) = List.length (filter (does_tx cfg) (completed x))
  /\ List.length (rbr_reads t) =
       List.length (filter (does_rx cfg) (completed x))
  /\ clock_reads t =
       (List.length (edges t)
        + match run_res x with Exited _ => 1 | _ => 0 end)%nat.
Proof.
  refine (proj2 (loop_counts _ (UuartFlags.poll_iter cfg regs iters)
                   (does_tx cfg) (does_rx cfg) _ st w _
                   (for_loop_run _ _ fuel st w))).
  intros st0 w0. cbv zeta.
  exists (to_u8 (fst (mem_load regs R_LSR w0))).
  split; [apply flags_iter_facts|].
  destruct (flags_iter_transfers cfg regs iters st0 w0)
    as (_ & _ & _ & _ & _ & Hres).
  destruct (run_res _); [| exact Hres | exact Hres].
  destruct Hres as (Ht & Hr & Hk). rewrite Ht.
  destruct (does_tx cfg _); repeat split; assumption.
Qed.

Lemma uuart_loop_counts (fuel : nat) (regs iters : Z)
  (st : Uuart.poll_state) (w : W) :
  let x := Uuart.poll_loop fuel regs iters st w in
  let t := run_trace x in
  List.length (thr_writes t) = List.length (filter lsr_thre (completed x))
  /\ List.length (rbr_reads t) = List.length (filter lsr_dr (completed x))
  /\ clock_reads t =
       (List.length (edges t)
        + match run_res x with Exited _ => 1 | _ => 0 end)%nat.
Proof.
  refine (proj2 (loop_counts _ (Uuart.poll_iter regs)
                   lsr_thre lsr_dr _ st w _
                   (for_loop_run _ _ fuel st w))).
  intros st0 w0. cbv zeta.
  exists (to_u8 (fst (mem_load regs R_LSR w0))).
  split; [apply uuart_iter_facts|].
  destruct (uuart_iter_transfers regs st0 w0)
    as (_ & _ & _ & _ & _ & Hres).
  destruct (run_res _); [| exact Hres | exact Hres].
  destruct Hres as (Ht & Hr & Hk). rewrite Ht.
  destruct (lsr_thre _); repeat split; assumption.
Qed.

End PollCounts.

(** X9.  Over any run of the poll loop, one filler byte is written to the
    transmit-holding register for each completed iteration whose sample has
    the transmit-holding-empty bit set (and, in the flag-aware program,
    transmit is not ignored), and one byte is read from the receive buffer for
    each completed iteration whose sample has the data-ready bit set (and
    receive is not ignored); an iteration ended by a clock failure moves no
    byte. *)
Theorem X9_one_byte_per_ready_sample :
  forall (W : Type) (P : Platform W),
    (forall fuel cfg regs iters st w,
        let x := UuartFlags.poll_loop fuel cfg regs iters st w in
        List.length (thr_writes (run_trace x)) =
          List.length (filter (does_tx cfg) (completed x))
        /\ List.length (rbr_reads (run_trace x)) =
             List.length (filter (does_rx cfg) (completed x)))
    /\ (forall fuel regs iters st w,
           let x := Uuart.poll_loop fuel regs iters st w in
           List.length (thr_writes (run_trace x)) =
             List.length (filter lsr_thre (completed x))
           /\ List.length (rbr_reads (run_trace x)) =
                List.length (filter lsr_dr (completed x))).
Proof.
  intros W P. split.
  - intros fuel cfg regs iters st w x.
    destruct (flags_loop_counts fuel cfg regs iters st w) as (Ht & Hr & _).
    now split.
  - intros fuel regs iters st w x.
    destruct (uuart_loop_counts fuel regs iters st w) as (Ht & Hr & _).
    now split.
Qed.

(** X10.  The clock is read only to stamp a stall/resume line: over any run
    of the poll loop, of either program, the number of calls of
    [clock_gettime] is the number of stall/resume lines logged, plus one if
    the run was ended by a failed call.  In particular a loop that logs
    nothing never reads the clock. *)
Theorem X10_clock_read_per_edge :
  forall (W : Type) (P : Platform W),
    (forall fuel cfg regs iters st w,
        let x := UuartFlags.poll_loop fuel cfg regs iters st w in
        clock_reads (run_trace x) =
          (List.length (edges (run_trace x))
           + match run_res x with Exited _ => 1 | _ => 0 end)%nat)
    /\ (forall fuel regs iters st w,
           let x := Uuart.poll_loop fuel regs iters st w in
           clock_reads (run_trace x) =
             (List.length (edges (run_trace x))
              + match run_res x with Exited _ => 1 | _ => 0 end)%nat).
Proof.
  intros W P. split.
  - intros fuel cfg regs iters st w x.
    apply (flags_loop_counts fuel cfg regs iters st w).
  - intros fuel regs iters st w x.
    apply (uuart_loop_counts fuel regs iters st w).
Qed.

(** ** The interrupt-enable value, continued *)

(** X11.  The value the flag-aware configurator computes for the
    interrupt-enable register only ever clears bits: it is a byte, every bit
    set in it was set in the value read, its transmit-empty bit is set iff
    transmit is ignored and the bit was set, its receive-data bit is set iff
    receive is ignored and the bit was set, and it is zero as soon as both of
    these bits are clear.  Computing it again from the result changes
    nothing. *)
Theorem X11_ier_value_only_clears :
  forall (a : abi) (cfg : uuart_config) (v : Z),
    let x := to_u8 v in
    let y := ier_value a cfg x in
    0 <= y < 256
    /\ Z.land y x = y
    /\ Z.testbit y 1 = ignore_tx cfg && Z.testbit x 1
    /\ Z.testbit y 0 = ignore_rx cfg && Z.testbit x 0
    /\ (Z.testbit y 1 || Z.testbit y 0 = false -> y = 0)
    /\ ier_value a cfg y = y.
Proof.
  intros a cfg v x y.
  assert (Hx : 0 <= x < 256) by apply to_u8_range.
  assert (Hy : y = spec_ier_rule (ignore_tx cfg) (ignore_rx cfg) x)
    by (apply ier_value_spec_byte; exact Hx).
  assert (Hyb : 0 <= y < 256) by (rewrite Hy; now apply spec_ier_rule_byte).
  assert (Hidem : ier_value a cfg y = y).
  { rewrite (ier_value_spec_byte a cfg y Hyb). rewrite Hy.
    apply Z.eqb_eq. generalize x Hx.
    apply (all_bytes_spec (fun x =>
      spec_ier_rule (ignore_tx cfg) (ignore_rx cfg)
        (spec_ier_rule (ignore_tx cfg) (ignore_rx cfg) x)
      =? spec_ier_rule (ignore_tx cfg) (ignore_rx cfg) x)).
    destruct (ignore_tx cfg), (ignore_rx cfg); vm_compute; reflexivity. }
  split; [exact Hyb|].
  assert (Hall : (Z.land y x =? y)
                 && Bool.eqb (Z.testbit y 1) (ignore_tx cfg && Z.testbit x 1)
                 && Bool.eqb (Z.testbit y 0) (ignore_rx cfg && Z.testbit x 0)
                 && (Z.testbit y 1 || Z.testbit y 0 || (y =? 0)) = true).
  { rewrite Hy. generalize x Hx.
    apply (all_bytes_spec (fun x =>
      let y := spec_ier_rule (ignore_tx cfg) (ignore_rx cfg) x in
      (Z.land y x =? y)
      && Bool.eqb (Z.testbit y 1) (ignore_tx cfg && Z.testbit x 1)
      && Bool.eqb (Z.testbit y 0) (ignore_rx cfg && Z.testbit x 0)
      && (Z.testbit y 1 || Z.testbit y 0 || (y =? 0)))).
    destruct (ignore_tx cfg), (ignore_rx cfg); vm_compute; reflexivity. }
  rewrite !andb_true_iff in Hall.
  destruct Hall as [[[H1 H2] H3] H4].
  apply Z.eqb_eq in H1. apply eqb_prop in H2, H3.
  split; [exact H1|]. split; [exact H2|]. split; [exact H3|].
  split; [|exact Hidem].
  intros Hnone. rewrite Hnone in H4. cbn [orb] in H4.
  now apply Z.eqb_eq in H4.
Qed.

(** Transmit ignored, receive not, register value 0x0c: neither interrupt
    bit is left, so the value written is zero. *)
Lemma X11_ier_value_only_clears_witness :
  Z.testbit (ier_value ILP32 (with_flags cfg0 ["T"]%char) (to_u8 0x0c)) 1
  || Z.testbit (ier_value ILP32 (with_flags cfg0 ["T"]%char) (to_u8 0x0c)) 0
  = false
  /\ ier_value ILP32 (with_flags cfg0 ["T"]%char) (to_u8 0x0c) = 0.
Proof.
  split; [reflexivity|].
  exact (proj1 (proj2 (proj2 (proj2 (proj2
           (X11_ier_value_only_clears ILP32 (with_flags cfg0 ["T"]%char)
              0x0c)))))
           eq_refl).
Defined.

(** ** Splitting a run of the loop *)

Section LoopSplit.
Context {W S : Type} (cond : S -> bool) (body : S -> M W S).

(** Running a loop for [n + m] iterations is running it for [n] and, if it
    has neither ended nor exited, for [m] more from where it stands. *)
Lemma for_loop_add (n m : nat) :
  forall st w,
    for_loop cond body (n + m) st w =
      match run_res (for_loop cond body n st w) with
      | Ret (LoopFuel st') =>
          let y := for_loop cond body m st'
                     (run_world (for_loop cond body n st w)) in
          (run_trace (for_loop cond body n st w) ++ run_trace y,
           run_world y, run_res y)
      | _ => for_loop cond body n st w
      end.
Proof.
  induction n as [|n IH]; intros st w.
  - cbn [Nat.add].
    assert (H0 : for_loop cond body 0 st w =
                 if cond st then ([], w, Ret (LoopFuel st))
                 else ([], w, Ret (LoopDone st))).
    { cbn [for_loop]. now destruct (cond st). }
    rewrite H0. destruct (cond st) eqn:Hc.
    + cbn [run_res run_trace run_world fst snd app].
      now destruct (for_loop cond body m st w) as [[t w'] r].
    + cbn [run_res]. destruct m; cbn [for_loop]; now rewrite Hc.
  - cbn [Nat.add for_loop]. destruct (cond st) eqn:Hc; [|reflexivity].
    rewrite !bind_run.
    destruct (run_res (body st w)) as [st1 | s |]; [|reflexivity|reflexivity].
    rewrite IH.
    destruct (for_loop cond body n st1 (run_world (body st w)))
      as [[t2 w2] r2].
    cbn [run_res run_trace run_world fst snd].
    destruct r2 as [[st' | st'] | s |];
      cbv zeta; cbn [run_res run_trace run_world fst snd];
      rewrite ?app_assoc; reflexivity.
Qed.

End LoopSplit.

(** Runs of the poll loop compose: observing the loop of either program
    for [n + m] iterations is observing it for [n] iterations and then, if the
    loop has neither ended nor been cut short by [exit], for [m] more from the
    state and the platform reached; a run that has ended or exited within [n]
    iterations is not changed by observing longer. *)
Lemma poll_loop_runs_compose :
  forall (W : Type) (P : Platform W),
    (forall n m cfg regs iters st w,
        let x := UuartFlags.poll_loop n cfg regs iters st w in
        UuartFlags.poll_loop (n + m) cfg regs iters st w =
          match run_res x with
          | Ret (LoopFuel st') =>
              let y := UuartFlags.poll_loop m cfg regs iters st'
                         (run_world x) in
              (run_trace x ++ run_trace y, run_world y, run_res y)
          | _ => x
          end)
    /\ (forall n m regs iters st w,
           let x := Uuart.poll_loop n regs iters st w in
           Uuart.poll_loop (n + m) regs iters st w =
             match run_res x with
             | Ret (LoopFuel st') =>
                 let y := Uuart.poll_loop m regs iters st' (run_world x) in
                 (run_trace x ++ run_trace y, run_world y, run_res y)
             | _ => x
             end).
Proof.
  intros W P. split.
  - intros n m cfg regs iters st w. apply for_loop_add.
  - intros n m regs iters st w. apply for_loop_add.
Qed.

(** ** The iteration number in the log *)

Lemma index_ok_app (t1 t2 : trace) :
  forall next,
    index_ok next (t1 ++ t2) =
      index_ok next t1 && index_ok (next + Z.of_nat (iterations t1)) t2.
Proof.
  induction t1 as [|e t1 IH]; intros next.
  - cbn. now rewrite Z.add_0_r.
  - destruct e as [| |r off v| | |l| |]; cbn [index_ok app];
      try (rewrite IH; unfold iterations; cbn [lsr_samples]; reflexivity).
    + unfold iterations. cbn [lsr_samples].
      destruct (off =? R_LSR); rewrite IH; [|reflexivity].
      unfold iterations. cbn [List.length]. do 2 f_equal. lia.
    + destruct l; rewrite IH; unfold iterations; cbn [lsr_samples];
        rewrite ?andb_assoc; reflexivity.
Qed.

Section IndexLoop.
Context {W S : Type} (cond : S -> bool) (body : S -> M W S).
Variable idx : S -> Z.

Hypothesis body_index :
  forall st w,
    iterations (run_trace (body st w)) = 1%nat
    /\ index_ok (idx st) (run_trace (body st w)) = true
    /\ match run_res (body st w) with
       | Ret st' => idx st' = idx st + 1
       | _ => True
       end.

Lemma loop_index st w x :
  loop_run cond body st w x -> index_ok (idx st) (run_trace x) = true.
Proof.
  induction 1 as [st w Hc | st w Hc | st w t w' s Hc Hb | st w t w' Hc Hb
                 | st w t1 w1 st1 t2 w2 r Hc Hb Hrun IH];
    cbn [run_trace fst snd] in *; try reflexivity.
  - destruct (body_index st w) as (_ & Hi & _). now rewrite Hb in Hi.
  - destruct (body_index st w) as (_ & Hi & _). now rewrite Hb in Hi.
  - destruct (body_index st w) as (Hone & Hi & Hst).
    rewrite Hb in Hone, Hi, Hst. cbn [run_trace run_res fst snd] in *.
    rewrite index_ok_app, Hi, Hone. cbn [andb].
    replace (idx st + Z.of_nat 1) with (idx st1) by (rewrite Hst; lia).
    exact IH.
Qed.

End IndexLoop.

Section PollIndex.
Context {W : Type} `{Platform W}.

Ltac index_cases Hi :=
  cbv zeta;
  match goal with
  | |- context [Bool.eqb ?a ?b] => destruct (Bool.eqb a b)
  end;
  cbn [andb];
  [match goal with
   | |- context [negb ?b] => destruct b; cbn [negb]
   end|];
  cbv iota; cbn [run_trace run_res fst snd]; unfold edge_line;
  repeat match goal with
         | |- context [if ?b then _ else _] =>
             lazymatch b with
             | _ >? _ => fail
             | _ => destruct b
             end
         end;
  unfold iterations;
  cbn [app index_ok lsr_samples List.length];
  change (R_LSR =? R_LSR) with true; change (R_RBR =? R_LSR) with false;
  cbv iota; cbn [app index_ok lsr_samples List.length];
  rewrite ?Hi; cbn [andb]; repeat split.

Lemma flags_iter_index (cfg : uuart_config) (regs iters : Z)
  (st : poll_state) (w : W) :
  let x := UuartFlags.poll_iter cfg regs iters st w in
  iterations (run_trace x) = 1%nat
  /\ index_ok (st_i st) (run_trace x) = true
  /\ match run_res x with
     | Ret st' => st_i st' = st_i st + (if iters >? 0 then 1 else 0)
     | _ => True
     end.
Proof.
  intros x. subst x. rewrite flags_poll_iter_run.
  assert (Hi : (st_i st =? st_i st + 1 - 1) = true)
    by (apply Z.eqb_eq; lia).
  index_cases Hi.
Qed.

Lemma uuart_iter_index (regs : Z) (st : Uuart.poll_state) (w : W) :
  let x := Uuart.poll_iter regs st w in
  iterations (run_trace x) = 1%nat
  /\ index_ok (Uuart.st_i st) (run_trace x) = true
  /\ match run_res x with
     | Ret st' => Uuart.st_i st' = Uuart.st_i st + 1
     | _ => True
     end.
Proof.
  intros x. subst x. rewrite uuart_poll_iter_run.
  assert (Hi : (Uuart.st_i st =? Uuart.st_i st + 1 - 1) = true)
    by (apply Z.eqb_eq; lia).
  index_cases Hi.
Qed.

End PollIndex.

(** X12.  The iteration number printed by a stall/resume line is the number of
    the iteration the line is logged in.  Numbering the iterations of a run of
    the poll loop from the index the loop state holds, every stall/resume line
    prints the number of the iteration that read the line-status sample before
    it: always in [src/uuart.c], whose index is incremented by every
    iteration, and in the flag-aware program for a positive iteration count,
    the case in which its index advances. *)
Theorem X12_logged_index_is_iteration_number :
  forall (W : Type) (P : Platform W),
    (forall fuel cfg regs iters st w,
        0 < iters ->
        index_ok (UuartFlags.st_i st)
          (run_trace (UuartFlags.poll_loop fuel cfg regs iters st w)) = true)
    /\ (forall fuel regs iters st w,
           index_ok (Uuart.st_i st)
             (run_trace (Uuart.poll_loop fuel regs iters st w)) = true).
Proof.
  intros W P. split.
  - intros fuel cfg regs iters st w Hpos.
    unfold UuartFlags.poll_loop.
    refine (loop_index _ _ UuartFlags.st_i _ st w _
              (for_loop_run _ _ fuel st w)).
    intros st0 w0.
    destruct (flags_iter_index cfg regs iters st0 w0) as (H1 & H2 & H3).
    split; [exact H1|]. split; [exact H2|].
    destruct (run_res _); try exact I.
    rewrite H3. destruct (iters >? 0) eqn:Hgt; [reflexivity|].
    rewrite Z.gtb_ltb in Hgt. apply Z.ltb_ge in Hgt. lia.
  - intros fuel regs iters st w.
    unfold Uuart.poll_loop.
    refine (loop_index _ _ Uuart.st_i _ st w _
              (for_loop_run _ _ fuel st w)).
    intros st0 w0. apply uuart_iter_index.
Qed.

(** Count 3 from the initial state on a device whose clock works: the line is
    active in iteration 0, stalls in iteration 1 and resumes in iteration 2.
    The two lines logged print 1 and 2; numbering the iterations from 1
    instead of 0 does not fit them. *)
Lemma X12_logged_index_is_iteration_number_witness :
  let x := UuartFlags.poll_loop 4 UuartFlags.cfg0 4096 3 UuartFlags.poll_init
             (Sim.sim0 [0x60; 0x00; 0x60] []) in
  0 < 3
  /\ run_res x =
       Ret (LoopDone {| st_stall := false; st_i := 3;
                        st_txd := 2; st_rxd := 0 |})
  /\ filter (fun e => is_stalled e || is_resumed e) (run_trace x) =
       [EvLog (LogStalled 12 345 1 0x00); EvLog (LogResumed 12 345 2 0x60)]
  /\ index_ok 0 (run_trace x) = true
  /\ index_ok 1 (run_trace x) = false.
Proof.
  cbv zeta. split; [lia|]. split; [reflexivity|]. split; [reflexivity|].
  split; [|reflexivity].
  exact (proj1 (X12_logged_index_is_iteration_number Sim.sim Sim.sim_platform)
           4%nat UuartFlags.cfg0 4096 3 UuartFlags.poll_init
           (Sim.sim0 [0x60; 0x00; 0x60] []) eq_refl).
Defined.

(** ** The final report *)

Section FinalReport.
Context {W : Type} `{Platform W}.

Lemma flags_loop_no_report (fuel : nat) (cfg : uuart_config) (regs iters : Z)
  (st : poll_state) (w : W) :
  let t := run_trace (UuartFlags.poll_loop fuel cfg regs iters st w) in
  counter_lines t = [] /\ checkpoints t = [].
Proof.
  refine (Q_loop (fun t => counter_lines t = [] /\ checkpoints t = [])
            (conj eq_refl eq_refl) _
            (fun st => UuartFlags.loop_cond iters (st_i st))
            (UuartFlags.poll_iter cfg regs iters) _
            st w _ (for_loop_run _ _ fuel st w)).
  - intros t1 t2 [H1 H1'] [H2 H2'].
    now rewrite counter_lines_app, checkpoints_app, H1, H2, H1', H2'.
  - intros st0 w0.
    destruct (flags_iter_transfers cfg regs iters st0 w0)
      as (_ & _ & _ & Hk & Hc & _).
    now split.
Qed.

Lemma uuart_loop_no_report (fuel : nat) (regs iters : Z)
  (st : Uuart.poll_state) (w : W) :
  let t := run_trace (Uuart.poll_loop fuel regs iters st w) in
  counter_lines t = [] /\ checkpoints t = [].
Proof.
  refine (Q_loop (fun t => counter_lines t = [] /\ checkpoints t = [])
            (conj eq_refl eq_refl) _
            (fun st => Uuart.loop_cond iters (Uuart.st_i st))
            (Uuart.poll_iter regs) _
            st w _ (for_loop_run _ _ fuel st w)).
  - intros t1 t2 [H1 H1'] [H2 H2'].
    now rewrite counter_lines_app, checkpoints_app, H1, H2, H1', H2'.
  - intros st0 w0.
    destruct (uuart_iter_transfers regs st0 w0)
      as (_ & _ & _ & Hk & Hc & _).
    now split.
Qed.

(** The bytes an ended loop has moved are the bytes its counters hold. *)
Lemma flags_done_transfers (fuel : nat) (cfg : uuart_config) (regs iters : Z)
  (w : W) st' :
  iters <= INT_MAX ->
  let x := UuartFlags.poll_loop fuel cfg regs iters poll_init w in
  run_res x = Ret (LoopDone st') ->
  st_txd st' = Z.of_nat (List.length (thr_writes (run_trace x)))
  /\ st_rxd st' = Z.of_nat (List.length (putchars (run_trace x))).
Proof.
  intros Hint x Hdone.
  destruct (flags_done_counters cfg regs iters fuel w st' Hint Hdone)
    as [Ht Hr].
  fold x in Ht, Hr.
  destruct (flags_loop_counts fuel cfg regs iters poll_init w)
    as (Htw & Hrr & _).
  fold x in Htw, Hrr. unfold completed in Htw, Hrr.
  rewrite Hdone in Htw, Hrr.
  assert (Hp : putchars (run_trace x) = rbr_reads (run_trace x)).
  { exact (Q_loop (fun t => putchars t = rbr_reads t) eq_refl
             (fun t1 t2 H1 H2 =>
                eq_trans (putchars_app t1 t2)
                  (eq_trans (f_equal2 (@app Z) H1 H2)
                     (eq_sym (rbr_reads_app t1 t2))))
             (fun st => UuartFlags.loop_cond iters (st_i st))
             (UuartFlags.poll_iter cfg regs iters)
             (fun st0 w0 =>
                proj1 (proj2 (proj2
                  (flags_iter_transfers cfg regs iters st0 w0))))
             poll_init w _ (for_loop_run _ _ fuel poll_init w)). }
  rewrite Ht, Hr, Hp, Htw, Hrr. unfold tx_count, rx_count. now split.
Qed.

(** The report of a session of the flag-aware program. *)
Lemma flags_session_report (fuel : nat) (cfg : uuart_config)
  (regs iters : Z) (w : W) :
  iters <= INT_MAX ->
  let x := UuartFlags.session fuel cfg regs iters w in
  let t := run_trace x in
  counter_lines t =
    match run_res x with
    | Exited s =>
        if s =? EXIT_SUCCESS then
          (if ignore_tx cfg then []
           else [LogTransmitted (Z.of_nat (List.length (thr_writes t)))])
          ++ (if ignore_rx cfg then []
              else [LogReceived (Z.of_nat (List.length (putchars t)))])
        else []
    | _ => []
    end.
Proof.
  intros Hint x t. subst t x. rewrite flags_session_run. cbv zeta.
  set (c := UuartFlags.configure cfg regs w).
  set (d := dump_regs regs (run_world c)).
  set (l := UuartFlags.poll_loop fuel cfg regs iters poll_init (run_world d)).
  destruct (flags_configure_silent cfg regs w)
    as (Hc1 & _ & Hc2 & _ & _ & Hc3).
  destruct (dump_regs_silent regs (run_world c))
    as (Hd1 & _ & Hd2 & _ & _ & Hd3 & _).
  fold c in Hc1, Hc2, Hc3. fold d in Hd1, Hd2, Hd3.
  destruct (flags_loop_no_report fuel cfg regs iters poll_init (run_world d))
    as [Hl _].
  fold l in Hl.
  pose proof (flags_loop_fail_fast fuel cfg regs iters poll_init (run_world d))
    as Hff.
  fold l in Hff. unfold fail_fast in Hff.
  pose proof (fun st' => flags_done_transfers fuel cfg regs iters
                           (run_world d) st' Hint) as Hdone.
  cbv zeta in Hdone. fold l in Hdone.
  destruct (run_res l) as [[st | st] | s |] eqn:Hres;
    cbn [run_trace run_res fst snd];
    rewrite ?counter_lines_app, ?Hc3, ?Hd3, ?Hl; cbn [counter_lines app];
    try reflexivity.
  - destruct (Hdone st eq_refl) as [Ht Hr].
    rewrite flags_finish_run. cbv zeta. cbn [run_trace run_res fst snd].
    destruct (dump_regs_silent regs (run_world l))
      as (He1 & _ & He2 & _ & _ & He3 & _).
    change (EXIT_SUCCESS =? EXIT_SUCCESS) with true. cbv iota.
    repeat (progress (cbn [counter_lines thr_writes putchars app];
                      rewrite ?thr_writes_app, ?putchars_app,
                        ?counter_lines_app)).
    rewrite Hc1, Hc2, Hd1, Hd2, He1, He2, He3, Ht, Hr.
    cbn [counter_lines thr_writes putchars app].
    destruct (ignore_tx cfg), (ignore_rx cfg);
      cbn [counter_lines thr_writes putchars app];
      rewrite ?app_nil_r; reflexivity.
  - destruct Hff as [Hs _]. rewrite Hres in Hs. injection Hs as ->.
    reflexivity.
Qed.

End FinalReport.

Section MainReport.
Context {W : Type} `{Platform W}.

Lemma startup_silent (w : W) :
  let t := run_trace (startup w) in
  thr_writes t = [] /\ putchars t = [] /\ counter_lines t = [].
Proof.
  rewrite startup_run. cbv zeta.
  destruct (_ =? -1); [repeat split|].
  destruct (_ =? NULL); [repeat split|].
  cbn [run_trace fst snd].
  set (d := dump_regs _ _).
  destruct (dump_regs_silent (fst (sys_mmap (fst (sys_open w))
                                     (snd (sys_open w))))
              (snd (sys_mmap (fst (sys_open w)) (snd (sys_open w)))))
    as (H1 & _ & H2 & _ & _ & H3 & _).
  fold d in H1, H2, H3.
  rewrite thr_writes_app, putchars_app, counter_lines_app, H1, H2, H3.
  repeat split.
Qed.

End MainReport.

(** X13.  The final report tells the bytes actually moved.  In a run of the
    flag-aware [main] with flag options and an iteration count (an [int], so
    at most [INT_MAX]), the "Transmitted"/"Received" lines are printed only
    when the process exits with [EXIT_SUCCESS], that is when the loop has
    ended; the transmitted count is then the number of writes made to the
    transmit-holding register during the whole run and the received count the
    number of bytes put on the output stream, each line being left out when
    its direction is ignored.  A run that fails, or is still looping, prints
    no such line. *)
Theorem X13_final_report_counts_transfers :
  forall (W : Type) (P : Platform W) (fuel : nat) (opts : list ascii)
         (iters : Z) (rest : list Z) (w : W),
    let x := UuartFlags.main fuel opts (iters :: rest) w in
    let t := run_trace x in
    let cfg := with_flags cfg0 opts in
    forallb flag_option opts = true ->
    iters <= INT_MAX ->
    counter_lines t =
      match run_res x with
      | Exited s =>
          if s =? EXIT_SUCCESS then
            (if ignore_tx cfg then []
             else [LogTransmitted (Z.of_nat (List.length (thr_writes t)))])
            ++ (if ignore_rx cfg then []
                else [LogReceived (Z.of_nat (List.length (putchars t)))])
          else []
      | _ => []
      end.
Proof.
  intros W P fuel opts iters rest w x t cfg Hopts Hint. subst t x.
  pose proof (parse_options_with_flags opts Hopts cfg0 w) as Hparse.
  fold cfg in Hparse.
  rewrite (flags_main_after_parse fuel opts (iters :: rest) w cfg Hparse).
  destruct (startup_silent w) as (Hs1 & Hs2 & Hs3).
  destruct (run_res (startup w)) as [regs | s |] eqn:Hst.
  - cbv zeta. cbn [run_trace run_res fst snd].
    rewrite counter_lines_app, thr_writes_app, putchars_app, Hs1, Hs2, Hs3.
    cbn [app].
    apply (flags_session_report fuel cfg regs iters _ Hint).
  - cbn [run_trace run_res fst snd]. rewrite Hs3.
    destruct (startup_exit w s Hst) as [-> _]. reflexivity.
  - cbn [run_trace run_res fst snd]. exact Hs3.
Qed.

(** Count 3 on a device that, after the two dumps, is ready to transmit in the
    first two iterations and has data in the last two: 2 bytes each way. *)
Lemma X13_final_report_counts_transfers_witness :
  let x := UuartFlags.main 4 [] [3]
             (Sim.sim0 [0x00; 0x00; 0x20; 0x21; 0x01] []) in
  3 <= INT_MAX
  /\ run_res x = Exited EXIT_SUCCESS
  /\ counter_lines (run_trace x) = [LogTransmitted 2; LogReceived 2].
Proof.
  cbv zeta. split; [discriminate|]. split; [reflexivity|].
  exact (X13_final_report_counts_transfers Sim.sim Sim.sim_platform 4%nat []
           3 [] (Sim.sim0 [0x00; 0x00; 0x20; 0x21; 0x01] []) eq_refl
           (fun Hc : (3 ?= INT_MAX) = Gt => ltac:(discriminate Hc))).
Defined.

(** ** The checkpoint lines *)

Section Checkpoints.
Context {W : Type} `{Platform W}.

Lemma startup_checkpoints (w : W) :
  checkpoints (run_trace (startup w)) =
    match run_res (startup w) with
    | Ret _ => [LogStartup]
    | _ => []
    end.
Proof.
  rewrite startup_run. cbv zeta.
  destruct (_ =? -1); [reflexivity|].
  destruct (_ =? NULL); [reflexivity|].
  cbn [run_trace run_res fst snd].
  rewrite checkpoints_app. cbn [checkpoints app]. f_equal.
  apply dump_regs_silent.
Qed.

Lemma flags_session_checkpoints (fuel : nat) (cfg : uuart_config)
  (regs iters : Z) (w : W) :
  let x := UuartFlags.session fuel cfg regs iters w in
  checkpoints (run_trace x) =
    LogInitialised ::
      match run_res x with
      | Exited s => if s =? EXIT_SUCCESS then [LogTerminating] else []
      | _ => []
      end.
Proof.
  intros x. subst x. rewrite flags_session_run. cbv zeta.
  set (c := UuartFlags.configure cfg regs w).
  set (d := dump_regs regs (run_world c)).
  set (l := UuartFlags.poll_loop fuel cfg regs iters poll_init (run_world d)).
  destruct (flags_configure_silent cfg regs w) as (_ & _ & _ & _ & Hc & _).
  destruct (dump_regs_silent regs (run_world c))
    as (_ & _ & _ & _ & Hd & _ & _).
  fold c in Hc. fold d in Hd.
  destruct (flags_loop_no_report fuel cfg regs iters poll_init (run_world d))
    as [_ Hl].
  fold l in Hl.
  pose proof (flags_loop_fail_fast fuel cfg regs iters poll_init (run_world d))
    as Hff.
  fold l in Hff. unfold fail_fast in Hff.
  destruct (run_res l) as [[st | st] | s |] eqn:Hres;
    cbn [run_trace run_res fst snd];
    repeat (progress (cbn [checkpoints app]; rewrite ?checkpoints_app));
    rewrite ?Hc, ?Hd, ?Hl; cbn [checkpoints app];
    try reflexivity.
  - rewrite flags_finish_run. cbv zeta. cbn [run_trace run_res fst snd].
    destruct (dump_regs_silent regs (run_world l))
      as (_ & _ & _ & _ & He & _ & _).
    repeat (progress (cbn [checkpoints app]; rewrite ?checkpoints_app)).
    rewrite He.
    destruct (ignore_tx cfg), (ignore_rx cfg); reflexivity.
  - destruct Hff as [Hs _]. rewrite Hres in Hs. injection Hs as ->.
    reflexivity.
Qed.

Lemma uuart_session_checkpoints (fuel : nat) (regs iters : Z) (w : W) :
  let x := Uuart.session fuel regs iters w in
  checkpoints (run_trace x) =
    LogInitialised ::
      match run_res x with
      | Exited s => if s =? EXIT_SUCCESS then [LogTerminating] else []
      | _ => []
      end.
Proof.
  intros x. subst x. rewrite uuart_session_run. cbv zeta.
  set (c := Uuart.configure regs w).
  set (d := dump_regs regs (run_world c)).
  set (l := Uuart.poll_loop fuel regs iters Uuart.poll_init (run_world d)).
  assert (Hc : checkpoints (run_trace c) = []) by reflexivity.
  destruct (dump_regs_silent regs (run_world c))
    as (_ & _ & _ & _ & Hd & _ & _).
  fold d in Hd.
  destruct (uuart_loop_no_report fuel regs iters Uuart.poll_init (run_world d))
    as [_ Hl].
  fold l in Hl.
  pose proof (uuart_loop_fail_fast fuel regs iters Uuart.poll_init
                (run_world d)) as Hff.
  fold l in Hff. unfold fail_fast in Hff.
  destruct (run_res l) as [[st | st] | s |] eqn:Hres;
    cbn [run_trace run_res fst snd];
    repeat (progress (cbn [checkpoints app]; rewrite ?checkpoints_app));
    rewrite ?Hc, ?Hd, ?Hl; cbn [checkpoints app];
    try reflexivity.
  - destruct (dump_regs_silent regs (run_world l))
      as (_ & _ & _ & _ & He & _ & _).
    rewrite He. reflexivity.
  - destruct Hff as [Hs _]. rewrite Hres in Hs. injection Hs as ->.
    reflexivity.
Qed.

End Checkpoints.

(** X14.  The three register dumps are announced in order and the last one
    only on success.  A run of [main] of either program prints no checkpoint
    line if [startup] fails; "Startup configuration" alone if no iteration
    count is given; otherwise "Startup configuration", "Initialised
    configuration" and then "Terminating configuration" exactly when the
    process exits with [EXIT_SUCCESS]: a run ended by a clock failure, or
    still looping, never announces the terminating dump. *)
Theorem X14_checkpoint_lines :
  forall (W : Type) (P : Platform W),
    let expected (w : W) (args : list Z) (r : res unit) :=
      match run_res (startup w) with
      | Ret _ =>
          match args with
          | [] => [LogStartup]
          | _ :: _ =>
              [LogStartup; LogInitialised]
              ++ match r with
                 | Exited s =>
                     if s =? EXIT_SUCCESS then [LogTerminating] else []
                 | _ => []
                 end
          end
      | _ => []
      end in
    (forall fuel opts args w,
        let x := UuartFlags.main fuel opts args w in
        forallb flag_option opts = true ->
        checkpoints (run_trace x) = expected w args (run_res x))
    /\ (forall fuel args w,
           let x := Uuart.main fuel args w in
           checkpoints (run_trace x) = expected w args (run_res x)).
Proof.
  intros W P expected. subst expected. split.
  - intros fuel opts args w x Hopts. subst x.
    pose proof (parse_options_with_flags opts Hopts cfg0 w) as Hparse.
    rewrite (flags_main_after_parse fuel opts args w _ Hparse).
    pose proof (startup_checkpoints w) as Hs.
    destruct (run_res (startup w)) as [regs | s |] eqn:Hst;
      cbn [run_trace run_res fst snd]; try exact Hs.
    destruct args as [|iters rest]; cbn [run_trace run_res fst snd];
      [exact Hs|].
    cbv zeta. cbn [run_trace run_res fst snd].
    rewrite checkpoints_app, Hs, flags_session_checkpoints. reflexivity.
  - intros fuel args w x. subst x.
    rewrite uuart_main_unfold.
    pose proof (startup_checkpoints w) as Hs.
    destruct (run_res (startup w)) as [regs | s |] eqn:Hst;
      cbn [run_trace run_res fst snd]; try exact Hs.
    destruct args as [|iters rest]; cbn [run_trace run_res fst snd];
      [exact Hs|].
    cbv zeta. cbn [run_trace run_res fst snd].
    rewrite checkpoints_app, Hs, uuart_session_checkpoints. reflexivity.
Qed.

(** Option -D and count 2 on a device whose transmitter is idle: the loop
    ends and all three dumps are announced. *)
Lemma X14_checkpoint_lines_witness :
  let x := UuartFlags.main 4 ["D"]%char [2]
             (Sim.sim0 [0x00; 0x00; 0x60; 0x60] []) in
  forallb flag_option ["D"]%char = true
  /\ checkpoints (run_trace x) = [LogStartup; LogInitialised; LogTerminating].
Proof.
  cbv zeta. split; [reflexivity|].
  exact (proj1 (X14_checkpoint_lines Sim.sim Sim.sim_platform) 4%nat
           ["D"]%char [2] (Sim.sim0 [0x00; 0x00; 0x60; 0x60] []) eq_refl).
Defined.

(** X15.  Without flags the flag-aware program configures the device as
    [src/uuart.c] does: its configuration stores are the same four stores, of
    the same values to the same registers in the same order; the only
    difference is the load of the interrupt-enable register before the store
    that clears it. *)
Theorem X15_no_flags_configures_like_uuart :
  forall (W : Type) (P : Platform W) (regs : Z) (w : W),
    let t := run_trace (UuartFlags.configure cfg0 regs w) in
    writes t = run_trace (Uuart.configure regs w)
    /\ exists cur,
         filter (fun e => negb (is_write e)) t = [EvRead regs R_IER cur].
Proof.
  intros W P regs w t. subst t.
  destruct (flags_configure_run cfg0 regs w) as [_ Ht]. rewrite Ht.
  cbn [cfg0 assume_enabled assume_fifos assume_dtr ignore_tx ignore_rx app].
  unfold writes. cbn [filter is_write negb].
  rewrite spec_ier_rule_none by apply to_u8_range.
  split; [reflexivity | eexists; reflexivity].
Qed.
